(** * TimeTabling: the constraint-model builder and the solution validator

    A shallow embedding of the Python sources of the timetabling program
    (HelperFunctions.py, Timeslot.py, Teacher.py, Course.py, Lesson.py,
    Solution.py, HardConstraints.py, SoftConstraints.py,
    SoftConstraintWeights.py, SolutionValidation.py, TimeTabling.py) and the
    properties of the specification that are stated about them.

    Conventions.
    - Python integers are [Z]; entity objects are referred to by their primary
      key (a [nat]); the columns of an entity live in a row record that is
      looked up through the catalog ([ORM]) or, for the teacher rows that the
      builder rewrites, through the builder state.
    - An exception is a value of [exc]; code that can raise runs in the [exc]
      monad, the model builder in a state-and-exception monad [Build].
    - An OR-Tools variable is its index in the model's variable list. *)

From Stdlib Require Import ZArith List String Ascii Bool Lia.
From stdpp Require Import base tactics option functions gmap list.

Open Scope Z_scope.

#[global] Set Warnings "-clear-no-such-hyp".

(* ===================================================================== *)
(** * Part I: the embedding                                                *)
(* ===================================================================== *)

(** ** Python runtime: exceptions *)

Inductive PyError : Set :=
| KeyError
| NameError
| IndexError
| AttributeError
| StopIteration
| ValueError
| ArgumentTypeError.

Inductive exc (A : Type) : Type :=
| Ok (a : A)
| Raise (e : PyError).
Arguments Ok {A} a.
Arguments Raise {A} e.

Definition exc_bind {A B : Type} (c : exc A) (k : A -> exc B) : exc B :=
  match c with
  | Ok a => k a
  | Raise e => Raise e
  end.

Notation "'let!' x ':=' c 'in' k" := (exc_bind c (fun x => k))
  (at level 10, x name, c at level 100, k at level 200).

(** [for x in l: acc = f acc x], where the body may raise. *)
Fixpoint exc_fold {A B : Type} (f : B -> A -> exc B) (l : list A) (b : B) : exc B :=
  match l with
  | [] => Ok b
  | x :: rest => let! b' := f b x in exc_fold f rest b'
  end.

(** [list(map(f, l))] where [f] may raise. *)
Fixpoint exc_map {A B : Type} (f : A -> exc B) (l : list A) : exc (list B) :=
  match l with
  | [] => Ok []
  | x :: rest => let! y := f x in let! ys := exc_map f rest in Ok (y :: ys)
  end.

(** [l[i]]: a negative index counts from the end. *)
Definition py_index {A : Type} (l : list A) (i : Z) : exc A :=
  let j := if 0 <=? i then i else Z.of_nat (length l) + i in
  if j <? 0 then Raise IndexError
  else match l !! Z.to_nat j with
       | Some x => Ok x
       | None => Raise IndexError
       end.

(** [range(0, n)] *)
Definition range (n : Z) : list Z := map Z.of_nat (seq 0 (Z.to_nat n)).

(** [max(l)] on integers. *)
Definition py_max (l : list Z) : exc Z :=
  match l with
  | [] => Raise ValueError
  | x :: rest => Ok (fold_left Z.max rest x)
  end.

(** [set(l)] as the list of first occurrences, for keys with decidable
    equality (object identity is equality of primary keys). *)
Fixpoint py_set {A : Type} `{EqDecision A} (l : list A) : list A :=
  match l with
  | [] => []
  | x :: rest => x :: filter (fun y => y <> x) (py_set rest)
  end.

(** [x in l] *)
Definition py_in {A : Type} `{EqDecision A} (x : A) (l : list A) : bool :=
  existsb (fun y => bool_decide (x = y)) l.

(** ** HelperFunctions.py *)

(** [flatMap(mapFunc, iterable)] *)
Definition flatMap {A B : Type} (mapFunc : A -> list B) (iterable : list A) : list B :=
  flat_map mapFunc iterable.

(** [intersectAll(iterables)]: [next(it)] raises on an empty argument. *)
Definition intersectAll {A : Type} `{EqDecision A} (iterables : list (list A)) : exc (list A) :=
  match iterables with
  | [] => Raise StopIteration
  | first :: others =>
      Ok (fold_left (fun firstSet i => filter (fun x => py_in x i = true) firstSet)
                    others (py_set first))
  end.




(** ** Timeslot.py *)

(** The weekday string constants "MO", "TU", "WE", "TH", "FR". *)
Inductive Weekday : Set := MO | TU | WE | TH | FR.

Global Instance Weekday_eq_dec : EqDecision Weekday.
Proof. solve_decision. Defined.

Module Timeslot.
Record t : Set := {
  id : Z;             (* primary key *)
  weekday : Weekday;
  weekday_number : Z;
  number : Z          (* the number of the timeslot in its day, from 1 *)
}.

(** The dict [days] of [getWeekdayID]. *)
Definition days (weekday : Weekday) : Z :=
  match weekday with MO => 1 | TU => 2 | WE => 3 | TH => 4 | FR => 5 end.

(** [Timeslot.getWeekdayID(weekday)]: the argument is a nullable column,
    and [days[None]] raises. *)
Definition getWeekdayID (weekday : option Weekday) : exc Z :=
  match weekday with
  | Some d => Ok (days d)
  | None => Raise KeyError
  end.

(** [Timeslot.getForenoonTimeslotNumbers()] *)
Definition getForenoonTimeslotNumbers : list Z := [1; 2; 3].
End Timeslot.

Global Instance Timeslot_eq_dec : EqDecision Timeslot.t.
Proof. solve_decision. Defined.

Definition Weekday_code (d : Weekday) : nat :=
  match d with MO => 0 | TU => 1 | WE => 2 | TH => 3 | FR => 4 end%nat.
Definition Weekday_decode (n : nat) : Weekday :=
  match n with 0 => MO | 1 => TU | 2 => WE | 3 => TH | _ => FR end%nat.

Global Instance Weekday_countable : Countable Weekday.
Proof.
  apply (inj_countable' Weekday_code Weekday_decode). intros []; reflexivity.
Defined.

Global Instance Timeslot_countable : Countable Timeslot.t.
Proof.
  apply (inj_countable'
           (fun t => (Timeslot.id t, Timeslot.weekday t,
                      Timeslot.weekday_number t, Timeslot.number t))
           (fun p => match p with
                     | (i, d, w, n) =>
                         {| Timeslot.id := i; Timeslot.weekday := d;
                            Timeslot.weekday_number := w; Timeslot.number := n |}
                     end)).
  intros []; reflexivity.
Defined.

(** ** Teacher.py, Course.py, Lesson.py: the rows of the entities *)

Module Teacher.
Record t : Type := {
  study_day_1 : option Weekday;
  study_day_2 : option Weekday;
  max_lessons_per_day : Z;
  max_lectures_per_day : Z;
  max_lectures_as_block : Z;
  avoid_free_day_gaps : bool;
  not_available_timeslots : list Timeslot.t;
  lessons : list nat              (* back-reference of [Lesson.teachers] *)
}.

(** [teacher.hasStudyday()] *)
Definition hasStudyday (self : t) : bool :=
  match study_day_1 self, study_day_2 self with
  | Some _, Some _ => true
  | _, _ => false
  end.

Definition set_max_lectures_per_day (v : Z) (self : t) : t :=
  {| study_day_1 := study_day_1 self; study_day_2 := study_day_2 self;
     max_lessons_per_day := max_lessons_per_day self;
     max_lectures_per_day := v;
     max_lectures_as_block := max_lectures_as_block self;
     avoid_free_day_gaps := avoid_free_day_gaps self;
     not_available_timeslots := not_available_timeslots self;
     lessons := lessons self |}.

Definition set_max_lectures_as_block (v : Z) (self : t) : t :=
  {| study_day_1 := study_day_1 self; study_day_2 := study_day_2 self;
     max_lessons_per_day := max_lessons_per_day self;
     max_lectures_per_day := max_lectures_per_day self;
     max_lectures_as_block := v;
     avoid_free_day_gaps := avoid_free_day_gaps self;
     not_available_timeslots := not_available_timeslots self;
     lessons := lessons self |}.
End Teacher.

Module Course.
Record t : Type := {
  only_forenoon : bool;
  all_in_one_block : bool;
  is_lecture : bool;
  one_per_day_per_teacher : bool;
  possible_rooms : list nat;
  semester_groups : list nat;
  lessons : list nat
}.
End Course.

Module Lesson.
Record t : Type := {
  whole_semester_group : bool;
  timeslot_size : Z;
  course : nat;
  teachers : list nat;
  available_timeslots : list Timeslot.t;
  lessons_at_same_time : list nat;
  lessons_consecutive : list nat;
  (* attached by the loader in ORM.py: the timeslots left by the teachers'
     availability, the forenoon restriction and [available_timeslots] *)
  availableTimeslotsFiltered : list Timeslot.t
}.
End Lesson.

Module SemesterGroup.
Record t : Type := {
  max_lessons_per_day : Z;
  free_day : option Weekday;
  courses : list nat              (* back-reference of [Course.semester_groups] *)
}.
End SemesterGroup.

(** ** ORM.py: the catalog

    ORM.py is not among the sources; what the builder and the validator read
    from it is taken as data: the constants, the entity lists in loading
    order, the timeslots grouped by weekday, the same-time groups, and the
    rows behind the semester group, course and lesson keys. The teacher rows are kept in the
    builder state, because the builder rewrites two of their columns. *)
Record ORM : Type := {
  TIMESLOTS_PER_DAY : Z;
  getTimeslots : list Timeslot.t;
  getTimeslotsPerDay : list (list Timeslot.t);
  getRooms : list nat;
  getTeachers : list nat;
  getSemesterGroups : list nat;
  getCourses : list nat;
  getLessons : list nat;
  getLessonsAtSameTimeSets : list (list nat);
  semester_group_row : nat -> SemesterGroup.t;
  course_row : nat -> Course.t;
  lesson_row : nat -> Lesson.t
}.

(** Modelled from the spec: the constant [WEEKDAYS] of ORM.py
    ("Global constants: TIMESLOTS_PER_DAY (typical value 6), WEEKDAYS = 5"). *)
Definition WEEKDAYS : Z := 5.

(** Modelled from the spec: the timeslot table that ORM.py loads, which is
    not among the sources ("Timeslot ids are assumed contiguous starting at
    1, ordered (weekday_number - 1) * TIMESLOTS_PER_DAY + number_in_day";
    "timeslots grouped by weekday (five groups of TIMESLOTS_PER_DAY slots)",
    number_in_day ascending within a day). *)
Definition weekdayOfNumber (d : Z) : Weekday :=
  if d =? 1 then MO else if d =? 2 then TU else if d =? 3 then WE
  else if d =? 4 then TH else FR.

Definition timeslotsOfDay (tpd d : Z) : list Timeslot.t :=
  map (fun i => {| Timeslot.id := (d - 1) * tpd + (i + 1);
                   Timeslot.weekday := weekdayOfNumber d;
                   Timeslot.weekday_number := d;
                   Timeslot.number := i + 1 |})
      (range tpd).

Definition week (tpd : Z) : list (list Timeslot.t) :=
  map (timeslotsOfDay tpd) [1; 2; 3; 4; 5].

Definition canonical_week (orm : ORM) : Prop :=
  getTimeslotsPerDay orm = week (TIMESLOTS_PER_DAY orm) /\
  getTimeslots orm = concat (week (TIMESLOTS_PER_DAY orm)).

(** ** Solution.py *)

Definition LESSON_IDX {A B : Type} (tu : A * B) : A := fst tu.
Definition ROOM_IDX {A B : Type} (tu : A * B) : B := snd tu.

Module Solution.
(** [timeslotMap] is a dict in insertion order: timeslot -> list of
    (lesson, room) tuples. *)
Record t : Type := {
  solutionIndex : Z;
  objectiveValue : Z;
  timeslotMap : list (Timeslot.t * list (nat * nat))
}.

Fixpoint dict_get {V : Type} (d : list (Timeslot.t * V)) (k : Timeslot.t) : exc V :=
  match d with
  | [] => Raise KeyError
  | (k', v) :: rest => if decide (k = k') then Ok v else dict_get rest k
  end.

Fixpoint dict_set {V : Type} (d : list (Timeslot.t * V)) (k : Timeslot.t) (v : V)
  : list (Timeslot.t * V) :=
  match d with
  | [] => [(k, v)]
  | (k', v') :: rest =>
      if decide (k = k') then (k', v) :: rest else (k', v') :: dict_set rest k v
  end.

(** [Solution(solutionIndex, orm, objectiveValue)] *)
Definition init (solutionIndex : Z) (orm : ORM) (objectiveValue : Z) : t :=
  {| solutionIndex := solutionIndex;
     objectiveValue := objectiveValue;
     timeslotMap := fold_left (fun d timeslot => dict_set d timeslot [])
                              (getTimeslots orm) [] |}.

(** [solution.addLesson(lesson, room, timeslot)] *)
Definition addLesson (self : t) (lesson room : nat) (timeslot : Timeslot.t) : exc t :=
  let! entries := dict_get (timeslotMap self) timeslot in
  Ok {| solutionIndex := solutionIndex self;
        objectiveValue := objectiveValue self;
        timeslotMap := dict_set (timeslotMap self) timeslot (entries ++ [(lesson, room)]) |}.

Definition getTimeTableMap (self : t) := timeslotMap self.

(** [solution.getLessonsAtTimeslot(timeslot)] *)
Definition getLessonsAtTimeslot (self : t) (timeslot : Timeslot.t) : exc (list nat) :=
  let! entries := dict_get (timeslotMap self) timeslot in
  Ok (map LESSON_IDX entries).

(** [solution.getTimeslotsOfLesson(lesson)] *)
Definition getTimeslotsOfLesson (self : t) (lesson : nat) : list Timeslot.t :=
  flat_map (fun item =>
              flat_map (fun tu => if decide (LESSON_IDX tu = lesson) then [fst item] else [])
                       (snd item))
           (timeslotMap self).
End Solution.

(** ** The CP-SAT model (ortools.sat.python.cp_model)

    The solver is outside the repository; the builder uses it through the
    capabilities below. A variable is its index in the model. *)

Definition IntVar := nat.

Inductive Domain : Type :=
| FromValues (values : list Z)          (* [Domain.FromValues(values)] *)
| FromInterval (lo hi : Z).             (* [NewIntVar(lo, hi, name)] *)

Inductive Literal : Type :=
| Lit (v : IntVar)
| Not (v : IntVar).                     (* [v.Not()] *)

#[local] Set Warnings "-register-all".
Inductive LinearExpr : Type :=
| Var (v : IntVar)
| NotVar (v : IntVar)                   (* [v.Not()] inside an expression: 1 - v *)
| Const (c : Z)
| Plus (a b : LinearExpr)
| Minus (a b : LinearExpr)
| Times (a : LinearExpr) (k : Z)
| Sum (es : list LinearExpr).           (* [LinearExpr.Sum(es)] *)

(** The builtin [sum(es)]: [0 + e1 + e2 + ...]. *)
Definition py_sum (es : list LinearExpr) : LinearExpr :=
  fold_left Plus es (Const 0).

Inductive BoundedLinearExpression : Type :=
| Eq (a b : LinearExpr)                 (* [a == b] *)
| Ne (a b : LinearExpr)                 (* [a != b] *)
| Le (a b : LinearExpr)                 (* [a <= b] *)
| Bounds (e : LinearExpr) (lo hi : Z).  (* [BoundedLinearExpression(e, [lo, hi])] *)

Inductive Constraint : Type :=
| Linear (b : BoundedLinearExpression)                       (* [model.Add(b)] *)
| BoolOr (lits : list Literal)                               (* [model.AddBoolOr] *)
| ForbiddenAssignments (vars : list IntVar) (tuples : list (list Z))
| OnlyEnforceIf (c : Constraint) (lit : Literal).            (* [c.OnlyEnforceIf(lit)] *)

Record CpModel : Type := {
  variables : list Domain;
  constraints : list Constraint;
  objective : option LinearExpr          (* [model.Minimize(e)] *)
}.

(** *** What a solver assignment satisfies *)

Definition Assignment := IntVar -> Z.

Fixpoint eval (val : Assignment) (e : LinearExpr) : Z :=
  match e with
  | Var v => val v
  | NotVar v => 1 - val v
  | Const c => c
  | Plus a b => eval val a + eval val b
  | Minus a b => eval val a - eval val b
  | Times a k => eval val a * k
  | Sum es => fold_right (fun e acc => eval val e + acc) 0 es
  end.

Definition in_domain (z : Z) (d : Domain) : bool :=
  match d with
  | FromValues values => existsb (Z.eqb z) values
  | FromInterval lo hi => (lo <=? z) && (z <=? hi)
  end.

Definition lit_holds (val : Assignment) (l : Literal) : bool :=
  match l with
  | Lit v => val v =? 1
  | Not v => val v =? 0
  end.

Definition bounded_holds (val : Assignment) (b : BoundedLinearExpression) : bool :=
  match b with
  | Eq a b => eval val a =? eval val b
  | Ne a b => negb (eval val a =? eval val b)
  | Le a b => eval val a <=? eval val b
  | Bounds e lo hi => (lo <=? eval val e) && (eval val e <=? hi)
  end.

Fixpoint holds (val : Assignment) (c : Constraint) : bool :=
  match c with
  | Linear b => bounded_holds val b
  | BoolOr lits => existsb (lit_holds val) lits
  | ForbiddenAssignments vars tuples =>
      negb (existsb (fun tuple => bool_decide (map val vars = tuple)) tuples)
  | OnlyEnforceIf c lit => implb (lit_holds val lit) (holds val c)
  end.

(** A feasible assignment keeps every variable in its domain and satisfies
    every constraint of the model. *)
Definition feasible (val : Assignment) (m : CpModel) : Prop :=
  (forall (v : IntVar) d, variables m !! v = Some d -> in_domain (val v) d = true) /\
  (forall c, c ∈ constraints m -> holds val c = true).

(** ** The builder state

    The builder attaches the variables it creates to the entity objects
    (Python instance attributes added after creation); [hasattr] is the
    presence of the key. The teacher rows are part of the state. *)
Record State : Type := {
  model : CpModel;
  teacher_row : nat -> Teacher.t;
  roomVar : gmap nat IntVar;   (* lesson.roomVar *)
  timeVars : gmap nat (list IntVar);   (* lesson.timeVars *)
  weekdayVar : gmap nat IntVar;   (* lesson.weekdayVar *)
  hourNumberVar : gmap nat IntVar;   (* lesson.hourNumberVar *)
  weekdayBoolVars : gmap nat (list IntVar);   (* lesson.weekdayBoolVars *)
  timeslotBoolVars : gmap nat (list IntVar);   (* lesson.timeslotBoolVars *)
  timeslotLectureBoolMap : gmap nat (gmap Timeslot.t IntVar);   (* teacher.timeslotLectureBoolMap *)
  studyDay1BoolVar : gmap nat IntVar;   (* teacher.studyDay1BoolVar *)
  studyDay2BoolVar : gmap nat IntVar;   (* teacher.studyDay2BoolVar *)
  gapCounts : gmap nat (IntVar * IntVar * IntVar * IntVar);   (* sg.oneGapCount .. sg.fourGapCount *)
  dayGapCounts : gmap nat (IntVar * IntVar * IntVar);   (* teacher.oneDayGapCount .. threeDayGapCount *)
  lessonsOnFreeDay : gmap nat IntVar   (* sg.lessonsOnFreeDay *)
}.

Definition upd_model (f : (CpModel) -> (CpModel)) (s : State) : State :=
  {| model := f (model s);
     teacher_row := teacher_row s;
     roomVar := roomVar s;
     timeVars := timeVars s;
     weekdayVar := weekdayVar s;
     hourNumberVar := hourNumberVar s;
     weekdayBoolVars := weekdayBoolVars s;
     timeslotBoolVars := timeslotBoolVars s;
     timeslotLectureBoolMap := timeslotLectureBoolMap s;
     studyDay1BoolVar := studyDay1BoolVar s;
     studyDay2BoolVar := studyDay2BoolVar s;
     gapCounts := gapCounts s;
     dayGapCounts := dayGapCounts s;
     lessonsOnFreeDay := lessonsOnFreeDay s |}.


Definition upd_roomVar (f : (gmap nat IntVar) -> (gmap nat IntVar)) (s : State) : State :=
  {| model := model s;
     teacher_row := teacher_row s;
     roomVar := f (roomVar s);
     timeVars := timeVars s;
     weekdayVar := weekdayVar s;
     hourNumberVar := hourNumberVar s;
     weekdayBoolVars := weekdayBoolVars s;
     timeslotBoolVars := timeslotBoolVars s;
     timeslotLectureBoolMap := timeslotLectureBoolMap s;
     studyDay1BoolVar := studyDay1BoolVar s;
     studyDay2BoolVar := studyDay2BoolVar s;
     gapCounts := gapCounts s;
     dayGapCounts := dayGapCounts s;
     lessonsOnFreeDay := lessonsOnFreeDay s |}.

Definition upd_timeVars (f : (gmap nat (list IntVar)) -> (gmap nat (list IntVar))) (s : State) : State :=
  {| model := model s;
     teacher_row := teacher_row s;
     roomVar := roomVar s;
     timeVars := f (timeVars s);
     weekdayVar := weekdayVar s;
     hourNumberVar := hourNumberVar s;
     weekdayBoolVars := weekdayBoolVars s;
     timeslotBoolVars := timeslotBoolVars s;
     timeslotLectureBoolMap := timeslotLectureBoolMap s;
     studyDay1BoolVar := studyDay1BoolVar s;
     studyDay2BoolVar := studyDay2BoolVar s;
     gapCounts := gapCounts s;
     dayGapCounts := dayGapCounts s;
     lessonsOnFreeDay := lessonsOnFreeDay s |}.

Definition upd_weekdayVar (f : (gmap nat IntVar) -> (gmap nat IntVar)) (s : State) : State :=
  {| model := model s;
     teacher_row := teacher_row s;
     roomVar := roomVar s;
     timeVars := timeVars s;
     weekdayVar := f (weekdayVar s);
     hourNumberVar := hourNumberVar s;
     weekdayBoolVars := weekdayBoolVars s;
     timeslotBoolVars := timeslotBoolVars s;
     timeslotLectureBoolMap := timeslotLectureBoolMap s;
     studyDay1BoolVar := studyDay1BoolVar s;
     studyDay2BoolVar := studyDay2BoolVar s;
     gapCounts := gapCounts s;
     dayGapCounts := dayGapCounts s;
     lessonsOnFreeDay := lessonsOnFreeDay s |}.

Definition upd_hourNumberVar (f : (gmap nat IntVar) -> (gmap nat IntVar)) (s : State) : State :=
  {| model := model s;
     teacher_row := teacher_row s;
     roomVar := roomVar s;
     timeVars := timeVars s;
     weekdayVar := weekdayVar s;
     hourNumberVar := f (hourNumberVar s);
     weekdayBoolVars := weekdayBoolVars s;
     timeslotBoolVars := timeslotBoolVars s;
     timeslotLectureBoolMap := timeslotLectureBoolMap s;
     studyDay1BoolVar := studyDay1BoolVar s;
     studyDay2BoolVar := studyDay2BoolVar s;
     gapCounts := gapCounts s;
     dayGapCounts := dayGapCounts s;
     lessonsOnFreeDay := lessonsOnFreeDay s |}.

Definition upd_weekdayBoolVars (f : (gmap nat (list IntVar)) -> (gmap nat (list IntVar))) (s : State) : State :=
  {| model := model s;
     teacher_row := teacher_row s;
     roomVar := roomVar s;
     timeVars := timeVars s;
     weekdayVar := weekdayVar s;
     hourNumberVar := hourNumberVar s;
     weekdayBoolVars := f (weekdayBoolVars s);
     timeslotBoolVars := timeslotBoolVars s;
     timeslotLectureBoolMap := timeslotLectureBoolMap s;
     studyDay1BoolVar := studyDay1BoolVar s;
     studyDay2BoolVar := studyDay2BoolVar s;
     gapCounts := gapCounts s;
     dayGapCounts := dayGapCounts s;
     lessonsOnFreeDay := lessonsOnFreeDay s |}.

Definition upd_studyDay1BoolVar (f : (gmap nat IntVar) -> (gmap nat IntVar)) (s : State) : State :=
  {| model := model s;
     teacher_row := teacher_row s;
     roomVar := roomVar s;
     timeVars := timeVars s;
     weekdayVar := weekdayVar s;
     hourNumberVar := hourNumberVar s;
     weekdayBoolVars := weekdayBoolVars s;
     timeslotBoolVars := timeslotBoolVars s;
     timeslotLectureBoolMap := timeslotLectureBoolMap s;
     studyDay1BoolVar := f (studyDay1BoolVar s);
     studyDay2BoolVar := studyDay2BoolVar s;
     gapCounts := gapCounts s;
     dayGapCounts := dayGapCounts s;
     lessonsOnFreeDay := lessonsOnFreeDay s |}.

Definition upd_studyDay2BoolVar (f : (gmap nat IntVar) -> (gmap nat IntVar)) (s : State) : State :=
  {| model := model s;
     teacher_row := teacher_row s;
     roomVar := roomVar s;
     timeVars := timeVars s;
     weekdayVar := weekdayVar s;
     hourNumberVar := hourNumberVar s;
     weekdayBoolVars := weekdayBoolVars s;
     timeslotBoolVars := timeslotBoolVars s;
     timeslotLectureBoolMap := timeslotLectureBoolMap s;
     studyDay1BoolVar := studyDay1BoolVar s;
     studyDay2BoolVar := f (studyDay2BoolVar s);
     gapCounts := gapCounts s;
     dayGapCounts := dayGapCounts s;
     lessonsOnFreeDay := lessonsOnFreeDay s |}.

(** ** The builder monad: state and exceptions *)

Definition Build (A : Type) : Type := State -> exc (A * State).

Definition ret {A : Type} (a : A) : Build A := fun s => Ok (a, s).

Definition bind {A B : Type} (c : Build A) (k : A -> Build B) : Build B :=
  fun s => match c s with
           | Ok (a, s') => k a s'
           | Raise e => Raise e
           end.

Notation "'let*' x ':=' c 'in' k" := (bind c (fun x => k))
  (at level 10, x name, c at level 100, k at level 200).

Definition lift {A : Type} (e : exc A) : Build A :=
  fun s => match e with
           | Ok a => Ok (a, s)
           | Raise err => Raise err
           end.

Definition get {A : Type} (f : State -> A) : Build A := fun s => Ok (f s, s).

Definition modify (f : State -> State) : Build unit := fun s => Ok (tt, f s).

(** A [for] loop that carries the local variables [b]. *)
Fixpoint foldM {A B : Type} (f : B -> A -> Build B) (l : list A) (b : B) : Build B :=
  match l with
  | [] => ret b
  | x :: rest => let* b' := f b x in foldM f rest b'
  end.

Definition for_each {A : Type} (l : list A) (body : A -> Build unit) : Build unit :=
  foldM (fun _ x => body x) l tt.


(** [obj.field]: raises when the attribute has not been attached. *)
Definition getattr {V : Type} (field : State -> gmap nat V) (obj : nat) : Build V :=
  fun s => match field s !! obj with
           | Some v => Ok (v, s)
           | None => Raise AttributeError
           end.

Definition hasattr {V : Type} (field : State -> gmap nat V) (obj : nat) : Build bool :=
  fun s => Ok (match field s !! obj with Some _ => true | None => false end, s).

(** *** The model capabilities *)

Definition add_variable (d : Domain) (m : CpModel) : CpModel :=
  {| variables := variables m ++ [d]; constraints := constraints m;
     objective := objective m |}.

Definition add_constraint (c : Constraint) (m : CpModel) : CpModel :=
  {| variables := variables m; constraints := constraints m ++ [c];
     objective := objective m |}.

Definition set_objective (e : LinearExpr) (m : CpModel) : CpModel :=
  {| variables := variables m; constraints := constraints m;
     objective := Some e |}.

Definition NewIntVarFromDomain (d : Domain) : Build IntVar :=
  fun s => Ok (length (variables (model s)), upd_model (add_variable d) s).

Definition NewIntVar (lo hi : Z) : Build IntVar :=
  NewIntVarFromDomain (FromInterval lo hi).

Definition NewBoolVar : Build IntVar := NewIntVar 0 1.

Definition AddConstraint (c : Constraint) : Build unit :=
  modify (upd_model (add_constraint c)).

Definition Add (b : BoundedLinearExpression) : Build unit :=
  AddConstraint (Linear b).

Definition Minimize (e : LinearExpr) : Build unit :=
  modify (upd_model (set_objective e)).

(** ** HardConstraints.py

    The functions return the numbers of created variables and constraints
    for the log; the counters are left out. *)

Definition timeslot_size (orm : ORM) (l : nat) : Z :=
  Lesson.timeslot_size (lesson_row orm l).

Definition lessons_at_same_time (orm : ORM) (l : nat) : list nat :=
  Lesson.lessons_at_same_time (lesson_row orm l).

(** [l.course.is_lecture] *)
Definition is_lecture (orm : ORM) (l : nat) : bool :=
  Course.is_lecture (course_row orm (Lesson.course (lesson_row orm l))).


(** [s.add(x)] on a set kept as the list of its elements. *)
Definition set_add {A : Type} `{EqDecision A} (x : A) (s : list A) : list A :=
  if py_in x s then s else s ++ [x].

(** [d[k]] on a dict attached to an entity. *)
Definition dict_lookup {K V : Type} `{Countable K} (d : gmap K V) (k : K) : exc V :=
  match d !! k with
  | Some v => Ok v
  | None => Raise KeyError
  end.

Section HardConstraints.
Variable orm : ORM.

(** The body of the loop [for i in range(0, maxLessonSize)] of
    [createLessonTimeAndRoomVariables]; [lastTimeVar] is the loop's local
    variable. An [IntVar] object is true in a condition. *)
Definition createTimeVar (lessonsSameTime : list nat) (maxLessonSize : Z)
           (lastTimeVar : option IntVar) (i : Z) : Build (option IntVar) :=
  let lessonsWithCurrentSize :=
    filter (fun l => i < timeslot_size orm l) lessonsSameTime in
  let* availableTimeslots :=
    lift (intersectAll (map (fun l => Lesson.availableTimeslotsFiltered (lesson_row orm l))
                            lessonsWithCurrentSize)) in
  let lastPossibleTimeslotNumber := TIMESLOTS_PER_DAY orm - maxLessonSize + i + 1 in
  let timeslots :=
    filter (fun t => Timeslot.number t <= lastPossibleTimeslotNumber) availableTimeslots in
  let timeDomain := FromValues (map Timeslot.id timeslots) in
  let* timeVar := NewIntVarFromDomain timeDomain in
  let* _ := for_each lessonsWithCurrentSize (fun lessonSameTime =>
              let* tv := getattr timeVars lessonSameTime in
              modify (upd_timeVars (<[lessonSameTime := tv ++ [timeVar]]>))) in
  let* _ := match lastTimeVar with
            | Some last => Add (Eq (Var timeVar) (Plus (Var last) (Const 1)))
            | None => ret tt
            end in
  ret (Some timeVar).

(** The block under [if not hasattr(lesson, "timeVars")]. *)
Definition createTimeVarsOfGroup (lesson : nat) : Build unit :=
  let lessonsSameTime := lesson :: lessons_at_same_time orm lesson in
  let* maxLessonSize := lift (py_max (map (timeslot_size orm) lessonsSameTime)) in
  let* _ := for_each lessonsSameTime (fun l => modify (upd_timeVars (<[l := []]>))) in
  let* _ := foldM (createTimeVar lessonsSameTime maxLessonSize) (range maxLessonSize) None in
  ret tt.

(** [createLessonTimeAndRoomVariables(model, orm)] *)
Definition createLessonTimeAndRoomVariables : Build unit :=
  for_each (getCourses orm) (fun course =>
    let roomDomain :=
      FromValues (map Z.of_nat (Course.possible_rooms (course_row orm course))) in
    for_each (Course.lessons (course_row orm course)) (fun lesson =>
      let* rv := NewIntVarFromDomain roomDomain in
      let* _ := modify (upd_roomVar (<[lesson := rv]>)) in
      let* has := hasattr timeVars lesson in
      if has then ret tt else createTimeVarsOfGroup lesson)).

(** The body of [for weekday in orm.getTimeslotsPerDay()] of
    [createLessonTimeHelperVariables]. *)
Definition createWeekdayBoolVar (lesson : nat) (weekday : list Timeslot.t) : Build unit :=
  let* dayB := NewBoolVar in
  let* bs := getattr weekdayBoolVars lesson in
  let* _ := modify (upd_weekdayBoolVars (<[lesson := bs ++ [dayB]]>)) in
  let* tv := getattr timeVars lesson in
  let* t0 := lift (py_index tv 0) in
  let* first := lift (py_index weekday 0) in
  let* last := lift (py_index weekday (-1)) in
  AddConstraint
    (OnlyEnforceIf (Linear (Bounds (Var t0) (Timeslot.id first) (Timeslot.id last)))
                   (Lit dayB)).

(** The block under [if not (hasattr(lesson, "weekdayVar") and ...)]. *)
Definition createHelperVariablesOfLesson (lesson : nat) : Build unit :=
  let* W := NewIntVar 1 WEEKDAYS in
  let* _ := modify (upd_weekdayVar (<[lesson := W]>)) in
  let* H := NewIntVar 1 (TIMESLOTS_PER_DAY orm) in
  let* _ := modify (upd_hourNumberVar (<[lesson := H]>)) in
  let* tv := getattr timeVars lesson in
  let* t0 := lift (py_index tv 0) in
  let* _ := Add (Eq (Var t0)
                    (Plus (Times (Minus (Var W) (Const 1)) (TIMESLOTS_PER_DAY orm))
                          (Var H))) in
  let* _ := modify (upd_weekdayBoolVars (<[lesson := []]>)) in
  let* _ := for_each (getTimeslotsPerDay orm) (createWeekdayBoolVar lesson) in
  let* bs := getattr weekdayBoolVars lesson in
  let* _ := Add (Eq (py_sum (map Var bs)) (Const 1)) in
  for_each (lessons_at_same_time orm lesson) (fun sameTimeLesson =>
    let* w := getattr weekdayVar lesson in
    let* _ := modify (upd_weekdayVar (<[sameTimeLesson := w]>)) in
    let* h := getattr hourNumberVar lesson in
    let* _ := modify (upd_hourNumberVar (<[sameTimeLesson := h]>)) in
    let* bs := getattr weekdayBoolVars lesson in
    modify (upd_weekdayBoolVars (<[sameTimeLesson := bs]>))).

(** [createLessonTimeHelperVariables(model, orm)] *)
Definition createLessonTimeHelperVariables : Build unit :=
  for_each (getCourses orm) (fun course =>
    for_each (Course.lessons (course_row orm course)) (fun lesson =>
      let* h1 := hasattr weekdayVar lesson in
      let* h2 := hasattr hourNumberVar lesson in
      let* h3 := hasattr weekdayBoolVars lesson in
      if h1 && h2 && h3 then ret tt else createHelperVariablesOfLesson lesson)).

(** The body of [for lesson in teacher.lessons] of
    [addTeacherStudyDayConstraints]. *)
Definition addStudyDayConstraintsOfLesson (teacher : nat) (studyDay1ID studyDay2ID : Z)
           (lesson : nat) : Build unit :=
  let* W := getattr weekdayVar lesson in
  let* S1 := getattr studyDay1BoolVar teacher in
  let* _ := AddConstraint
              (OnlyEnforceIf (Linear (Ne (Const studyDay1ID) (Var W))) (Lit S1)) in
  if negb (studyDay1ID =? studyDay2ID) then
    let* W := getattr weekdayVar lesson in
    let* S2 := getattr studyDay2BoolVar teacher in
    AddConstraint (OnlyEnforceIf (Linear (Ne (Const studyDay2ID) (Var W))) (Lit S2))
  else ret tt.

(** The body of the loop over the teachers with a study day. *)
Definition addStudyDayConstraintsOfTeacher (teacher : nat) : Build unit :=
  let* rows := get teacher_row in
  let* studyDay1ID := lift (Timeslot.getWeekdayID (Teacher.study_day_1 (rows teacher))) in
  let* studyDay2ID := lift (Timeslot.getWeekdayID (Teacher.study_day_2 (rows teacher))) in
  if (0 <? length (Teacher.lessons (rows teacher)))%nat then
    let* S1 := NewBoolVar in
    let* _ := modify (upd_studyDay1BoolVar (<[teacher := S1]>)) in
    let* S2 := if negb (studyDay1ID =? studyDay2ID) then NewBoolVar
               else getattr studyDay1BoolVar teacher in
    let* _ := modify (upd_studyDay2BoolVar (<[teacher := S2]>)) in
    let* _ := for_each (Teacher.lessons (rows teacher))
                       (addStudyDayConstraintsOfLesson teacher studyDay1ID studyDay2ID) in
    let* S1 := getattr studyDay1BoolVar teacher in
    let* S2 := getattr studyDay2BoolVar teacher in
    AddConstraint (BoolOr [Lit S1; Lit S2])
  else ret tt.

(** [addTeacherStudyDayConstraints(model, orm)] *)
Definition addTeacherStudyDayConstraints : Build unit :=
  for_each (getTeachers orm) (fun teacher =>
    let* rows := get teacher_row in
    if Teacher.hasStudyday (rows teacher)
    then addStudyDayConstraintsOfTeacher teacher
    else ret tt).

(** The enumerated forbidden day patterns of
    [addMaxLecturesAsBlockTeacherConstraints]. *)
Definition max5_maxblock_4 : list (list Z) :=
  [[1; 1; 1; 1; 1; 0]; [0; 1; 1; 1; 1; 1]].
Definition max4_maxblock_3 : list (list Z) :=
  [[1; 1; 1; 1; 0; 0]; [0; 1; 1; 1; 1; 0]; [0; 0; 1; 1; 1; 1]].
Definition max5_maxblock_3 : list (list Z) :=
  [[1; 1; 1; 1; 0; 1]; [1; 0; 1; 1; 1; 1]] ++ max4_maxblock_3 ++ max5_maxblock_4.
Definition max3_maxblock_2 : list (list Z) :=
  [[1; 1; 1; 0; 0; 0]; [0; 1; 1; 1; 0; 0]; [0; 0; 1; 1; 1; 0]; [0; 0; 0; 1; 1; 1]].
Definition max4_maxblock_2 : list (list Z) :=
  [[1; 1; 1; 0; 1; 0]; [1; 1; 1; 0; 0; 1]; [0; 1; 1; 1; 0; 1]; [1; 0; 1; 1; 1; 0];
   [0; 1; 0; 1; 1; 1]; [1; 0; 0; 1; 1; 1]; [1; 0; 0; 1; 1; 1]]
    ++ max3_maxblock_2 ++ max4_maxblock_3.
Definition max2_maxblock_1 : list (list Z) :=
  [[1; 1; 0; 0; 0; 0]; [0; 1; 1; 0; 0; 0]; [0; 0; 1; 1; 0; 0]; [0; 0; 0; 1; 1; 0];
   [0; 0; 0; 0; 1; 1]].
Definition max3_maxblock_1 : list (list Z) :=
  [[1; 1; 0; 1; 0; 0]; [1; 1; 0; 0; 1; 0]; [1; 1; 0; 0; 0; 1]; [0; 1; 1; 0; 1; 0];
   [0; 1; 1; 0; 0; 1]; [1; 0; 1; 1; 0; 0]; [0; 0; 1; 1; 0; 1]; [0; 1; 0; 1; 1; 0];
   [1; 0; 0; 1; 1; 0]; [0; 0; 1; 0; 1; 1]; [0; 1; 0; 0; 1; 1]; [1; 0; 0; 0; 1; 1]]
    ++ max2_maxblock_1 ++ max3_maxblock_2.

(** The first part of the loop body of
    [addMaxLecturesAsBlockTeacherConstraints]: the assignments to the
    teacher object and to the local [forbidden_assignments], statement by
    statement. *)
Definition reduceLectureLimits (teacher : Teacher.t) : Teacher.t * list (list Z) :=
  let forbidden_assignments : list (list Z) := [] in
  let teacher :=
    if Teacher.max_lectures_per_day teacher <? Teacher.max_lectures_as_block teacher
    then Teacher.set_max_lectures_as_block (Teacher.max_lectures_per_day teacher) teacher
    else teacher in
  let teacher :=
    if Teacher.max_lectures_per_day teacher =? 6 then
      if negb (Teacher.max_lectures_as_block teacher =? 6)
      then Teacher.set_max_lectures_per_day 5 teacher
      else teacher
    else teacher in
  let (teacher, forbidden_assignments) :=
    if Teacher.max_lectures_per_day teacher =? 5 then
      if Teacher.max_lectures_as_block teacher =? 4 then (teacher, max5_maxblock_4)
      else if Teacher.max_lectures_as_block teacher =? 3 then (teacher, max5_maxblock_3)
      else if Teacher.max_lectures_as_block teacher <? 3
           then (Teacher.set_max_lectures_per_day 4 teacher, forbidden_assignments)
           else (teacher, forbidden_assignments)
    else (teacher, forbidden_assignments) in
  let (teacher, forbidden_assignments) :=
    if Teacher.max_lectures_per_day teacher =? 4 then
      if Teacher.max_lectures_as_block teacher =? 3 then (teacher, max4_maxblock_3)
      else if Teacher.max_lectures_as_block teacher =? 2 then (teacher, max4_maxblock_2)
      else if Teacher.max_lectures_as_block teacher <? 2
           then (Teacher.set_max_lectures_per_day 3 teacher, forbidden_assignments)
           else (teacher, forbidden_assignments)
    else (teacher, forbidden_assignments) in
  let forbidden_assignments :=
    if Teacher.max_lectures_per_day teacher =? 3 then
      if Teacher.max_lectures_as_block teacher =? 2 then max3_maxblock_2
      else if Teacher.max_lectures_as_block teacher =? 1 then max3_maxblock_1
      else forbidden_assignments
    else forbidden_assignments in
  let forbidden_assignments :=
    if Teacher.max_lectures_per_day teacher =? 2 then
      if Teacher.max_lectures_as_block teacher =? 1 then max2_maxblock_1
      else forbidden_assignments
    else forbidden_assignments in
  (teacher, forbidden_assignments).





End HardConstraints.

(** ** SoftConstraintWeights.py *)


(** ** SoftConstraints.py and the objective of TimeTabling.py *)

Section SoftConstraints.
Variable orm : ORM.

(** The three functions that create the gap, day-gap and free-day counters
    are not embedded; they are taken as builder steps. They attach
    [sg.oneGapCount] .. [sg.fourGapCount], [teacher.oneDayGapCount] ..
    [teacher.threeDayGapCount] and [sg.lessonsOnFreeDay]. *)
Variable addCountGapsVariables : Build unit.
Variable addGapBetweenDaysTeacherVariables : Build unit.
Variable addFreeDaySemesterGroupVariables : Build unit.



End SoftConstraints.


(** ** SolutionValidation.py *)

(** An object of one of the mapped classes. The classes define no [__eq__]:
    [==], and with it [in] on a list, is object identity, and objects of
    different classes are never equal. *)
Inductive PyObject : Set :=
| TeacherObject (pk : nat)
| LessonObject (pk : nat).

Global Instance PyObject_eq_dec : EqDecision PyObject.
Proof. solve_decision. Defined.

Section SolutionValidation.
Variable orm : ORM.
(** The teacher objects as they are when the solution is validated. *)
Variable rows : nat -> Teacher.t.

(** [getSameTimeLessonSets(lessons, teacher, semesterGroup, lecture,
    filterForLessonsList)] of HelperFunctions.py; an absent [teacher] or
    [semesterGroup] is [None]. *)
Definition getSameTimeLessonSets (lessons : list nat) (teacher semesterGroup : option nat)
           (lecture filterForLessonsList : bool) : list (list nat) :=
  let sameTimeSetList :=
    fold_left
      (fun sameTimeSetList lesson =>
         match lessons_at_same_time orm lesson with
         | [] => sameTimeSetList
         | _ :: _ =>
             if negb (existsb (fun sameTimeSet => py_in lesson sameTimeSet) sameTimeSetList)
             then
               let newSet :=
                 py_set (filter
                   (fun l =>
                      (negb lecture || is_lecture orm l)
                      && (match teacher with
                          | None => true
                          | Some t => py_in t (Lesson.teachers (lesson_row orm l))
                          end)
                      && (match semesterGroup with
                          | None => true
                          | Some sg =>
                              py_in sg (Course.semester_groups
                                          (course_row orm (Lesson.course (lesson_row orm l))))
                          end) = true)
                   (lesson :: lessons_at_same_time orm lesson)) in
               match newSet with
               | [] => sameTimeSetList
               | _ :: _ => sameTimeSetList ++ [newSet]
               end
             else sameTimeSetList
         end)
      lessons [] in
  if filterForLessonsList then
    filter (fun x => (1 < length x)%nat)
           (map (fun sameTimeSet => filter (fun l => py_in l lessons = true) sameTimeSet)
                sameTimeSetList)
  else sameTimeSetList.

(** [flatMap(lambda t: solution.getLessonsAtTimeslot(t), day)] *)
Definition lessonsOfDay (solution : Solution.t) (day : list Timeslot.t) : exc (list nat) :=
  let! ls := exc_map (Solution.getLessonsAtTimeslot solution) day in
  Ok (concat ls).

(** The counting common to the two per-day-per-teacher checks: the sizes
    of the lessons outside a same-time group plus the largest size of each
    same-time set. *)
Definition countTimeslots (lessons : list nat) (lessonSetList : list (list nat)) : exc Z :=
  let timeCount :=
    fold_left (fun timeCount lesson =>
                 match lessons_at_same_time orm lesson with
                 | [] => timeCount + timeslot_size orm lesson
                 | _ :: _ => timeCount
                 end) lessons 0 in
  exc_fold (fun timeCount lessonSet =>
              let! m := py_max (map (timeslot_size orm) lessonSet) in
              Ok (timeCount + m))
           lessonSetList timeCount.

(** [validateMaxLessonsPerDayPerTeacher(solution, orm)] *)
Definition validateMaxLessonsPerDayPerTeacher (solution : Solution.t) : exc bool :=
  exc_fold (fun isValid teacher =>
    exc_fold (fun isValid day =>
      let! atDay := lessonsOfDay solution day in
      let lessonsWithTeacher :=
        py_set (filter (fun l => py_in teacher (Lesson.teachers (lesson_row orm l)) = true)
                       atDay) in
      let lessonSetList :=
        getSameTimeLessonSets lessonsWithTeacher (Some teacher) None false false in
      let! timeCount := countTimeslots lessonsWithTeacher lessonSetList in
      let dayValid := timeCount <=? Teacher.max_lessons_per_day (rows teacher) in
      Ok (isValid && dayValid))
      (getTimeslotsPerDay orm) isValid)
    (getTeachers orm) true.

(** [validateMaxLecturesPerDayPerTeacher(solution, orm)] *)
Definition validateMaxLecturesPerDayPerTeacher (solution : Solution.t) : exc bool :=
  exc_fold (fun isValid teacher =>
    exc_fold (fun isValid day =>
      let! atDay := lessonsOfDay solution day in
      let lecturesWithTeacher :=
        py_set (filter (fun l => is_lecture orm l = true /\
                                 py_in teacher (Lesson.teachers (lesson_row orm l)) = true)
                       atDay) in
      let lessonSetList :=
        getSameTimeLessonSets lecturesWithTeacher (Some teacher) None true false in
      let! timeCount := countTimeslots lecturesWithTeacher lessonSetList in
      Ok (isValid && (timeCount <=? Teacher.max_lessons_per_day (rows teacher))))
      (getTimeslotsPerDay orm) isValid)
    (getTeachers orm) true.

(** [validateMaxLecturesAsBlockForTeacher(solution, orm)]: the condition of
    the [if] asks whether the teacher object is an element of a list of
    lesson objects. *)
Definition validateMaxLecturesAsBlockForTeacher (solution : Solution.t) : exc bool :=
  exc_fold (fun isValid teacher =>
    let blocksize := 0 in
    let! r :=
      exc_fold (fun (st : bool * Z) timeslot =>
        let (isValid, blocksize) := st in
        let blocksize := if Timeslot.number timeslot =? 1 then 0 else blocksize in
        let! atTimeslot := Solution.getLessonsAtTimeslot solution timeslot in
        if py_in (TeacherObject teacher)
                 (map LessonObject
                      (filter (fun l => is_lecture orm l = true /\
                                 py_in teacher (Lesson.teachers (lesson_row orm l)) = true)
                              atTimeslot))
        then
          let blocksize := blocksize + 1 in
          if Teacher.max_lectures_as_block (rows teacher) <? blocksize
          then Ok (false, blocksize)
          else Ok (isValid, blocksize)
        else Ok (isValid, 0))
        (getTimeslots orm) (isValid, blocksize) in
    Ok (fst r))
    (getTeachers orm) true.

(** [validateOnlyOneNotAllInOneBlockLessonPerDay(solution, orm)]: the
    arguments of the error message name [sameDayCorrection] and
    [lessonsWithWholeSG], which are bound nowhere in the module. *)
Definition validateOnlyOneNotAllInOneBlockLessonPerDay (solution : Solution.t) : exc bool :=
  exc_fold (fun isValid course =>
    let relevantLessons :=
      filter (fun x => Lesson.whole_semester_group (lesson_row orm x) = true /\
                       lessons_at_same_time orm x = [])
             (Course.lessons (course_row orm course)) in
    let! weekdaySet :=
      exc_fold (fun weekdaySet lesson =>
                  let! first := py_index (Solution.getTimeslotsOfLesson solution lesson) 0 in
                  Ok (set_add (Timeslot.weekday first) weekdaySet))
               relevantLessons [] in
    let courseValid := (length weekdaySet =? length relevantLessons)%nat in
    if negb courseValid then Raise NameError
    else Ok (isValid && courseValid))
    (filter (fun c => Course.all_in_one_block (course_row orm c) = false) (getCourses orm))
    true.

(** The rule checks of SolutionValidation.py that are not embedded, taken
    as given functions of the solution. *)
Record RuleChecks : Type := {
  validateTeacherTimeConstraints : Solution.t -> exc bool;
  validateRoomTimeConstraints : Solution.t -> exc bool;
  validateSemesterGroupTimeConstraints : Solution.t -> exc bool;
  validateStudyDays : Solution.t -> exc bool;
  validateAllLessonsAsBlockCourses : Solution.t -> exc bool;
  validateBlocksOnlyInSameRoom : Solution.t -> exc bool;
  validateConsecutiveLessons : Solution.t -> exc bool;
  validateForenoonLessons : Solution.t -> exc bool;
  validateGivenTimeslots : Solution.t -> exc bool;
  validateLessonTakePlaceOnOneDay : Solution.t -> exc bool;
  validateLessonTime : Solution.t -> exc bool;
  validateMaxLessonsPerDayPerSemesterGroup : Solution.t -> exc bool;
  validateOneCoursePerDayPerTeacher : Solution.t -> exc bool;
  validateRoomNotAvailableTimes : Solution.t -> exc bool;
  validateTeacherNotAvailableTimes : Solution.t -> exc bool;
  validateSameTimeLessons : Solution.t -> exc bool;
  validateTimeslotVarHelperVariables : Solution.t -> exc bool
}.

Variable checks : RuleChecks.

(** [if not check(solution): isValid = False] *)
Definition failIfNot (check : Solution.t -> exc bool) (solution : Solution.t)
           (isValid : bool) : exc bool :=
  let! ok := check solution in
  Ok (if negb ok then false else isValid).

(** [validateSolution(solution)] *)
Definition validateSolution (solution : Solution.t) : exc bool :=
  let isValid := true in
  let! isValid := failIfNot (validateTeacherTimeConstraints checks) solution isValid in
  let! isValid := failIfNot (validateRoomTimeConstraints checks) solution isValid in
  let! isValid := failIfNot (validateSemesterGroupTimeConstraints checks) solution isValid in
  let! isValid := failIfNot (validateStudyDays checks) solution isValid in
  let! isValid := failIfNot (validateAllLessonsAsBlockCourses checks) solution isValid in
  let! isValid := failIfNot (validateBlocksOnlyInSameRoom checks) solution isValid in
  let! isValid := failIfNot (validateConsecutiveLessons checks) solution isValid in
  let! isValid := failIfNot (validateForenoonLessons checks) solution isValid in
  let! isValid := failIfNot (validateGivenTimeslots checks) solution isValid in
  let! isValid := failIfNot (validateLessonTakePlaceOnOneDay checks) solution isValid in
  let! isValid := failIfNot (validateLessonTime checks) solution isValid in
  let! isValid := failIfNot validateMaxLessonsPerDayPerTeacher solution isValid in
  let! isValid := failIfNot (validateMaxLessonsPerDayPerSemesterGroup checks) solution isValid in
  let! isValid := failIfNot validateMaxLecturesPerDayPerTeacher solution isValid in
  let! isValid := failIfNot validateMaxLecturesAsBlockForTeacher solution isValid in
  let! isValid := failIfNot (validateOneCoursePerDayPerTeacher checks) solution isValid in
  let! isValid := failIfNot validateOnlyOneNotAllInOneBlockLessonPerDay solution isValid in
  let! isValid := failIfNot (validateRoomNotAvailableTimes checks) solution isValid in
  let! isValid := failIfNot (validateTeacherNotAvailableTimes checks) solution isValid in
  let! isValid := failIfNot (validateSameTimeLessons checks) solution isValid in
  let! isValid := failIfNot (validateTimeslotVarHelperVariables checks) solution isValid in
  Ok isValid.
End SolutionValidation.

(* ===================================================================== *)
(** * Part II: the properties                                              *)
(* ===================================================================== *)

(** ** The command-line boolean parser *)







(** ** A sample catalog

    One teacher with the default limits (five lessons, three lectures, a
    lecture block of two), one lecture course with four one-slot lessons, a
    week of five days with six timeslots each. *)

Module Sample.
Definition lecturer : Teacher.t :=
  {| Teacher.study_day_1 := None; Teacher.study_day_2 := None;
     Teacher.max_lessons_per_day := 5; Teacher.max_lectures_per_day := 3;
     Teacher.max_lectures_as_block := 2; Teacher.avoid_free_day_gaps := false;
     Teacher.not_available_timeslots := []; Teacher.lessons := [1; 2; 3; 4]%nat |}.

Definition lecture : Course.t :=
  {| Course.only_forenoon := false; Course.all_in_one_block := false;
     Course.is_lecture := true; Course.one_per_day_per_teacher := false;
     Course.possible_rooms := [1]%nat; Course.semester_groups := [1]%nat;
     Course.lessons := [1; 2; 3; 4]%nat |}.

Definition lectureLesson : Lesson.t :=
  {| Lesson.whole_semester_group := true; Lesson.timeslot_size := 1;
     Lesson.course := 1%nat; Lesson.teachers := [1]%nat;
     Lesson.available_timeslots := []; Lesson.lessons_at_same_time := [];
     Lesson.lessons_consecutive := [];
     Lesson.availableTimeslotsFiltered := concat (week 6) |}.

Definition cohort : SemesterGroup.t :=
  {| SemesterGroup.max_lessons_per_day := 5; SemesterGroup.free_day := None;
     SemesterGroup.courses := [1]%nat |}.

Definition orm : ORM :=
  {| TIMESLOTS_PER_DAY := 6;
     getTimeslots := concat (week 6);
     getTimeslotsPerDay := week 6;
     getRooms := [1]%nat;
     getTeachers := [1]%nat;
     getSemesterGroups := [1]%nat;
     getCourses := [1]%nat;
     getLessons := [1; 2; 3; 4]%nat;
     getLessonsAtSameTimeSets := [];
     semester_group_row := fun _ => cohort;
     course_row := fun _ => lecture;
     lesson_row := fun _ => lectureLesson |}.

Definition rows : nat -> Teacher.t := fun _ => lecturer.

(** The timeslot with the given id. *)
Definition slot (i : Z) : Timeslot.t :=
  {| Timeslot.id := i; Timeslot.weekday := weekdayOfNumber ((i - 1) / 6 + 1);
     Timeslot.weekday_number := (i - 1) / 6 + 1; Timeslot.number := (i - 1) mod 6 + 1 |}.

(** The four lectures in the first four hours of Monday, in room 1: built
    as the solution callback builds a solution. *)
Definition mondayMorning : exc Solution.t :=
  let sol := Solution.init 1 orm 0 in
  let! sol := Solution.addLesson sol 1 1 (slot 1) in
  let! sol := Solution.addLesson sol 2 1 (slot 2) in
  let! sol := Solution.addLesson sol 3 1 (slot 3) in
  Solution.addLesson sol 4 1 (slot 4).
End Sample.

(** ** Reasoning about builder steps

    [wp c Q s]: from the state [s] the step [c] returns normally, with a
    result and a state that satisfy [Q]. *)

Definition wp {A : Type} (c : Build A) (Q : A -> State -> Prop) (s : State) : Prop :=
  exists a s', c s = Ok (a, s') /\ Q a s'.

Lemma wp_mono {A : Type} (c : Build A) (Q Q' : A -> State -> Prop) (s : State) :
  wp c Q s -> (forall a s', Q a s' -> Q' a s') -> wp c Q' s.
Proof. intros (a & s' & Hc & HQ) Himp. exists a, s'. auto. Qed.

Lemma wp_ret {A : Type} (a : A) (Q : A -> State -> Prop) (s : State) :
  Q a s -> wp (ret a) Q s.
Proof. intros HQ. exists a, s. auto. Qed.

Lemma wp_bind {A B : Type} (c : Build A) (k : A -> Build B)
      (Q : B -> State -> Prop) (s : State) :
  wp c (fun a s' => wp (k a) Q s') s -> wp (bind c k) Q s.
Proof.
  intros (a & s' & Hc & b & s'' & Hk & HQ). exists b, s''.
  unfold bind. rewrite Hc. auto.
Qed.

Lemma wp_lift {A : Type} (e : exc A) (a : A) (Q : A -> State -> Prop) (s : State) :
  e = Ok a -> Q a s -> wp (lift e) Q s.
Proof. intros -> HQ. exists a, s. auto. Qed.

Lemma wp_get {A : Type} (f : State -> A) (Q : A -> State -> Prop) (s : State) :
  Q (f s) s -> wp (get f) Q s.
Proof. intros HQ. exists (f s), s. auto. Qed.

Lemma wp_modify (f : State -> State) (Q : unit -> State -> Prop) (s : State) :
  Q tt (f s) -> wp (modify f) Q s.
Proof. intros HQ. exists tt, (f s). auto. Qed.

Lemma wp_getattr {V : Type} (field : State -> gmap nat V) (obj : nat) (v : V)
      (Q : V -> State -> Prop) (s : State) :
  field s !! obj = Some v -> Q v s -> wp (getattr field obj) Q s.
Proof. intros Hf HQ. exists v, s. unfold getattr. rewrite Hf. auto. Qed.

Lemma wp_hasattr {V : Type} (field : State -> gmap nat V) (obj : nat)
      (Q : bool -> State -> Prop) (s : State) :
  Q (match field s !! obj with Some _ => true | None => false end) s ->
  wp (hasattr field obj) Q s.
Proof. intros HQ. eexists _, s. split; [reflexivity | exact HQ]. Qed.

Lemma wp_NewIntVarFromDomain (d : Domain) (Q : IntVar -> State -> Prop) (s : State) :
  Q (length (variables (model s))) (upd_model (add_variable d) s) ->
  wp (NewIntVarFromDomain d) Q s.
Proof. intros HQ. eexists _, _. split; [reflexivity | exact HQ]. Qed.

Lemma wp_AddConstraint (c : Constraint) (Q : unit -> State -> Prop) (s : State) :
  Q tt (upd_model (add_constraint c) s) -> wp (AddConstraint c) Q s.
Proof. apply wp_modify. Qed.

(** The loop rule: [I done b s] holds after the elements [done] have been
    processed, with the loop variables [b]. *)
Lemma wp_foldM {A B : Type} (I : list A -> B -> State -> Prop)
      (f : B -> A -> Build B) (l : list A) (b : B) (Q : B -> State -> Prop) (s : State) :
  I [] b s ->
  (forall done x rest b s, l = done ++ x :: rest -> I done b s ->
     wp (f b x) (fun b' s' => I (done ++ [x]) b' s') s) ->
  (forall b s, I l b s -> Q b s) ->
  wp (foldM f l b) Q s.
Proof.
  intros H0 Hstep Hend.
  assert (G : forall todo done b s, l = done ++ todo -> I done b s ->
                wp (foldM f todo b) Q s).
  { induction todo as [|x rest IH]; intros done b0 s0 Hl HI.
    - rewrite app_nil_r in Hl. subst done. apply wp_ret. auto.
    - simpl. apply wp_bind.
      eapply wp_mono; [exact (Hstep done x rest b0 s0 Hl HI)|].
      intros b' s' HI'. apply (IH (done ++ [x])); [|exact HI'].
      rewrite <- app_assoc. exact Hl. }
  exact (G l [] b s eq_refl H0).
Qed.

Lemma wp_for_each {A : Type} (I : list A -> State -> Prop)
      (body : A -> Build unit) (l : list A) (Q : unit -> State -> Prop) (s : State) :
  I [] s ->
  (forall done x rest s, l = done ++ x :: rest -> I done s ->
     wp (body x) (fun _ s' => I (done ++ [x]) s') s) ->
  (forall s, I l s -> Q tt s) ->
  wp (for_each l body) Q s.
Proof.
  intros H0 Hstep Hend. unfold for_each.
  apply (wp_foldM (fun done _ s => I done s)).
  - exact H0.
  - intros done x rest _ s0 Hl HI. exact (Hstep done x rest s0 Hl HI).
  - intros [] s0 HI. exact (Hend s0 HI).
Qed.


Ltac wp_step :=
  lazymatch goal with
  | |- wp (bind _ _) _ _ => apply wp_bind
  | |- wp (ret _) _ _ => apply wp_ret
  | |- wp (get _) _ _ => apply wp_get
  | |- wp (modify _) _ _ => apply wp_modify
  | |- wp (hasattr _ _) _ _ => apply wp_hasattr
  | |- wp (NewIntVarFromDomain _) _ _ => apply wp_NewIntVarFromDomain
  | |- wp (NewIntVar _ _) _ _ => apply wp_NewIntVarFromDomain
  | |- wp NewBoolVar _ _ => apply wp_NewIntVarFromDomain
  | |- wp (AddConstraint _) _ _ => apply wp_AddConstraint
  | |- wp (Add _) _ _ => apply wp_AddConstraint
  | |- wp (Minimize _) _ _ => apply wp_modify
  end.

(** The model only grows: later steps keep the variables and constraints
    of earlier ones. *)
Definition extends (m m' : CpModel) : Prop :=
  (exists vs, variables m' = variables m ++ vs) /\
  (exists cs, constraints m' = constraints m ++ cs).

Lemma extends_refl (m : CpModel) : extends m m.
Proof. split; exists []; by rewrite app_nil_r. Qed.

Lemma extends_trans (m1 m2 m3 : CpModel) :
  extends m1 m2 -> extends m2 m3 -> extends m1 m3.
Proof.
  intros [[v1 Hv1] [c1 Hc1]] [[v2 Hv2] [c2 Hc2]]. split.
  - exists (v1 ++ v2). by rewrite Hv2, Hv1, app_assoc.
  - exists (c1 ++ c2). by rewrite Hc2, Hc1, app_assoc.
Qed.

Lemma extends_add_variable (m : CpModel) (d : Domain) : extends m (add_variable d m).
Proof. split; [by exists [d] | exists []; simpl; by rewrite app_nil_r]. Qed.

Lemma extends_add_constraint (m : CpModel) (c : Constraint) :
  extends m (add_constraint c m).
Proof. split; [exists []; simpl; by rewrite app_nil_r | by exists [c]]. Qed.

Lemma extends_variable (m m' : CpModel) (v : IntVar) (d : Domain) :
  extends m m' -> variables m !! v = Some d -> variables m' !! v = Some d.
Proof. intros [[vs ->] _] H. by apply lookup_app_l_Some. Qed.

Lemma extends_constraint (m m' : CpModel) (c : Constraint) :
  extends m m' -> c ∈ constraints m -> c ∈ constraints m'.
Proof. intros [_ [cs ->]] H. apply elem_of_app. by left. Qed.

Lemma extends_length (m m' : CpModel) :
  extends m m' -> (length (variables m) <= length (variables m'))%nat.
Proof. intros [[vs ->] _]. rewrite length_app. lia. Qed.

Lemma feasible_extends (val : Assignment) (m m' : CpModel) :
  extends m m' -> feasible val m' -> feasible val m.
Proof.
  intros Hext [Hv Hc]. split.
  - intros v d Hd. apply Hv. by eapply extends_variable.
  - intros c Hin. apply Hc. by eapply extends_constraint.
Qed.

(** Steps that leave the attached variables alone. *)
Definition same_attachments (s s' : State) : Prop :=
  roomVar s' = roomVar s /\ timeVars s' = timeVars s /\
  weekdayVar s' = weekdayVar s /\ hourNumberVar s' = hourNumberVar s /\
  weekdayBoolVars s' = weekdayBoolVars s /\ timeslotBoolVars s' = timeslotBoolVars s /\
  timeslotLectureBoolMap s' = timeslotLectureBoolMap s /\
  studyDay1BoolVar s' = studyDay1BoolVar s /\ studyDay2BoolVar s' = studyDay2BoolVar s /\
  gapCounts s' = gapCounts s /\ dayGapCounts s' = dayGapCounts s /\
  lessonsOnFreeDay s' = lessonsOnFreeDay s.

Lemma same_attachments_refl (s : State) : same_attachments s s.
Proof. repeat split. Qed.

(** ** The lecture limits of a teacher (R11) *)



Ltac case_limits :=
  repeat (match goal with
          | |- context [?x =? ?y] =>
              is_var x; destruct (Z.eqb_spec x y); [subst x|]; simpl
          | |- context [?x <? ?y] =>
              first [is_var x | is_var y]; destruct (Z.ltb_spec x y); simpl
          end).



Section LectureLimits.
Variable orm : ORM.














End LectureLimits.

Lemma eval_fold_left_Plus (val : Assignment) (es : list LinearExpr) (a : LinearExpr) :
  eval val (fold_left Plus es a) = eval val a + foldr (fun e acc => eval val e + acc) 0 es.
Proof.
  revert a. induction es as [|e es IH]; intros a; simpl; [lia|].
  rewrite IH. simpl. lia.
Qed.

Lemma eval_py_sum (val : Assignment) (es : list LinearExpr) :
  eval val (py_sum es) = foldr (fun e acc => eval val e + acc) 0 es.
Proof. unfold py_sum. rewrite eval_fold_left_Plus. simpl. lia. Qed.




(** A builder state for the sample catalog after the variable factory: a
    lecture-at-slot boolean for each of the thirty timeslots of the teacher,
    five weekday booleans, a weekday variable and thirty timeslot booleans
    for each lesson. *)
Module SampleState.
Definition lectureAt : gmap Timeslot.t IntVar :=
  list_to_map (zip (concat (week 6)) (seq 0 30)).

Definition dayBools (l : nat) : list IntVar := seq (30 + 5 * (l - 1)) 5.

Definition slotBools (l : nat) : list IntVar := seq (54 + 30 * (l - 1)) 30.

Definition attached (row : Teacher.t) : State :=
  {| model := {| variables := replicate 50 (FromInterval 0 1)
                                ++ replicate 4 (FromInterval 1 WEEKDAYS)
                                ++ replicate 120 (FromInterval 0 1);
                 constraints := []; objective := None |};
     teacher_row := fun _ => row;
     roomVar := ∅; timeVars := ∅;
     weekdayVar := list_to_map (map (fun l => (l, 49 + l)%nat) [1; 2; 3; 4]%nat);
     hourNumberVar := ∅;
     weekdayBoolVars :=
       list_to_map (map (fun l => (l, dayBools l)) [1; 2; 3; 4]%nat);
     timeslotBoolVars :=
       list_to_map (map (fun l => (l, slotBools l)) [1; 2; 3; 4]%nat);
     timeslotLectureBoolMap := {[ 1%nat := lectureAt ]};
     studyDay1BoolVar := ∅; studyDay2BoolVar := ∅;
     gapCounts := ∅; dayGapCounts := ∅; lessonsOnFreeDay := ∅ |}.

(** The sample teacher with two study days. *)
Definition withStudyDays (d1 d2 : Weekday) : Teacher.t :=
  {| Teacher.study_day_1 := Some d1; Teacher.study_day_2 := Some d2;
     Teacher.max_lessons_per_day := 5; Teacher.max_lectures_per_day := 3;
     Teacher.max_lectures_as_block := 2; Teacher.avoid_free_day_gaps := false;
     Teacher.not_available_timeslots := []; Teacher.lessons := [1; 2; 3; 4]%nat |}.

(** The sample teacher with other lecture limits. *)
Definition withLimits (per_day block : Z) : Teacher.t :=
  Teacher.set_max_lectures_as_block block
    (Teacher.set_max_lectures_per_day per_day Sample.lecturer).


End SampleState.


(** ** The forbidden day patterns for the limits 4 and 3 *)

Lemma length_range (n : Z) : length (range n) = Z.to_nat n.
Proof. unfold range. by rewrite length_map, length_seq. Qed.



(** The number of occupied slots of a day pattern. *)
Definition occupied (pattern : list Z) : Z := foldr Z.add 0 pattern.




(** ** The study day of a teacher (R4) *)

Lemma days_inj (d1 d2 : Weekday) : Timeslot.days d1 = Timeslot.days d2 -> d1 = d2.
Proof. destruct d1, d2; simpl; intros H; try reflexivity; discriminate. Qed.

Section StudyDay.
Variable orm : ORM.

(** What [createLessonTimeHelperVariables] leaves behind for the lessons
    of the teachers: a weekday variable. *)
Definition weekdayVarsAttached (s : State) : Prop :=
  forall t l, t ∈ getTeachers orm -> l ∈ Teacher.lessons (teacher_row s t) ->
    is_Some (weekdayVar s !! l).

(** The constraints of one lesson under the study-day booleans. *)
Definition studyDayConstraintsOfLesson (s : State) (S1 S2 : IntVar) (d1 d2 : Weekday)
           (l : nat) : list Constraint :=
  match weekdayVar s !! l with
  | Some W =>
      OnlyEnforceIf (Linear (Ne (Const (Timeslot.days d1)) (Var W))) (Lit S1)
        :: (if negb (Timeslot.days d1 =? Timeslot.days d2)
            then [OnlyEnforceIf (Linear (Ne (Const (Timeslot.days d2)) (Var W))) (Lit S2)]
            else [])
  | None => []
  end.

(** The state after the loop body for a teacher with the study days [d1]
    and [d2] and at least one lesson. *)
Definition studyDayPosted (s s' : State) (x : nat) (d1 d2 : Weekday) : Prop :=
  let S1 := length (variables (model s)) in
  let S2 := if negb (Timeslot.days d1 =? Timeslot.days d2) then S S1 else S1 in
  studyDay1BoolVar s' = <[x := S1]> (studyDay1BoolVar s) /\
  studyDay2BoolVar s' = <[x := S2]> (studyDay2BoolVar s) /\
  variables (model s') =
    variables (model s)
      ++ FromInterval 0 1
      :: (if negb (Timeslot.days d1 =? Timeslot.days d2) then [FromInterval 0 1] else []) /\
  constraints (model s') =
    constraints (model s)
      ++ flat_map (studyDayConstraintsOfLesson s S1 S2 d1 d2)
                  (Teacher.lessons (teacher_row s x))
      ++ [BoolOr [Lit S1; Lit S2]] /\
  weekdayVar s' = weekdayVar s /\
  teacher_row s' = teacher_row s.

Lemma wp_addStudyDayConstraintsOfTeacher (x : nat) (d1 d2 : Weekday) (s : State) :
  Teacher.study_day_1 (teacher_row s x) = Some d1 ->
  Teacher.study_day_2 (teacher_row s x) = Some d2 ->
  Teacher.lessons (teacher_row s x) <> [] ->
  (forall l, l ∈ Teacher.lessons (teacher_row s x) -> is_Some (weekdayVar s !! l)) ->
  wp (addStudyDayConstraintsOfTeacher x) (fun _ s' => studyDayPosted s s' x d1 d2) s.
Proof.
  intros Hd1 Hd2 Hne HW. unfold addStudyDayConstraintsOfTeacher.
  wp_step. wp_step. rewrite Hd1, Hd2. wp_step.
  eapply wp_lift; [reflexivity|]. wp_step. eapply wp_lift; [reflexivity|].
  destruct (Teacher.lessons (teacher_row s x)) as [|l0 ls] eqn:Hls; [done|].
  change (0 <? length (l0 :: ls))%nat with true. cbv iota.
  wp_step. wp_step. wp_step. wp_step.
  set (S1 := length (variables (model s))).
  set (differ := negb (Timeslot.days d1 =? Timeslot.days d2)).
  set (S2 := if differ then S S1 else S1).
  pose (J := fun (done : list nat) (s' : State) =>
    studyDay1BoolVar s' = <[x := S1]> (studyDay1BoolVar s) /\
    studyDay2BoolVar s' = <[x := S2]> (studyDay2BoolVar s) /\
    variables (model s') =
      variables (model s) ++ FromInterval 0 1 :: (if differ then [FromInterval 0 1] else []) /\
    constraints (model s') =
      constraints (model s) ++ flat_map (studyDayConstraintsOfLesson s S1 S2 d1 d2) done /\
    weekdayVar s' = weekdayVar s /\
    teacher_row s' = teacher_row s).
  wp_step.
  assert (HS2 : wp (if differ then NewBoolVar else getattr studyDay1BoolVar x)
                   (fun S2' s' => S2' = S2 /\
                      studyDay1BoolVar s' = <[x := S1]> (studyDay1BoolVar s) /\
                      studyDay2BoolVar s' = studyDay2BoolVar s /\
                      variables (model s') =
                        variables (model s) ++ FromInterval 0 1
                          :: (if differ then [FromInterval 0 1] else []) /\
                      constraints (model s') = constraints (model s) /\
                      weekdayVar s' = weekdayVar s /\
                      teacher_row s' = teacher_row s)
                   (upd_studyDay1BoolVar <[x:=S1]>
                      (upd_model (add_variable (FromInterval 0 1)) s))).
  { unfold S2. destruct differ.
    - wp_step. simpl. rewrite length_app. simpl.
      repeat split; try done; [f_equal; lia | by rewrite <- app_assoc].
    - eapply wp_getattr; [simpl; apply lookup_insert_eq|]. by repeat split. }
  eapply wp_mono; [exact HS2|]. clear HS2.
  intros S2' s1 (-> & H1 & H2 & Hv & Hc & Hw & Hr).
  wp_step. wp_step. wp_step.
  apply (wp_for_each J).
  - repeat split; simpl; try done. by rewrite H2. by rewrite Hc, app_nil_r.
  - intros done l rest s' Hl (J1 & J2 & Jv & Jc & Jw & Jr).
    destruct (HW l) as [W HWl].
    { rewrite Hl. apply elem_of_app. right. apply elem_of_cons. by left. }
    unfold addStudyDayConstraintsOfLesson. wp_step.
    eapply wp_getattr; [by rewrite Jw|]. wp_step.
    eapply wp_getattr; [rewrite J1; apply lookup_insert_eq|]. wp_step. wp_step.
    assert (Hposts : studyDayConstraintsOfLesson s S1 S2 d1 d2 l =
              OnlyEnforceIf (Linear (Ne (Const (Timeslot.days d1)) (Var W))) (Lit S1)
                :: (if differ
                    then [OnlyEnforceIf (Linear (Ne (Const (Timeslot.days d2)) (Var W)))
                                        (Lit S2)]
                    else [])).
    { unfold studyDayConstraintsOfLesson. by rewrite HWl. }
    fold differ. destruct differ.
    + wp_step. eapply wp_getattr; [simpl; by rewrite Jw|]. wp_step.
      eapply wp_getattr; [simpl; rewrite J2; apply lookup_insert_eq|]. wp_step.
      repeat split; simpl; try done.
      rewrite Jc, flat_map_app. simpl. rewrite Hposts.
      by rewrite ?app_nil_r, <- ?app_assoc.
    + wp_step. repeat split; simpl; try done.
      rewrite Jc, flat_map_app. simpl. rewrite Hposts.
      by rewrite ?app_nil_r, <- ?app_assoc.
  - intros s' (J1 & J2 & Jv & Jc & Jw & Jr). wp_step.
    eapply wp_getattr; [rewrite J1; apply lookup_insert_eq|]. wp_step.
    eapply wp_getattr; [rewrite J2; apply lookup_insert_eq|]. wp_step.
    unfold studyDayPosted. fold S1 differ S2. repeat split; simpl; try done.
    rewrite Hls, Jc. by rewrite <- app_assoc.
Qed.

(** What holds for a teacher once the loop has passed it, and keeps
    holding while the model grows. *)
Definition studyDayEnforced (s : State) (t : nat) (d1 d2 : Weekday) : Prop :=
  exists S1 S2 : IntVar,
    studyDay1BoolVar s !! t = Some S1 /\
    studyDay2BoolVar s !! t = Some S2 /\
    (S2 = S1 <-> d1 = d2) /\
    variables (model s) !! S1 = Some (FromInterval 0 1) /\
    variables (model s) !! S2 = Some (FromInterval 0 1) /\
    BoolOr [Lit S1; Lit S2] ∈ constraints (model s) /\
    forall l, l ∈ Teacher.lessons (teacher_row s t) ->
      exists W : IntVar,
        weekdayVar s !! l = Some W /\
        OnlyEnforceIf (Linear (Ne (Const (Timeslot.days d1)) (Var W))) (Lit S1)
          ∈ constraints (model s) /\
        (d1 <> d2 ->
         OnlyEnforceIf (Linear (Ne (Const (Timeslot.days d2)) (Var W))) (Lit S2)
           ∈ constraints (model s)).

Lemma studyDayPosted_enforced (s s' : State) (x : nat) (d1 d2 : Weekday) :
  (forall l, l ∈ Teacher.lessons (teacher_row s x) -> is_Some (weekdayVar s !! l)) ->
  studyDayPosted s s' x d1 d2 -> studyDayEnforced s' x d1 d2.
Proof.
  intros HW (H1 & H2 & Hv & Hc & Hw & Hr).
  set (S1 := length (variables (model s))) in *.
  set (S2 := if negb (Timeslot.days d1 =? Timeslot.days d2) then S S1 else S1) in *.
  assert (Hposted : forall l c, l ∈ Teacher.lessons (teacher_row s x) ->
            c ∈ studyDayConstraintsOfLesson s S1 S2 d1 d2 l -> c ∈ constraints (model s')).
  { intros l c Hl Hc'. rewrite Hc. apply elem_of_app. right. apply elem_of_app. left.
    apply list_elem_of_In, in_flat_map. exists l. by rewrite <- !list_elem_of_In. }
  assert (Hor : BoolOr [Lit S1; Lit S2] ∈ constraints (model s')).
  { rewrite Hc, !elem_of_app, list_elem_of_singleton. auto. }
  assert (Hdiff : negb (Timeslot.days d1 =? Timeslot.days d2) = true <-> d1 <> d2).
  { rewrite negb_true_iff, Z.eqb_neq. split; intros H E; apply H.
    - by subst.
    - by apply days_inj. }
  assert (V1 : variables (model s') !! S1 = Some (FromInterval 0 1)).
  { rewrite Hv. by apply list_lookup_middle. }
  exists S1, S2. rewrite H1, H2, Hw, Hr.
  split; [apply lookup_insert_eq|]. split; [apply lookup_insert_eq|].
  unfold studyDayConstraintsOfLesson in Hposted. clear Hc.
  destruct (negb (Timeslot.days d1 =? Timeslot.days d2)) eqn:Ed.
  - assert (Hne : d1 <> d2) by exact (proj1 Hdiff eq_refl). clear Hdiff.
    split; [split; [unfold S2; lia | done]|].
    split; [exact V1|].
    split. { rewrite Hv, (lookup_app_r _ _ S2) by (unfold S2, S1; lia).
             replace (S2 - length (variables (model s)))%nat with 1%nat
               by (unfold S2, S1; lia). done. }
    split; [exact Hor|].
    intros l Hl. destruct (HW l Hl) as [W HWl]. exists W. split; [exact HWl|].
    specialize (Hposted l). rewrite HWl in Hposted.
    split; [|intros _]; apply Hposted; set_solver.
  - assert (He : d1 = d2).
    { destruct (decide (d1 = d2)) as [|Hn]; [done|].
      pose proof (proj2 Hdiff Hn). congruence. }
    clear Hdiff.
    split; [done|]. split; [exact V1|]. split; [exact V1|].
    split; [exact Hor|].
    intros l Hl. destruct (HW l Hl) as [W HWl]. exists W. split; [exact HWl|].
    specialize (Hposted l). rewrite HWl in Hposted.
    split; [|done]. apply Hposted; set_solver.
Qed.

Lemma studyDayEnforced_kept (s s' : State) (t : nat) (d1 d2 : Weekday) :
  studyDay1BoolVar s' !! t = studyDay1BoolVar s !! t ->
  studyDay2BoolVar s' !! t = studyDay2BoolVar s !! t ->
  extends (model s) (model s') ->
  weekdayVar s' = weekdayVar s ->
  teacher_row s' = teacher_row s ->
  studyDayEnforced s t d1 d2 -> studyDayEnforced s' t d1 d2.
Proof.
  intros H1 H2 Hext Hw Hr (S1 & S2 & E1 & E2 & Hiff & V1 & V2 & Hor & Hls).
  exists S1, S2. rewrite H1, H2, Hw, Hr.
  repeat split; try done; try apply Hiff;
    try (by eapply extends_variable); try (by eapply extends_constraint).
  intros l Hl. destruct (Hls l Hl) as (W & HW & C1 & C2). exists W.
  repeat split; [done | by eapply extends_constraint |].
  intros Hne. eapply extends_constraint; [done | by apply C2].
Qed.

Lemma studyDayPosted_extends (s s' : State) (x : nat) (d1 d2 : Weekday) :
  studyDayPosted s s' x d1 d2 -> extends (model s) (model s').
Proof. intros (_ & _ & Hv & Hc & _). split; eauto. Qed.

(** [addTeacherStudyDayConstraints] returns normally; afterwards every
    teacher with two study days and a lesson has its booleans and
    constraints. *)
Lemma addTeacherStudyDayConstraints_run (s0 : State) :
  weekdayVarsAttached s0 ->
  exists s1,
    addTeacherStudyDayConstraints orm s0 = Ok (tt, s1) /\
    extends (model s0) (model s1) /\
    weekdayVar s1 = weekdayVar s0 /\
    teacher_row s1 = teacher_row s0 /\
    forall t d1 d2, t ∈ getTeachers orm ->
      Teacher.study_day_1 (teacher_row s0 t) = Some d1 ->
      Teacher.study_day_2 (teacher_row s0 t) = Some d2 ->
      Teacher.lessons (teacher_row s0 t) <> [] ->
      studyDayEnforced s1 t d1 d2.
Proof.
  intros HW.
  pose (I := fun (done : list nat) (s : State) =>
    extends (model s0) (model s) /\
    weekdayVar s = weekdayVar s0 /\
    teacher_row s = teacher_row s0 /\
    forall t d1 d2, t ∈ done ->
      Teacher.study_day_1 (teacher_row s0 t) = Some d1 ->
      Teacher.study_day_2 (teacher_row s0 t) = Some d2 ->
      Teacher.lessons (teacher_row s0 t) <> [] ->
      studyDayEnforced s t d1 d2).
  assert (W : wp (addTeacherStudyDayConstraints orm)
                 (fun _ s1 => I (getTeachers orm) s1) s0).
  { unfold addTeacherStudyDayConstraints. apply (wp_for_each I).
    - split; [apply extends_refl|]. split; [done|]. split; [done|].
      intros t d1 d2 Hin. by apply not_elem_of_nil in Hin.
    - intros done x rest s Hl (Hext & Hw & Hr & Hdone).
      assert (Hxin : x ∈ getTeachers orm).
      { rewrite Hl. apply elem_of_app. right. apply elem_of_cons. by left. }
      assert (Keep : forall s', extends (model s) (model s') ->
                weekdayVar s' = weekdayVar s -> teacher_row s' = teacher_row s ->
                (forall t, t <> x ->
                   studyDay1BoolVar s' !! t = studyDay1BoolVar s !! t /\
                   studyDay2BoolVar s' !! t = studyDay2BoolVar s !! t) ->
                (forall d1 d2,
                   Teacher.study_day_1 (teacher_row s0 x) = Some d1 ->
                   Teacher.study_day_2 (teacher_row s0 x) = Some d2 ->
                   Teacher.lessons (teacher_row s0 x) <> [] ->
                   studyDayEnforced s' x d1 d2) ->
                I (done ++ [x]) s').
      { intros s' Hext' Hw' Hr' Hother Hx.
        split; [by eapply extends_trans|]. split; [by rewrite Hw'|].
        split; [by rewrite Hr'|].
        intros t d1 d2 Hin Hd1 Hd2 Hne.
        destruct (decide (t = x)) as [->|Hneq]; [by apply Hx|].
        apply elem_of_app in Hin as [Hin|Hin].
        - destruct (Hother t Hneq) as [E1 E2].
          apply (studyDayEnforced_kept s s'); try done. by apply Hdone.
        - apply list_elem_of_singleton in Hin. done. }
      wp_step. wp_step. rewrite Hr.
      destruct (Teacher.study_day_1 (teacher_row s0 x)) as [d1|] eqn:Hd1;
        [destruct (Teacher.study_day_2 (teacher_row s0 x)) as [d2|] eqn:Hd2|].
      + unfold Teacher.hasStudyday. rewrite Hd1, Hd2.
        destruct (Teacher.lessons (teacher_row s0 x)) as [|l0 ls] eqn:Hls.
        * unfold addStudyDayConstraintsOfTeacher. wp_step. wp_step.
          rewrite Hr, Hd1, Hd2, Hls. wp_step. eapply wp_lift; [reflexivity|].
          wp_step. eapply wp_lift; [reflexivity|]. simpl. wp_step.
          apply Keep; try done; try apply extends_refl.
        * assert (HWx : forall l, l ∈ Teacher.lessons (teacher_row s x) ->
                    is_Some (weekdayVar s !! l)).
          { intros l Hin. rewrite Hw. apply (HW x l Hxin). by rewrite <- Hr. }
          eapply wp_mono.
          { apply (wp_addStudyDayConstraintsOfTeacher x d1 d2); rewrite ?Hr; try done.
            - by rewrite Hls.
            - intros l Hin. apply HWx. by rewrite Hr. }
          intros [] s' Hposted.
          pose proof (studyDayPosted_enforced _ _ _ _ _ HWx Hposted) as Henf.
          pose proof (studyDayPosted_extends _ _ _ _ _ Hposted) as Hext'.
          destruct Hposted as (H1 & H2 & _ & _ & Hw' & Hr').
          apply Keep; try done.
          -- intros t Hneq. rewrite H1, H2. by rewrite !lookup_insert_ne.
          -- intros e1 e2 [= <-] [= <-] _. exact Henf.
      + unfold Teacher.hasStudyday. rewrite Hd1, Hd2. wp_step.
        apply Keep; try done; apply extends_refl.
      + unfold Teacher.hasStudyday. rewrite Hd1. wp_step.
        apply Keep; try done; apply extends_refl.
    - intros s HI. exact HI. }
  destruct W as ([] & s1 & Hrun & Hext & Hw & Hr & Hall).
  exists s1. auto.
Qed.
End StudyDay.

Lemma enforced_not_equal (val : Assignment) (k : Z) (W S : IntVar) :
  holds val (OnlyEnforceIf (Linear (Ne (Const k) (Var W))) (Lit S)) = true ->
  val S = 1 -> val W <> k.
Proof.
  cbn [holds lit_holds bounded_holds eval]. intros H HS E.
  rewrite HS, E, !Z.eqb_refl in H. discriminate H.
Qed.

(** C8. For every teacher with both study days set and at least one lesson,
    [addTeacherStudyDayConstraints] attaches two booleans S1 and S2, where S2
    is the same variable as S1 exactly when the two weekdays coincide; it
    posts, for every lesson of the teacher, weekdayVar <> id(study_day_1)
    under S1 and, when the days differ, weekdayVar <> id(study_day_2) under
    S2, and it requires S1 or S2. So in every feasible assignment one of the
    two chosen days has none of the teacher's lessons. *)
Theorem study_day_alternatives (orm : ORM) (s0 : State) :
  weekdayVarsAttached orm s0 ->
  exists s1,
    addTeacherStudyDayConstraints orm s0 = Ok (tt, s1) /\
    forall t d1 d2, t ∈ getTeachers orm ->
      Teacher.study_day_1 (teacher_row s0 t) = Some d1 ->
      Teacher.study_day_2 (teacher_row s0 t) = Some d2 ->
      Teacher.lessons (teacher_row s0 t) <> [] ->
      exists S1 S2 : IntVar,
        studyDay1BoolVar s1 !! t = Some S1 /\
        studyDay2BoolVar s1 !! t = Some S2 /\
        (S2 = S1 <-> d1 = d2) /\
        variables (model s1) !! S1 = Some (FromInterval 0 1) /\
        variables (model s1) !! S2 = Some (FromInterval 0 1) /\
        BoolOr [Lit S1; Lit S2] ∈ constraints (model s1) /\
        (forall l, l ∈ Teacher.lessons (teacher_row s0 t) ->
           exists W : IntVar,
             weekdayVar s1 !! l = Some W /\
             OnlyEnforceIf (Linear (Ne (Const (Timeslot.days d1)) (Var W))) (Lit S1)
               ∈ constraints (model s1) /\
             (d1 <> d2 ->
              OnlyEnforceIf (Linear (Ne (Const (Timeslot.days d2)) (Var W))) (Lit S2)
                ∈ constraints (model s1))) /\
        forall val, feasible val (model s1) ->
          (forall l W, l ∈ Teacher.lessons (teacher_row s0 t) ->
             weekdayVar s1 !! l = Some W ->
             (val S1 = 1 -> val W <> Timeslot.days d1) /\
             (val S2 = 1 -> val W <> Timeslot.days d2)) /\
          (val S1 = 1 \/ val S2 = 1) /\
          exists d, (d = d1 \/ d = d2) /\
            forall l W, l ∈ Teacher.lessons (teacher_row s0 t) ->
              weekdayVar s1 !! l = Some W -> val W <> Timeslot.days d.
Proof.
  intros HW.
  destruct (addTeacherStudyDayConstraints_run orm s0 HW)
    as (s1 & Hrun & Hext & Hw & Hr & Hall).
  exists s1. split; [exact Hrun|].
  intros t d1 d2 Ht Hd1 Hd2 Hne.
  destruct (Hall t d1 d2 Ht Hd1 Hd2 Hne)
    as (S1 & S2 & E1 & E2 & Hiff & V1 & V2 & Hor & Hls).
  rewrite Hr in Hls.
  exists S1, S2. do 7 (split; [assumption|]).
  intros val [_ Hcs].
  assert (Under : forall l W, l ∈ Teacher.lessons (teacher_row s0 t) ->
            weekdayVar s1 !! l = Some W ->
            (val S1 = 1 -> val W <> Timeslot.days d1) /\
            (val S2 = 1 -> val W <> Timeslot.days d2)).
  { intros l W Hl HWl. destruct (Hls l Hl) as (W' & HW' & C1 & C2).
    assert (W' = W) by congruence. subst W'. split.
    - apply enforced_not_equal. by apply Hcs.
    - destruct (decide (d1 = d2)) as [He|Hn].
      + assert (S2 = S1) by by apply Hiff. subst S2 d2.
        apply enforced_not_equal. by apply Hcs.
      + apply enforced_not_equal. apply Hcs. by apply C2. }
  assert (Or : val S1 = 1 \/ val S2 = 1).
  { apply Hcs in Hor. simpl in Hor. rewrite orb_false_r in Hor.
    apply orb_true_iff in Hor as [H|H]; apply Z.eqb_eq in H; auto. }
  split; [exact Under|]. split; [exact Or|].
  destruct Or as [H1|H2].
  - exists d1. split; [by left|]. intros l W Hl HWl. by apply (Under l W Hl HWl).
  - exists d2. split; [by right|]. intros l W Hl HWl. by apply (Under l W Hl HWl).
Qed.

Lemma study_day_alternatives_witness :
  exists s1 (S1 S2 : IntVar),
    addTeacherStudyDayConstraints Sample.orm
      (SampleState.attached (SampleState.withStudyDays MO FR)) = Ok (tt, s1) /\
    studyDay1BoolVar s1 !! 1%nat = Some S1 /\
    studyDay2BoolVar s1 !! 1%nat = Some S2 /\
    S2 <> S1.
Proof.
  destruct (study_day_alternatives Sample.orm
              (SampleState.attached (SampleState.withStudyDays MO FR)))
    as (s1 & Hrun & H).
  - intros t l _ Hl. simpl in Hl.
    repeat (apply elem_of_cons in Hl as [->|Hl]; [eexists; vm_compute; reflexivity|]).
    by apply not_elem_of_nil in Hl.
  - destruct (H 1%nat MO FR) as (S1 & S2 & E1 & E2 & Hiff & _).
    + apply list_elem_of_singleton. reflexivity.
    + reflexivity.
    + reflexivity.
    + discriminate.
    + exists s1, S1, S2. split; [exact Hrun|]. split; [exact E1|]. split; [exact E2|].
      intros E. apply Hiff in E. discriminate.
Defined.

(** ** The hour penalties of the objective *)

(** A loop that reads the state without changing it. *)
Lemma wp_foldM_read {A B : Type} (R : list A -> B -> Prop)
      (f : B -> A -> Build B) (l : list A) (b : B) (Q : B -> State -> Prop) (s : State) :
  R [] b ->
  (forall done x rest b, l = done ++ x :: rest -> R done b ->
     wp (f b x) (fun b' s' => s' = s /\ R (done ++ [x]) b') s) ->
  (forall b, R l b -> Q b s) ->
  wp (foldM f l b) Q s.
Proof.
  intros H0 Hstep Hend.
  apply (wp_foldM (fun done b s' => s' = s /\ R done b)).
  - by split.
  - intros done x rest b0 s0 Hl [-> HR]. by apply (Hstep done x rest).
  - intros b0 s0 [-> HR]. by apply Hend.
Qed.

Section HourPenalties.
Variable orm : ORM.









End HourPenalties.


Section Objective.
Variable orm : ORM.

(** The three counter steps that are not embedded: each returns normally,
    only adds to the model, and attaches the counters that the summand loop
    after it reads. *)
Variable addCountGapsVariables : Build unit.
Variable addGapBetweenDaysTeacherVariables : Build unit.
Variable addFreeDaySemesterGroupVariables : Build unit.

Hypothesis gaps_step : forall s, exists s',
  addCountGapsVariables s = Ok (tt, s') /\
  extends (model s) (model s') /\
  forall sg, sg ∈ getSemesterGroups orm -> is_Some (gapCounts s' !! sg).

Hypothesis dayGaps_step : forall s, exists s',
  addGapBetweenDaysTeacherVariables s = Ok (tt, s') /\
  extends (model s) (model s').

Hypothesis freeDay_step : forall s, exists s',
  addFreeDaySemesterGroupVariables s = Ok (tt, s') /\
  extends (model s) (model s') /\
  forall sg, sg ∈ getSemesterGroups orm ->
    SemesterGroup.free_day (semester_group_row orm sg) <> None ->
    is_Some (lessonsOnFreeDay s' !! sg).




End Objective.



(** ** The start-slot variables of the lessons *)

Lemma elem_of_py_set {A : Type} `{EqDecision A} (l : list A) (x : A) :
  x ∈ py_set l <-> x ∈ l.
Proof.
  induction l as [|y l IH]; [reflexivity|].
  cbn [py_set]. rewrite !elem_of_cons, list_elem_of_filter, IH.
  destruct (decide (x = y)); naive_solver.
Qed.

Lemma py_in_true {A : Type} `{EqDecision A} (x : A) (l : list A) :
  py_in x l = true <-> x ∈ l.
Proof.
  unfold py_in. rewrite existsb_exists. split.
  - intros (y & Hy & Hd). apply bool_decide_eq_true in Hd. subst y.
    by apply list_elem_of_In.
  - intros Hx. exists x. split; [by apply list_elem_of_In | by apply bool_decide_eq_true].
Qed.

Lemma elem_of_intersectAll {A : Type} `{EqDecision A}
      (first : list A) (others : list (list A)) (x : A) :
  exists r, intersectAll (first :: others) = Ok r /\
            (x ∈ r <-> forall l : list A, l ∈ first :: others -> x ∈ l).
Proof.
  eexists. split; [reflexivity|].
  assert (G : forall acc : list A,
            x ∈ fold_left (fun firstSet i => filter (fun y => py_in y i = true) firstSet)
                          others acc
            <-> x ∈ acc /\ forall l : list A, l ∈ others -> x ∈ l).
  { induction others as [|o others IH]; intros acc; cbn [fold_left].
    - split; [intros Hx; split; [done|] | by intros [? _]].
      intros l Hl. by apply not_elem_of_nil in Hl.
    - rewrite IH, list_elem_of_filter, py_in_true. split.
      + intros [[Ho Ha] Hall]. split; [done|]. intros l [->|Hl]%elem_of_cons; auto.
      + intros [Ha Hall]. split; [split; [|done]|].
        * apply Hall. apply elem_of_cons. by left.
        * intros l Hl. apply Hall. apply elem_of_cons. by right. }
  rewrite G, elem_of_py_set. split.
  - intros [Hf Hall] l [->|Hl]%elem_of_cons; auto.
  - intros Hall. split.
    + apply Hall. apply elem_of_cons. by left.
    + intros l Hl. apply Hall. apply elem_of_cons. by right.
Qed.

Lemma range_split (n x : Z) (done rest : list Z) :
  range n = done ++ x :: rest ->
  x = Z.of_nat (length done) /\ done = range (Z.of_nat (length done)) /\
  (length done < Z.to_nat n)%nat.
Proof.
  unfold range. intros H.
  assert (Hlen : (length done < Z.to_nat n)%nat).
  { apply (f_equal length) in H.
    rewrite length_map, length_seq, length_app in H. simpl in H. lia. }
  assert (Hk : forall k, (k < Z.to_nat n)%nat ->
            map Z.of_nat (seq 0 (Z.to_nat n)) !! k = Some (Z.of_nat k)).
  { intros k Hk. rewrite list_lookup_fmap, lookup_seq_lt by done. done. }
  split; [|split; [|exact Hlen]].
  - pose proof (Hk (length done) Hlen) as E. rewrite H in E.
    rewrite list_lookup_middle in E by done. by injection E.
  - apply list_eq. intros k. rewrite Nat2Z.id.
    destruct (decide (k < length done)%nat) as [Hlt|Hge].
    + rewrite list_lookup_fmap, lookup_seq_lt by done. simpl.
      rewrite <- (Hk k) by lia. rewrite H. by rewrite lookup_app_l.
    + rewrite lookup_ge_None_2 by lia.
      rewrite list_lookup_fmap, lookup_seq_ge by lia. done.
Qed.

Lemma py_max_bounds (x : Z) (rest : list Z) :
  let m := fold_left Z.max rest x in
  (forall y, y ∈ x :: rest -> y <= m) /\ m ∈ x :: rest.
Proof.
  revert x. induction rest as [|y rest IH]; intros x; cbn [fold_left].
  - split; [|apply elem_of_cons; by left].
    intros y [->|Hy]%elem_of_cons; [lia | by apply not_elem_of_nil in Hy].
  - destruct (IH (Z.max x y)) as [Hle Hin]. split.
    + intros z Hz. apply elem_of_cons in Hz as [->|Hz].
      * specialize (Hle (Z.max x y)). pose proof (Hle ltac:(apply elem_of_cons; by left)).
        lia.
      * apply elem_of_cons in Hz as [->|Hz].
        -- pose proof (Hle (Z.max x y) ltac:(apply elem_of_cons; by left)). lia.
        -- apply Hle. apply elem_of_cons. by right.
    + apply elem_of_cons in Hin as [E|Hin].
      * rewrite E. destruct (Z.max_spec x y) as [[_ ->]|[_ ->]].
        -- apply elem_of_cons. right. apply elem_of_cons. by left.
        -- apply elem_of_cons. by left.
      * apply elem_of_cons. right. apply elem_of_cons. by right.
Qed.

(** The state [s] with another model and other [timeVars]. *)
Definition with_model_timeVars (M : CpModel) (T : gmap nat (list IntVar)) (s : State) : State :=
  upd_model (fun _ => M) (upd_timeVars (fun _ => T) s).

(** The fields that the variable factory does not touch. *)
Definition factory_frame (s s' : State) : Prop :=
  teacher_row s' = teacher_row s /\
  weekdayVar s' = weekdayVar s /\ hourNumberVar s' = hourNumberVar s /\
  weekdayBoolVars s' = weekdayBoolVars s /\ timeslotBoolVars s' = timeslotBoolVars s /\
  timeslotLectureBoolMap s' = timeslotLectureBoolMap s /\
  studyDay1BoolVar s' = studyDay1BoolVar s /\ studyDay2BoolVar s' = studyDay2BoolVar s /\
  gapCounts s' = gapCounts s /\ dayGapCounts s' = dayGapCounts s /\
  lessonsOnFreeDay s' = lessonsOnFreeDay s.

Lemma factory_frame_refl (s : State) : factory_frame s s.
Proof. repeat split. Qed.

Lemma factory_frame_trans (s1 s2 s3 : State) :
  factory_frame s1 s2 -> factory_frame s2 s3 -> factory_frame s1 s3.
Proof.
  unfold factory_frame. intros H12 H23.
  destruct H12 as (?&?&?&?&?&?&?&?&?&?&?), H23 as (?&?&?&?&?&?&?&?&?&?&?).
  repeat split; congruence.
Qed.

Section StartSlots.
Variable orm : ORM.

(** A lesson with the lessons that are to start at the same time. *)
Definition group (l : nat) : list nat := l :: lessons_at_same_time orm l.

(** The largest [timeslot_size] of a group. *)
Definition maxSize (g : list nat) : Z :=
  match map (timeslot_size orm) g with
  | [] => 0
  | x :: rest => fold_left Z.max rest x
  end.

(** The admissible timeslot ids of the [i]-th start slot of a group, in the
    words of the specification: the timeslot is available to every member of
    size above [i], and its number in the day leaves room for the rest of
    the longest lesson. *)
Definition admissible (g : list nat) (i z : Z) : Prop :=
  exists t, Timeslot.id t = z /\
    (forall m, m ∈ g -> i < timeslot_size orm m ->
       t ∈ Lesson.availableTimeslotsFiltered (lesson_row orm m)) /\
    Timeslot.number t <= TIMESLOTS_PER_DAY orm - maxSize g + i + 1.

(** The values of the domain that [createTimeVar] computes. *)
Definition timeDomainValues (g : list nat) (mx i : Z) : list Z :=
  match intersectAll (map (fun l => Lesson.availableTimeslotsFiltered (lesson_row orm l))
                          (filter (fun l => i < timeslot_size orm l) g)) with
  | Ok availableTimeslots =>
      map Timeslot.id
          (filter (fun t => Timeslot.number t <= TIMESLOTS_PER_DAY orm - mx + i + 1)
                  availableTimeslots)
  | Raise _ => []
  end.

Lemma maxSize_bounds (g : list nat) :
  g <> [] ->
  (forall m, m ∈ g -> timeslot_size orm m <= maxSize g) /\
  exists m, m ∈ g /\ timeslot_size orm m = maxSize g.
Proof.
  intros Hg. unfold maxSize. destruct g as [|m0 g]; [done|]. cbn [map].
  destruct (py_max_bounds (timeslot_size orm m0) (map (timeslot_size orm) g)) as [Hle Hin].
  split.
  - intros m Hm. apply Hle. change (timeslot_size orm m ∈ map (timeslot_size orm) (m0 :: g)).
    apply list_elem_of_fmap. by exists m.
  - change (fold_left Z.max (map (timeslot_size orm) g) (timeslot_size orm m0)
            ∈ map (timeslot_size orm) (m0 :: g)) in Hin.
    apply list_elem_of_fmap in Hin as (m & E & Hm). by exists m.
Qed.

Lemma timeDomainValues_admissible (g : list nat) (i z : Z) :
  g <> [] -> i < maxSize g ->
  z ∈ timeDomainValues g (maxSize g) i <-> admissible g i z.
Proof.
  intros Hg Hi. unfold timeDomainValues, admissible.
  destruct (maxSize_bounds g Hg) as [_ (m0 & Hm0 & Em0)].
  assert (Hm0f : m0 ∈ filter (fun l => i < timeslot_size orm l) g).
  { apply list_elem_of_filter. split; [lia | done]. }
  destruct (map (fun l => Lesson.availableTimeslotsFiltered (lesson_row orm l))
                (filter (fun l => i < timeslot_size orm l) g))
    as [|first others] eqn:Hmap.
  { apply (f_equal length) in Hmap. rewrite length_map in Hmap.
    destruct (filter (fun l => i < timeslot_size orm l) g); [|discriminate].
    by apply not_elem_of_nil in Hm0f. }
  assert (Hall : forall t : Timeslot.t,
            (forall l : list Timeslot.t, l ∈ first :: others -> t ∈ l) <->
            (forall m, m ∈ g -> i < timeslot_size orm m ->
                       t ∈ Lesson.availableTimeslotsFiltered (lesson_row orm m))).
  { intros t. rewrite <- Hmap. split.
    - intros H m Hm Hsz. apply H. apply list_elem_of_fmap. exists m.
      split; [done|]. by apply list_elem_of_filter.
    - intros H l (m & -> & Hm)%list_elem_of_fmap.
      apply list_elem_of_filter in Hm as [Hsz Hm]. by apply H. }
  split.
  - destruct (elem_of_intersectAll first others
                {| Timeslot.id := 0; Timeslot.weekday := MO;
                   Timeslot.weekday_number := 0; Timeslot.number := 0 |})
      as (r & Er0 & _).
    rewrite Er0. intros (t & -> & Ht)%list_elem_of_fmap.
    apply list_elem_of_filter in Ht as [Hnum Ht].
    exists t. split; [done|]. split; [|done].
    destruct (elem_of_intersectAll first others t) as (r' & Er & Hr).
    assert (r' = r) by congruence. subst r'. by apply Hall, Hr.
  - intros (t & <- & Havail & Hnum).
    destruct (elem_of_intersectAll first others t) as (r & -> & Hr).
    apply list_elem_of_fmap. exists t. split; [done|].
    apply list_elem_of_filter. split; [done|]. apply Hr, Hall, Havail.
Qed.
(** The constraint [t_{k+1} == t_k + 1] between two start-slot variables
    created one after the other from index [n] on. *)
Definition consecutive (n k : nat) : Constraint :=
  Linear (Eq (Var (n + S k)%nat) (Plus (Var (n + k)%nat) (Const 1))).

(** What [createTimeVarsOfGroup] leaves behind for the group [g]. *)
Definition groupVarsCreated (g : list nat) (s s' : State) : Prop :=
  let n := length (variables (model s)) in
  let mx := maxSize g in
  variables (model s') =
    variables (model s) ++ map (fun i => FromValues (timeDomainValues g mx i)) (range mx) /\
  constraints (model s') =
    constraints (model s) ++ map (consecutive n) (seq 0 (Z.to_nat mx - 1)) /\
  objective (model s') = objective (model s) /\
  (forall m, m ∈ g -> timeVars s' !! m = Some (A:=list IntVar) (seq n (Z.to_nat (timeslot_size orm m)))) /\
  (forall m, m ∉ g -> timeVars s' !! m = timeVars s !! m) /\
  roomVar s' = roomVar s /\ factory_frame s s'.

Lemma wp_appendTimeVar (ls : list nat) (timeVar : IntVar) (M : CpModel)
      (T : gmap nat (list IntVar)) (s0 : State) (Q : unit -> State -> Prop) :
  NoDup ls ->
  (forall m, m ∈ ls -> is_Some (T !! m)) ->
  (forall T' : gmap nat (list IntVar),
     (forall m, T' !! m = if bool_decide (m ∈ ls)
                          then (fun tv => tv ++ [timeVar]) <$> T !! m else T !! m) ->
     Q tt (with_model_timeVars M T' s0)) ->
  wp (for_each ls (fun lessonSameTime =>
        let* tv := getattr timeVars lessonSameTime in
        modify (upd_timeVars (<[lessonSameTime := tv ++ [timeVar]]>))))
     Q (with_model_timeVars M T s0).
Proof.
  intros Hnd Hsome HQ.
  apply (wp_for_each (fun done s => exists T' : gmap nat (list IntVar),
           s = with_model_timeVars M T' s0 /\
           forall m, T' !! m = if bool_decide (m ∈ done)
                               then (fun tv => tv ++ [timeVar]) <$> T !! m else T !! m)).
  - exists T. split; [done|]. intros m. rewrite bool_decide_eq_false_2; [done|].
    apply not_elem_of_nil.
  - intros done x rest s Hl (T' & -> & HT').
    assert (Hx : x ∉ done).
    { rewrite Hl in Hnd. apply NoDup_app in Hnd as (_ & Hd & _).
      intros Hin. apply (Hd x Hin). apply elem_of_cons. by left. }
    destruct (Hsome x) as [tv Htv].
    { rewrite Hl. apply elem_of_app. right. apply elem_of_cons. by left. }
    apply wp_bind. apply (wp_getattr _ _ tv).
    { change (T' !! x = Some tv). rewrite HT'. by rewrite bool_decide_eq_false_2. }
    apply wp_modify. exists (<[x := tv ++ [timeVar]]> T'). split; [done|].
    intros m. destruct (decide (m = x)) as [->|Hne].
    + rewrite lookup_insert_eq. rewrite bool_decide_eq_true_2.
      * by rewrite Htv.
      * apply elem_of_app. right. by apply list_elem_of_singleton.
    + rewrite lookup_insert_ne by done. rewrite HT'.
      destruct (bool_decide_reflect (m ∈ done)) as [Hin|Hnin].
      * rewrite bool_decide_eq_true_2; [done|]. apply elem_of_app. by left.
      * rewrite bool_decide_eq_false_2; [done|].
        intros [?|?%list_elem_of_singleton]%elem_of_app; done.
  - intros s (T' & -> & HT'). by apply HQ.
Qed.
Lemma intersect_available (g : list nat) (i : Z) :
  g <> [] -> i < maxSize g ->
  exists availableTimeslots,
    intersectAll (map (fun l => Lesson.availableTimeslotsFiltered (lesson_row orm l))
                      (filter (fun l => i < timeslot_size orm l) g))
    = Ok availableTimeslots.
Proof.
  intros Hg Hi. destruct (maxSize_bounds g Hg) as [_ (m0 & Hm0 & Em0)].
  assert (Hm0f : m0 ∈ filter (fun l => i < timeslot_size orm l) g).
  { apply list_elem_of_filter. split; [lia | done]. }
  destruct (filter (fun l => i < timeslot_size orm l) g) as [|l0 ls].
  { by apply not_elem_of_nil in Hm0f. }
  cbn [map].
  destruct (elem_of_intersectAll
              (Lesson.availableTimeslotsFiltered (lesson_row orm l0))
              (map (fun l => Lesson.availableTimeslotsFiltered (lesson_row orm l)) ls)
              {| Timeslot.id := 0; Timeslot.weekday := MO;
                 Timeslot.weekday_number := 0; Timeslot.number := 0 |})
    as (r & Er & _).
  by exists r.
Qed.

Lemma with_model_timeVars_same (s : State) :
  with_model_timeVars (model s) (timeVars s) s = s.
Proof. by destruct s. Qed.

Lemma wp_createTimeVarsOfGroup (lesson : nat) (Q : unit -> State -> Prop) (s : State) :
  NoDup (group lesson) ->
  (forall s', groupVarsCreated (group lesson) s s' -> Q tt s') ->
  wp (createTimeVarsOfGroup orm lesson) Q s.
Proof.
  intros Hnd HQ. unfold createTimeVarsOfGroup. fold (group lesson).
  assert (Hg : group lesson <> []) by done.
  set (g := group lesson) in *.
  set (n := length (variables (model s))).
  apply wp_bind. apply (wp_lift _ (maxSize g)); [reflexivity|].
  apply wp_bind.
  apply (wp_for_each (fun done s' => exists T : gmap nat (list IntVar),
           s' = with_model_timeVars (model s) T s /\
           (forall m, m ∈ done -> T !! m = Some []) /\
           (forall m, m ∉ done -> T !! m = timeVars s !! m))).
  { exists (timeVars s). split; [by rewrite with_model_timeVars_same|].
    split; [|done]. by intros m ?%not_elem_of_nil. }
  { intros done x rest s1 _ (T & -> & Hin & Hout). apply wp_modify.
    exists (<[x := []]> T). split; [done|]. split.
    - intros m [Hm| ->%list_elem_of_singleton]%elem_of_app.
      + destruct (decide (m = x)) as [->|Hne]; [by rewrite lookup_insert_eq|].
        rewrite lookup_insert_ne by done. by apply Hin.
      + by rewrite lookup_insert_eq.
    - intros m Hm. rewrite lookup_insert_ne.
      + apply Hout. intros ?. apply Hm. apply elem_of_app. by left.
      + intros ->. apply Hm. apply elem_of_app. right. by apply list_elem_of_singleton. }
  intros s1 (T0 & -> & Hin0 & Hout0). apply wp_bind.
  apply (wp_foldM (fun done last s' => exists (M : CpModel) (T : gmap nat (list IntVar)),
           s' = with_model_timeVars M T s /\
           variables M = variables (model s)
                         ++ map (fun i => FromValues (timeDomainValues g (maxSize g) i)) done /\
           constraints M = constraints (model s)
                           ++ map (consecutive n) (seq 0 (length done - 1)) /\
           objective M = objective (model s) /\
           (forall m, m ∈ g ->
              T !! m = Some (A:=list IntVar) (seq n (Nat.min (length done) (Z.to_nat (timeslot_size orm m))))) /\
           (forall m, m ∉ g -> T !! m = timeVars s !! m) /\
           last = match length done with O => None | S k => Some (n + k)%nat end)).
  { exists (model s), T0. split; [done|]. cbn [map length seq Nat.sub].
    rewrite !app_nil_r. repeat split; try done; intros m Hm; by apply Hin0. }
  2:{ intros last s' (M & T & -> & HV & HC & HO & Hin & Hout & _). apply wp_ret.
      apply HQ. unfold groupVarsCreated. fold g n. rewrite length_range in HC, Hin.
      repeat split; try done.
      intros m Hm. change (T !! m = Some (A:=list IntVar) (seq n (Z.to_nat (timeslot_size orm m)))).
      rewrite (Hin m Hm). do 2 f_equal.
      destruct (maxSize_bounds g Hg) as [Hle _]. specialize (Hle m Hm). lia. }
  intros done x rest last s' Hl (M & T & -> & HV & HC & HO & Hin & Hout & ->).
  apply range_split in Hl as (-> & Hdone & Hk).
  set (k := length done) in *.
  assert (Hkmx : Z.of_nat k < maxSize g) by lia.
  destruct (intersect_available g (Z.of_nat k) Hg Hkmx) as [avail Havail].
  unfold createTimeVar.
  apply wp_bind. apply (wp_lift _ avail); [exact Havail|].
  assert (Hdom : map Timeslot.id
                   (filter (fun t => Timeslot.number t
                                     <= TIMESLOTS_PER_DAY orm - maxSize g + Z.of_nat k + 1) avail)
                 = timeDomainValues g (maxSize g) (Z.of_nat k)).
  { unfold timeDomainValues. by rewrite Havail. }
  rewrite Hdom.
  apply wp_bind. apply wp_NewIntVarFromDomain.
  change (upd_model (add_variable (FromValues (timeDomainValues g (maxSize g) (Z.of_nat k))))
                    (with_model_timeVars M T s))
    with (with_model_timeVars
            (add_variable (FromValues (timeDomainValues g (maxSize g) (Z.of_nat k))) M) T s).
  change (model (with_model_timeVars M T s)) with M.
  assert (Htv : length (variables M) = (n + k)%nat).
  { rewrite HV, length_app, length_map. done. }
  rewrite Htv.
  apply wp_bind. apply wp_appendTimeVar.
  { by apply NoDup_filter. }
  { intros m [_ Hm]%list_elem_of_filter. eexists. by apply Hin. }
  intros T' HT'.
  assert (HT'in : forall m, m ∈ g ->
            T' !! m = Some (A:=list IntVar) (seq n (Nat.min (S k) (Z.to_nat (timeslot_size orm m))))).
  { intros m Hm. rewrite HT', (Hin m Hm).
    destruct (bool_decide_reflect (m ∈ filter (fun l => Z.of_nat k < timeslot_size orm l) g))
      as [[Hsz _]%list_elem_of_filter|Hn].
    - cbn [fmap option_fmap option_map]. f_equal.
      replace (Nat.min k (Z.to_nat (timeslot_size orm m))) with k by lia.
      replace (Nat.min (S k) (Z.to_nat (timeslot_size orm m))) with (S k) by lia.
      by rewrite seq_S.
    - f_equal. f_equal.
      assert (~ Z.of_nat k < timeslot_size orm m).
      { intros Hsz. apply Hn. by apply list_elem_of_filter. }
      lia. }
  assert (HT'out : forall m, m ∉ g -> T' !! m = timeVars s !! m).
  { intros m Hm. rewrite HT', bool_decide_eq_false_2; [by apply Hout|].
    intros [_ ?]%list_elem_of_filter. done. }
  rewrite length_app. cbn [length]. rewrite Nat.add_1_r. fold k.
  destruct k as [|k'] eqn:Ek.
  - apply wp_bind, wp_ret, wp_ret.
    eexists _, T'. split; [reflexivity|]. cbn [add_variable variables constraints objective].
    rewrite HV, HC, map_app, app_assoc. cbn [Nat.sub seq map]. rewrite Nat.add_0_r.
    repeat split; try done.
  - apply wp_bind. apply wp_AddConstraint. apply wp_ret.
    eexists (add_constraint _ (add_variable _ M)), T'. split; [reflexivity|].
    cbn [add_variable add_constraint variables constraints objective].
    rewrite HV, HC, map_app, app_assoc.
    replace (S k' - 1)%nat with k' by lia. replace (S (S k') - 1)%nat with (S k') by lia.
    rewrite seq_S, map_app. cbn [map Nat.add]. unfold consecutive.
    repeat split; try done; by rewrite <- ?app_assoc.
Qed.
(** The start-slot vector [ts] of the same-time group of [L]: every member
    holds the prefix of its own size, the [i]-th variable ranges over the
    admissible ids, and neighbours are tied by [t_{i+1} == t_i + 1]. *)
Definition startSlots (s : State) (L : nat) (ts : list IntVar) : Prop :=
  length ts = Z.to_nat (maxSize (group L)) /\ NoDup ts /\
  (forall M, M ∈ group L ->
     timeVars s !! M = Some (take (Z.to_nat (timeslot_size orm M)) ts)) /\
  (forall (i : nat) t, ts !! i = Some t ->
     exists values, variables (model s) !! t = Some (FromValues values) /\
                    forall z, z ∈ values <-> admissible (group L) (Z.of_nat i) z) /\
  (forall (i : nat) t t', ts !! i = Some t -> ts !! S i = Some t' ->
     Linear (Eq (Var t') (Plus (Var t) (Const 1))) ∈ constraints (model s)).

Lemma maxSize_same_members (g g' : list nat) :
  g <> [] -> (forall x, x ∈ g' <-> x ∈ g) -> maxSize g' = maxSize g.
Proof.
  intros Hg Hsame.
  assert (Hg' : g' <> []).
  { destruct g as [|x g]; [done|]. intros ->.
    apply (not_elem_of_nil x), Hsame, elem_of_cons. by left. }
  destruct (maxSize_bounds g Hg) as [Hle (m & Hm & Em)].
  destruct (maxSize_bounds g' Hg') as [Hle' (m' & Hm' & Em')].
  apply Hsame in Hm'. apply Hsame in Hm.
  specialize (Hle m' Hm'). specialize (Hle' m Hm). lia.
Qed.

Lemma startSlots_member (s : State) (L M : nat) (ts : list IntVar) :
  (forall x, x ∈ group M <-> x ∈ group L) -> startSlots s L ts -> startSlots s M ts.
Proof.
  intros Hsame (Hlen & Hnd & Htv & Hdom & Hcons).
  assert (Hmx : maxSize (group M) = maxSize (group L)).
  { by apply maxSize_same_members. }
  split; [by rewrite Hmx|]. split; [done|]. split; [|split; [|done]].
  - intros x Hx. by apply Htv, Hsame.
  - intros i t Ht. destruct (Hdom i t Ht) as (values & Hv & Hz).
    exists values. split; [done|]. intros z. rewrite Hz. unfold admissible. rewrite Hmx.
    split; intros (t0 & E & Hav & Hn); exists t0; repeat split; try done;
      intros m Hm; apply Hav; by apply Hsame.
Qed.

Lemma startSlots_kept (s s' : State) (L : nat) (ts : list IntVar) :
  extends (model s) (model s') ->
  (forall M, M ∈ group L -> timeVars s' !! M = timeVars s !! M) ->
  startSlots s L ts -> startSlots s' L ts.
Proof.
  intros Hext Hsame (Hlen & Hnd & Htv & Hdom & Hcons).
  split; [done|]. split; [done|]. split; [|split].
  - intros M HM. rewrite (Hsame M HM). by apply Htv.
  - intros i t Ht. destruct (Hdom i t Ht) as (values & Hv & Hz).
    exists values. split; [|done]. by eapply extends_variable.
  - intros i t t' Ht Ht'. eapply extends_constraint; [done|]. by eapply Hcons.
Qed.

Lemma groupVarsCreated_extends (g : list nat) (s s' : State) :
  groupVarsCreated g s s' -> extends (model s) (model s').
Proof. intros (HV & HC & _). split; eexists; eassumption. Qed.

Lemma groupVarsCreated_startSlots (L : nat) (s s' : State) :
  groupVarsCreated (group L) s s' ->
  startSlots s' L (seq (length (variables (model s))) (Z.to_nat (maxSize (group L)))).
Proof.
  intros (HV & HC & _ & Hin & _).
  assert (Hg : group L <> []) by done.
  set (g := group L) in *. set (n := length (variables (model s))) in *.
  split; [by rewrite length_seq|]. split; [apply NoDup_seq|]. split; [|split].
  - intros M HM. rewrite (Hin M HM), take_seq. do 2 f_equal.
    destruct (maxSize_bounds g Hg) as [Hle _]. specialize (Hle M HM). lia.
  - intros i t [-> Hi]%lookup_seq.
    exists (timeDomainValues g (maxSize g) (Z.of_nat i)). split.
    + rewrite HV. unfold n. rewrite lookup_app_r by lia.
      replace (length (variables (model s)) + i - length (variables (model s)))%nat
        with i by lia.
      unfold range. rewrite !list_lookup_fmap.
      by rewrite lookup_seq_lt.
    + intros z. apply timeDomainValues_admissible; [done | fold g; lia].
  - intros i t t' [-> Hi]%lookup_seq [-> Hi']%lookup_seq.
    rewrite HC. apply elem_of_app. right. apply list_elem_of_fmap.
    exists i. split; [|apply elem_of_seq; lia].
    unfold consecutive. fold n. done.
Qed.
(** The lessons that the factory visits. *)
Definition catalogLessons : list nat :=
  flat_map (fun course => Course.lessons (course_row orm course)) (getCourses orm).

(** The data invariant of [lessons_at_same_time]: a lesson is listed once in
    its group, and the members of a group have the same group. *)
Definition sameTimeGroupsClosed : Prop :=
  forall l, l ∈ catalogLessons ->
    NoDup (group l) /\
    forall m, m ∈ group l -> forall x, x ∈ group m <-> x ∈ group l.

(** Every lesson that has [timeVars] holds the start slots of a group. *)
Definition startSlotsAttached (s : State) : Prop :=
  forall L, is_Some (timeVars s !! L) ->
    exists leader ts, leader ∈ catalogLessons /\ L ∈ group leader /\
                      startSlots s leader ts.

(** What every step of the factory keeps. *)
Definition factory_step (s s' : State) : Prop :=
  factory_frame s s' /\ extends (model s) (model s') /\
  forall L, is_Some (timeVars s !! L) -> is_Some (timeVars s' !! L).

Lemma factory_step_refl (s : State) : factory_step s s.
Proof. split; [apply factory_frame_refl|]. split; [apply extends_refl | done]. Qed.

Lemma factory_step_trans (s1 s2 s3 : State) :
  factory_step s1 s2 -> factory_step s2 s3 -> factory_step s1 s3.
Proof.
  intros (F12 & E12 & H12) (F23 & E23 & H23). split; [by eapply factory_frame_trans|].
  split; [by eapply extends_trans | auto].
Qed.

Lemma wp_createVariablesOfLesson (roomDomain : Domain) (lesson : nat)
      (Q : unit -> State -> Prop) (s : State) :
  sameTimeGroupsClosed -> lesson ∈ catalogLessons -> startSlotsAttached s ->
  (forall s', factory_step s s' -> startSlotsAttached s' ->
              is_Some (timeVars s' !! lesson) -> Q tt s') ->
  wp (let* rv := NewIntVarFromDomain roomDomain in
      let* _ := modify (upd_roomVar (<[lesson := rv]>)) in
      let* has := hasattr timeVars lesson in
      if has then ret tt else createTimeVarsOfGroup orm lesson) Q s.
Proof.
  intros Hclosed Hcat Hatt HQ.
  apply wp_bind, wp_NewIntVarFromDomain, wp_bind, wp_modify, wp_bind, wp_hasattr.
  set (s1 := upd_roomVar _ (upd_model _ s)).
  assert (Hstep1 : factory_step s s1).
  { split; [repeat split|]. split; [apply extends_add_variable | done]. }
  assert (Hatt1 : startSlotsAttached s1).
  { intros L HL. destruct (Hatt L HL) as (leader & ts & Hl & HLl & Hss).
    exists leader, ts. split; [done|]. split; [done|].
    apply (startSlots_kept s); [apply Hstep1 | done | exact Hss]. }
  clearbody s1.
  destruct (timeVars s1 !! lesson) as [tv|] eqn:Htv.
  { apply wp_ret. apply HQ; [done | done |]. rewrite Htv. by eexists. }
  destruct (Hclosed lesson Hcat) as [Hnd Hgrp].
  apply wp_createTimeVarsOfGroup; [done|].
  intros s' Hcreated.
  pose proof (groupVarsCreated_startSlots _ _ _ Hcreated) as Hnew.
  pose proof (groupVarsCreated_extends _ _ _ Hcreated) as Hext.
  destruct Hcreated as (_ & _ & _ & Hin & Hout & _ & Hframe).
  apply HQ.
  - apply (factory_step_trans _ s1); [done|]. split; [done|]. split; [done|].
    intros L HL. destruct (decide (L ∈ group lesson)) as [Hm|Hm].
    + rewrite (Hin L Hm). by eexists.
    + by rewrite (Hout L Hm).
  - intros L HL. destruct (decide (L ∈ group lesson)) as [Hm|Hm].
    + exists lesson, (seq (length (variables (model s1)))
                          (Z.to_nat (maxSize (group lesson)))).
      done.
    + rewrite (Hout L Hm) in HL.
      destruct (Hatt1 L HL) as (leader & ts & Hl & HLl & Hss).
      exists leader, ts. split; [done|]. split; [done|].
      eapply startSlots_kept; [done | | exact Hss].
      intros M HM. apply Hout. intros HMl.
      assert (Hx : lesson ∈ group leader).
      { apply (proj2 (Hclosed leader Hl) M HM).
        apply (proj2 (Hclosed lesson Hcat) M HMl). apply elem_of_cons. by left. }
      destruct Hss as (_ & _ & Htvs & _). rewrite (Htvs lesson Hx) in Htv. discriminate.
  - rewrite (Hin lesson); [by eexists|]. apply elem_of_cons. by left.
Qed.

Lemma createLessonTimeAndRoomVariables_run (s0 : State) :
  sameTimeGroupsClosed -> startSlotsAttached s0 ->
  exists s', createLessonTimeAndRoomVariables orm s0 = Ok (tt, s') /\
    factory_step s0 s' /\ startSlotsAttached s' /\
    forall L, L ∈ catalogLessons -> is_Some (timeVars s' !! L).
Proof.
  intros Hclosed Hatt0.
  cut (wp (createLessonTimeAndRoomVariables orm)
          (fun _ s' => factory_step s0 s' /\ startSlotsAttached s' /\
                       forall L, L ∈ catalogLessons -> is_Some (timeVars s' !! L)) s0).
  { intros ([] & s' & Hrun & H). by exists s'. }
  unfold createLessonTimeAndRoomVariables.
  apply (wp_for_each (fun done s =>
           factory_step s0 s /\ startSlotsAttached s /\
           forall L, L ∈ flat_map (fun course => Course.lessons (course_row orm course)) done ->
                     is_Some (timeVars s !! L))).
  - split; [apply factory_step_refl|]. split; [done|]. by intros L ?%not_elem_of_nil.
  - intros doneC course restC s HlC (Hstep & Hatt & Hdone).
    apply (wp_for_each (fun done s' =>
             factory_step s0 s' /\ startSlotsAttached s' /\
             forall L, L ∈ flat_map (fun course => Course.lessons (course_row orm course)) doneC
                           ++ done ->
                       is_Some (timeVars s' !! L))).
    + by rewrite app_nil_r.
    + intros doneL lesson restL s1 HlL (Hstep1 & Hatt1 & Hdone1).
      apply wp_createVariablesOfLesson; [done | | done |].
      { unfold catalogLessons. rewrite HlC, flat_map_app. apply elem_of_app. right.
        cbn [flat_map]. apply elem_of_app. left. rewrite HlL.
        apply elem_of_app. right. apply elem_of_cons. by left. }
      intros s' Hs' Hatt' Hsome. split; [by eapply factory_step_trans|].
      split; [done|]. intros L HL. rewrite app_assoc in HL.
      apply elem_of_app in HL as [HL| ->%list_elem_of_singleton]; [|done].
      apply Hs', Hdone1, HL.
    + intros s1 (Hstep1 & Hatt1 & Hdone1). split; [done|]. split; [done|].
      intros L HL. apply Hdone1. rewrite flat_map_app in HL. cbn [flat_map] in HL.
      by rewrite app_nil_r in HL.
  - intros s (Hstep & Hatt & Hdone). done.
Qed.
End StartSlots.


(** The builder state before the first pass: a new [CpModel], and no
    attribute attached yet. *)
Definition freshState (rows : nat -> Teacher.t) : State :=
  {| model := {| variables := []; constraints := []; objective := None |};
     teacher_row := rows;
     roomVar := ∅; timeVars := ∅; weekdayVar := ∅; hourNumberVar := ∅;
     weekdayBoolVars := ∅; timeslotBoolVars := ∅; timeslotLectureBoolMap := ∅;
     studyDay1BoolVar := ∅; studyDay2BoolVar := ∅;
     gapCounts := ∅; dayGapCounts := ∅; lessonsOnFreeDay := ∅ |}.

Lemma sample_groups_closed : sameTimeGroupsClosed Sample.orm.
Proof.
  intros l _. split; [apply NoDup_singleton|].
  by intros m ->%list_elem_of_singleton.
Qed.


(** ** The helper variables of the lessons *)

(** The state [s] with another model and other helper attributes. *)
Definition with_helpers (M : CpModel) (Wm Hm : gmap nat IntVar)
           (Dm : gmap nat (list IntVar)) (s : State) : State :=
  upd_model (fun _ => M)
    (upd_weekdayVar (fun _ => Wm)
       (upd_hourNumberVar (fun _ => Hm) (upd_weekdayBoolVars (fun _ => Dm) s))).

Lemma with_helpers_same (s : State) :
  with_helpers (model s) (weekdayVar s) (hourNumberVar s) (weekdayBoolVars s) s = s.
Proof. by destruct s. Qed.

Lemma py_index_first {A : Type} (l : list A) :
  l <> [] -> exists x, py_index l 0 = Ok x /\ l !! 0%nat = Some x.
Proof. destruct l as [|x l]; [done|]. intros _. by exists x. Qed.

Lemma py_index_last {A : Type} (l : list A) :
  l <> [] -> exists x, py_index l (-1) = Ok x /\ l !! (length l - 1)%nat = Some x.
Proof.
  intros Hl. destruct (lookup_lt_is_Some_2 l (length l - 1)) as [x Hx].
  { destruct l; [done | simpl; lia]. }
  exists x. split; [|done]. unfold py_index.
  assert (Hlen : (0 < length l)%nat) by (destruct l; [done | simpl; lia]).
  destruct (Z.leb_spec 0 (-1)); [lia|].
  destruct (Z.ltb_spec (Z.of_nat (length l) + -1) 0); [lia|].
  replace (Z.to_nat (Z.of_nat (length l) + -1)) with (length l - 1)%nat by lia.
  by rewrite Hx.
Qed.

(** What [createWeekdayBoolVar] posts for one day: a boolean variable, and
    the bounds of the day's timeslot ids on the first start slot, enforced
    under it. *)
Definition dayBoolPosted (M : CpModel) (t0 : IntVar) (b : IntVar)
           (day : list Timeslot.t) : Prop :=
  variables M !! b = Some (FromInterval 0 1) /\
  exists first last,
    py_index day 0 = Ok first /\ py_index day (-1) = Ok last /\
    OnlyEnforceIf (Linear (Bounds (Var t0) (Timeslot.id first) (Timeslot.id last)))
                  (Lit b) ∈ constraints M.

Lemma dayBoolPosted_extends (M M' : CpModel) (t0 b : IntVar) (day : list Timeslot.t) :
  extends M M' -> dayBoolPosted M t0 b day -> dayBoolPosted M' t0 b day.
Proof.
  intros Hext (Hb & first & last & Hf & Hl & Hc).
  split; [by eapply extends_variable|].
  exists first, last. repeat split; try done. by eapply extends_constraint.
Qed.

Section HelperVariables.
Variable orm : ORM.
Hypothesis days_nonempty : forall day, day ∈ getTimeslotsPerDay orm -> day <> [].

Lemma wp_createWeekdayBoolVars (lesson : nat) (t0 : IntVar) (tv : list IntVar)
      (M : CpModel) (Wm Hm : gmap nat IntVar) (Dm : gmap nat (list IntVar))
      (s : State) (Q : unit -> State -> Prop) :
  timeVars s !! lesson = Some (t0 :: tv) ->
  (forall M' Ds, extends M M' ->
     Forall2 (dayBoolPosted M' t0) Ds (getTimeslotsPerDay orm) ->
     Q tt (with_helpers M' Wm Hm (<[lesson := Ds]> Dm) s)) ->
  wp (for_each (getTimeslotsPerDay orm) (createWeekdayBoolVar lesson))
     Q (with_helpers M Wm Hm (<[lesson := []]> Dm) s).
Proof.
  intros Htv HQ.
  apply (wp_for_each (fun done s' => exists M' Ds,
           s' = with_helpers M' Wm Hm (<[lesson := Ds]> Dm) s /\
           extends M M' /\ Forall2 (dayBoolPosted M' t0) Ds done)).
  - exists M, []. split; [done|]. split; [apply extends_refl | constructor].
  - intros done day rest s' Hl (M' & Ds & -> & Hext & Hposted).
    assert (Hday : day <> []).
    { apply days_nonempty. rewrite Hl. apply elem_of_app. right. apply elem_of_cons. by left. }
    destruct (py_index_first day Hday) as (first & Hfirst & _).
    destruct (py_index_last day Hday) as (last & Hlast & _).
    unfold createWeekdayBoolVar, NewBoolVar, NewIntVar.
    apply wp_bind, wp_NewIntVarFromDomain, wp_bind.
    apply (wp_getattr _ _ Ds); [apply lookup_insert_eq|].
    apply wp_bind, wp_modify, wp_bind.
    apply (wp_getattr _ _ (t0 :: tv)); [exact Htv|].
    apply wp_bind. apply (wp_lift _ t0); [reflexivity|].
    apply wp_bind. apply (wp_lift _ first); [exact Hfirst|].
    apply wp_bind. apply (wp_lift _ last); [exact Hlast|].
    apply wp_AddConstraint.
    set (dayB := length (variables M')).
    set (c := OnlyEnforceIf (Linear (Bounds (Var t0) (Timeslot.id first) (Timeslot.id last)))
                            (Lit dayB)).
    set (M2 := add_constraint c (add_variable (FromInterval 0 1) M')).
    assert (Hext2 : extends M' M2).
    { eapply extends_trans; [apply extends_add_variable | apply extends_add_constraint]. }
    exists M2, (Ds ++ [dayB]). split.
    { rewrite <- (insert_insert_eq Dm lesson (Ds ++ [dayB]) Ds). reflexivity. }
    split; [by eapply extends_trans|].
    apply Forall2_app.
    + eapply Forall2_impl; [exact Hposted|]. intros b d. by apply dayBoolPosted_extends.
    + constructor; [|constructor]. split.
      * unfold M2, dayB. cbn [add_constraint add_variable variables].
        by rewrite list_lookup_middle.
      * exists first, last. repeat split; try done.
        unfold M2. cbn [add_constraint constraints]. apply elem_of_app. right.
        by apply list_elem_of_singleton.
  - intros s' (M' & Ds & -> & Hext & Hposted). by apply HQ.
Qed.
(** What [createHelperVariablesOfLesson] leaves behind for the lessons [g]
    that share the helper variables [W], [H] and [Ds] of the start slot
    [t0]. *)
Definition helperVars (s : State) (g : list nat) (W H t0 : IntVar)
           (Ds : list IntVar) : Prop :=
  (forall M, M ∈ g -> weekdayVar s !! M = Some W /\ hourNumberVar s !! M = Some H /\
                      weekdayBoolVars s !! M = Some Ds) /\
  variables (model s) !! W = Some (FromInterval 1 WEEKDAYS) /\
  variables (model s) !! H = Some (FromInterval 1 (TIMESLOTS_PER_DAY orm)) /\
  Linear (Eq (Var t0)
             (Plus (Times (Minus (Var W) (Const 1)) (TIMESLOTS_PER_DAY orm)) (Var H)))
    ∈ constraints (model s) /\
  Forall2 (dayBoolPosted (model s) t0) Ds (getTimeslotsPerDay orm) /\
  Linear (Eq (py_sum (map Var Ds)) (Const 1)) ∈ constraints (model s).

Definition helpers_unchanged (s s' : State) (M : nat) : Prop :=
  weekdayVar s' !! M = weekdayVar s !! M /\
  hourNumberVar s' !! M = hourNumberVar s !! M /\
  weekdayBoolVars s' !! M = weekdayBoolVars s !! M.

Lemma helperVars_kept (s s' : State) (g : list nat) (W H t0 : IntVar) (Ds : list IntVar) :
  extends (model s) (model s') ->
  (forall M, M ∈ g -> helpers_unchanged s s' M) ->
  helperVars s g W H t0 Ds -> helperVars s' g W H t0 Ds.
Proof.
  intros Hext Hsame (Hg & HW & HH & Heq & Hdays & Hsum).
  split; [|split; [|split; [|split; [|split]]]].
  - intros M HM. destruct (Hsame M HM) as (-> & -> & ->). by apply Hg.
  - by eapply extends_variable.
  - by eapply extends_variable.
  - by eapply extends_constraint.
  - eapply Forall2_impl; [exact Hdays|]. intros b d. by apply dayBoolPosted_extends.
  - by eapply extends_constraint.
Qed.

Lemma wp_createHelperVariablesOfLesson (lesson : nat) (t0 : IntVar) (tv : list IntVar)
      (Q : unit -> State -> Prop) (s : State) :
  timeVars s !! lesson = Some (t0 :: tv) ->
  (forall s' W H Ds,
     timeVars s' = timeVars s -> extends (model s) (model s') ->
     helperVars s' (group orm lesson) W H t0 Ds ->
     (forall M, M ∉ group orm lesson -> helpers_unchanged s s' M) ->
     Q tt s') ->
  wp (createHelperVariablesOfLesson orm lesson) Q s.
Proof.
  intros Htv HQ. unfold createHelperVariablesOfLesson, NewIntVar.
  apply wp_bind, wp_NewIntVarFromDomain, wp_bind, wp_modify.
  apply wp_bind, wp_NewIntVarFromDomain, wp_bind, wp_modify.
  apply wp_bind. apply (wp_getattr _ _ (t0 :: tv)); [exact Htv|].
  apply wp_bind. apply (wp_lift _ t0); [reflexivity|].
  apply wp_bind, wp_AddConstraint, wp_bind, wp_modify, wp_bind.
  pose (W := length (variables (model s))).
  pose (M0 := add_variable (FromInterval 1 WEEKDAYS) (model s)).
  pose (H := length (variables M0)).
  pose (c := Linear (Eq (Var t0)
                        (Plus (Times (Minus (Var W) (Const 1)) (TIMESLOTS_PER_DAY orm))
                              (Var H)))).
  pose (M1 := add_constraint c (add_variable (FromInterval 1 (TIMESLOTS_PER_DAY orm)) M0)).
  assert (Hext1 : extends (model s) M1).
  { eapply extends_trans; [apply extends_add_variable|].
    eapply extends_trans; [apply extends_add_variable | apply extends_add_constraint]. }
  assert (HW : variables M1 !! W = Some (FromInterval 1 WEEKDAYS)).
  { unfold M1, M0, W. cbn [add_constraint add_variable variables].
    apply lookup_app_l_Some. by rewrite list_lookup_middle. }
  assert (HH : variables M1 !! H = Some (FromInterval 1 (TIMESLOTS_PER_DAY orm))).
  { unfold M1, H. cbn [add_constraint add_variable variables].
    by rewrite list_lookup_middle. }
  assert (Hc : c ∈ constraints M1).
  { unfold M1. cbn [add_constraint constraints]. apply elem_of_app. right.
    by apply list_elem_of_singleton. }
  match goal with
  | |- wp ?body ?post _ =>
      change (wp body post
                 (with_helpers M1 (<[lesson := W]> (weekdayVar s))
                    (<[lesson := H]> (hourNumberVar s))
                    (<[lesson := []]> (weekdayBoolVars s)) s))
  end.
  clearbody M1.
  apply (wp_createWeekdayBoolVars lesson t0 tv M1 (<[lesson := W]> (weekdayVar s))
           (<[lesson := H]> (hourNumberVar s)) (weekdayBoolVars s)); [exact Htv|].
  intros M' Ds Hext' Hposted.
  apply wp_bind. apply (wp_getattr _ _ Ds); [apply lookup_insert_eq|].
  apply wp_bind, wp_AddConstraint.
  pose (M2 := add_constraint (Linear (Eq (py_sum (map Var Ds)) (Const 1))) M').
  assert (Hext2 : extends M1 M2).
  { eapply extends_trans; [exact Hext' | apply extends_add_constraint]. }
  assert (Hsum : Linear (Eq (py_sum (map Var Ds)) (Const 1)) ∈ constraints M2).
  { unfold M2. cbn [add_constraint constraints]. apply elem_of_app. right.
    by apply list_elem_of_singleton. }
  assert (Hposted2 : Forall2 (dayBoolPosted M2 t0) Ds (getTimeslotsPerDay orm)).
  { eapply Forall2_impl; [exact Hposted|]. intros b d. apply dayBoolPosted_extends.
    apply extends_add_constraint. }
  match goal with
  | |- wp ?body ?post _ =>
      change (wp body post
                 (with_helpers M2 (<[lesson := W]> (weekdayVar s))
                    (<[lesson := H]> (hourNumberVar s))
                    (<[lesson := Ds]> (weekdayBoolVars s)) s))
  end.
  clearbody M2. clear Hposted.
  apply (wp_for_each (fun done s' => exists Wm Hm Dm,
           s' = with_helpers M2 Wm Hm Dm s /\
           (forall m, m ∈ lesson :: done ->
              Wm !! m = Some W /\ Hm !! m = Some H /\ Dm !! m = Some Ds) /\
           (forall m, m ∉ lesson :: done ->
              Wm !! m = weekdayVar s !! m /\ Hm !! m = hourNumberVar s !! m /\
              Dm !! m = weekdayBoolVars s !! m))).
  - exists (<[lesson := W]> (weekdayVar s)), (<[lesson := H]> (hourNumberVar s)),
           (<[lesson := Ds]> (weekdayBoolVars s)).
    split; [reflexivity|]. split.
    + intros m ->%list_elem_of_singleton. by rewrite !lookup_insert_eq.
    + intros m Hm. assert (lesson <> m).
      { intros ->. apply Hm. by apply list_elem_of_singleton. }
      by rewrite !lookup_insert_ne.
  - intros done x rest s' _ (Wm & Hm & Dm & -> & Hin & Hout).
    destruct (Hin lesson) as (HWl & HHl & HDl); [apply elem_of_cons; by left|].
    apply wp_bind. apply (wp_getattr _ _ W); [exact HWl|].
    apply wp_bind, wp_modify.
    apply wp_bind. apply (wp_getattr _ _ H); [exact HHl|].
    apply wp_bind, wp_modify.
    apply wp_bind. apply (wp_getattr _ _ Ds); [exact HDl|].
    apply wp_modify.
    exists (<[x := W]> Wm), (<[x := H]> Hm), (<[x := Ds]> Dm).
    split; [reflexivity|]. split.
    + intros m Hm'. destruct (decide (m = x)) as [->|Hne].
      { by rewrite !lookup_insert_eq. }
      rewrite !lookup_insert_ne by done. apply Hin.
      rewrite app_comm_cons in Hm'.
      apply elem_of_app in Hm' as [?| ?%list_elem_of_singleton]; done.
    + intros m Hm'. assert (x <> m).
      { intros ->. apply Hm'. rewrite app_comm_cons. apply elem_of_app. right.
        by apply list_elem_of_singleton. }
      rewrite !lookup_insert_ne by done. apply Hout. intros ?. apply Hm'.
      rewrite app_comm_cons. apply elem_of_app. by left.
  - intros s' (Wm & Hm & Dm & -> & Hin & Hout).
    apply (HQ _ W H Ds).
    + reflexivity.
    + by eapply extends_trans.
    + split; [exact Hin|]. split; [by eapply extends_variable|].
      split; [by eapply extends_variable|]. split; [by eapply extends_constraint|].
      split; [exact Hposted2 | exact Hsum].
    + intros M HM. apply Hout, HM.
Qed.
(** Every lesson that has a [weekdayVar] shares the helper variables of a
    group, whose visited members start with the same start slot. *)
Definition helpersAttached (s : State) : Prop :=
  forall L, is_Some (weekdayVar s !! L) ->
    exists leader W H t0 Ds,
      leader ∈ catalogLessons orm /\ L ∈ group orm leader /\
      helperVars s (group orm leader) W H t0 Ds /\
      forall M, M ∈ group orm leader -> M ∈ catalogLessons orm ->
                exists tv, timeVars s !! M = Some (t0 :: tv).

(** The first pass has run: every visited lesson holds its start slots. *)
Definition timeVarsReady (s : State) : Prop :=
  forall L, L ∈ catalogLessons orm -> exists ts, startSlots orm s L ts.

Hypothesis groups_closed : sameTimeGroupsClosed orm.
Hypothesis sizes_positive : forall L, L ∈ catalogLessons orm -> 1 <= timeslot_size orm L.

Lemma first_start_slot (s : State) (L : nat) (ts : list IntVar) :
  L ∈ catalogLessons orm -> startSlots orm s L ts ->
  exists t0 ts', ts = t0 :: ts' /\
    forall M, M ∈ group orm L -> M ∈ catalogLessons orm ->
              exists tv, timeVars s !! M = Some (t0 :: tv).
Proof.
  intros HL (Hlen & _ & Htv & _).
  destruct (maxSize_bounds orm (group orm L)) as [Hle _]; [done|].
  pose proof (Hle L) as HleL. pose proof (sizes_positive L HL) as Hpos.
  destruct ts as [|t0 ts'].
  { cbn [length] in Hlen. assert (L ∈ group orm L) by (apply elem_of_cons; by left).
    specialize (HleL H). lia. }
  exists t0, ts'. split; [done|]. intros M HM HMc.
  pose proof (sizes_positive M HMc) as HposM.
  rewrite (Htv M HM).
  destruct (Z.to_nat (timeslot_size orm M)) as [|k] eqn:Ek; [lia|].
  cbn [take]. by eexists.
Qed.

Lemma wp_createHelperVariablesIfMissing (lesson : nat) (Q : unit -> State -> Prop)
      (s : State) :
  lesson ∈ catalogLessons orm -> timeVarsReady s -> helpersAttached s ->
  (forall s', timeVars s' = timeVars s -> extends (model s) (model s') ->
              helpersAttached s' ->
              (forall L, is_Some (weekdayVar s !! L) -> is_Some (weekdayVar s' !! L)) ->
              is_Some (weekdayVar s' !! lesson) -> Q tt s') ->
  wp (let* h1 := hasattr weekdayVar lesson in
      let* h2 := hasattr hourNumberVar lesson in
      let* h3 := hasattr weekdayBoolVars lesson in
      if h1 && h2 && h3 then ret tt else createHelperVariablesOfLesson orm lesson) Q s.
Proof.
  intros Hcat Hready Hatt HQ.
  apply wp_bind, wp_hasattr, wp_bind, wp_hasattr, wp_bind, wp_hasattr.
  destruct (Hready lesson Hcat) as [ts Hss].
  destruct (first_start_slot s lesson ts Hcat Hss) as (t0 & ts' & -> & Hfirst).
  destruct (Hfirst lesson) as [tv Htv]; [apply elem_of_cons; by left | done |].
  destruct (match weekdayVar s !! lesson with Some _ => true | None => false end
            && match hourNumberVar s !! lesson with Some _ => true | None => false end
            && match weekdayBoolVars s !! lesson with Some _ => true | None => false end)
    eqn:Hhas.
  { apply wp_ret. apply HQ; try done; [apply extends_refl|].
    destruct (weekdayVar s !! lesson); [by eexists | discriminate]. }
  apply (wp_createHelperVariablesOfLesson lesson t0 tv); [exact Htv|].
  intros s' W H Ds Htvs Hext Hnew Hother.
  assert (Hdisjoint : forall leader W' H' t0' Ds' M,
            leader ∈ catalogLessons orm ->
            helperVars s (group orm leader) W' H' t0' Ds' ->
            M ∈ group orm leader -> M ∉ group orm lesson).
  { intros leader W' H' t0' Ds' M Hl (Hg & _) HM HMx.
    assert (Hx : lesson ∈ group orm leader).
    { apply (proj2 (groups_closed leader Hl) M HM).
      apply (proj2 (groups_closed lesson Hcat) M HMx). apply elem_of_cons. by left. }
    destruct (Hg lesson Hx) as (E1 & E2 & E3). by rewrite E1, E2, E3 in Hhas. }
  apply HQ; [done | done | | |].
  - intros L HL. destruct (decide (L ∈ group orm lesson)) as [Hm|Hm].
    + exists lesson, W, H, t0, Ds. split; [done|]. split; [done|]. split; [done|].
      intros M HM HMc. rewrite Htvs. by apply Hfirst.
    + destruct (Hother L Hm) as (EW & _). rewrite EW in HL.
      destruct (Hatt L HL) as (leader & W' & H' & t0' & Ds' & Hl & HLl & Hhv & Hts).
      exists leader, W', H', t0', Ds'. split; [done|]. split; [done|]. split.
      * eapply helperVars_kept; [done | | exact Hhv].
        intros M HM. apply Hother. by eapply Hdisjoint.
      * intros M HM HMc. rewrite Htvs. by apply Hts.
  - intros L HL. destruct (decide (L ∈ group orm lesson)) as [Hm|Hm].
    + destruct Hnew as (Hg & _). destruct (Hg L Hm) as (-> & _). by eexists.
    + destruct (Hother L Hm) as (-> & _). done.
  - destruct Hnew as (Hg & _). destruct (Hg lesson) as (-> & _); [|by eexists].
    apply elem_of_cons. by left.
Qed.
Lemma timeVarsReady_kept (s s' : State) :
  timeVars s' = timeVars s -> extends (model s) (model s') ->
  timeVarsReady s -> timeVarsReady s'.
Proof.
  intros Htv Hext Hready L HL. destruct (Hready L HL) as [ts Hss]. exists ts.
  eapply startSlots_kept; [exact Hext | | exact Hss]. intros M _. by rewrite Htv.
Qed.

Lemma createLessonTimeHelperVariables_run (s1 : State) :
  timeVarsReady s1 -> helpersAttached s1 ->
  exists s', createLessonTimeHelperVariables orm s1 = Ok (tt, s') /\
    timeVars s' = timeVars s1 /\ extends (model s1) (model s') /\
    helpersAttached s' /\
    forall L, L ∈ catalogLessons orm -> is_Some (weekdayVar s' !! L).
Proof.
  intros Hready Hatt1.
  cut (wp (createLessonTimeHelperVariables orm)
          (fun _ s' => timeVars s' = timeVars s1 /\ extends (model s1) (model s') /\
                       helpersAttached s' /\
                       forall L, L ∈ catalogLessons orm -> is_Some (weekdayVar s' !! L)) s1).
  { intros ([] & s' & Hrun & H). by exists s'. }
  unfold createLessonTimeHelperVariables.
  apply (wp_for_each (fun done s =>
           timeVars s = timeVars s1 /\ extends (model s1) (model s) /\
           helpersAttached s /\
           forall L, L ∈ flat_map (fun course => Course.lessons (course_row orm course)) done ->
                     is_Some (weekdayVar s !! L))).
  - split; [done|]. split; [apply extends_refl|]. split; [done|].
    by intros L ?%not_elem_of_nil.
  - intros doneC course restC s HlC (Htv & Hext & Hatt & Hdone).
    apply (wp_for_each (fun done s' =>
             timeVars s' = timeVars s1 /\ extends (model s1) (model s') /\
             helpersAttached s' /\
             forall L, L ∈ flat_map (fun course => Course.lessons (course_row orm course)) doneC
                           ++ done ->
                       is_Some (weekdayVar s' !! L))).
    + by rewrite app_nil_r.
    + intros doneL lesson restL s2 HlL (Htv2 & Hext2 & Hatt2 & Hdone2).
      apply wp_createHelperVariablesIfMissing; [| | done |].
      { unfold catalogLessons. rewrite HlC, flat_map_app. apply elem_of_app. right.
        cbn [flat_map]. apply elem_of_app. left. rewrite HlL.
        apply elem_of_app. right. apply elem_of_cons. by left. }
      { by apply (timeVarsReady_kept s1). }
      intros s' Htv' Hext' Hatt' Hmono Hsome. split; [congruence|].
      split; [by eapply extends_trans|]. split; [done|].
      intros L HL. rewrite app_assoc in HL.
      apply elem_of_app in HL as [HL| ->%list_elem_of_singleton]; [|done].
      apply Hmono, Hdone2, HL.
    + intros s2 (Htv2 & Hext2 & Hatt2 & Hdone2). split; [done|]. split; [done|].
      split; [done|]. intros L HL. apply Hdone2. rewrite flat_map_app in HL.
      cbn [flat_map] in HL. by rewrite app_nil_r in HL.
  - intros s (Htv & Hext & Hatt & Hdone). done.
Qed.
End HelperVariables.

(** *** The helper variables under a feasible assignment *)

Lemma day_id_range (tpd k : Z) :
  1 <= tpd ->
  exists first last,
    py_index (timeslotsOfDay tpd k) 0 = Ok first /\
    py_index (timeslotsOfDay tpd k) (-1) = Ok last /\
    Timeslot.id first = (k - 1) * tpd + 1 /\ Timeslot.id last = (k - 1) * tpd + tpd.
Proof.
  intros Htpd.
  assert (Hne : timeslotsOfDay tpd k <> []).
  { unfold timeslotsOfDay, range. destruct (Z.to_nat tpd) eqn:E; [lia | done]. }
  destruct (py_index_first _ Hne) as (first & Hf & Hfl).
  destruct (py_index_last _ Hne) as (last & Hl & Hll).
  exists first, last. split; [done|]. split; [done|].
  unfold timeslotsOfDay, range in Hfl, Hll.
  rewrite !length_map, length_seq in Hll.
  rewrite !list_lookup_fmap in Hfl, Hll.
  rewrite lookup_seq_lt in Hfl by lia. rewrite lookup_seq_lt in Hll by lia.
  cbn [fmap option_fmap option_map] in Hfl, Hll.
  injection Hfl as <-. injection Hll as <-. cbn [Timeslot.id]. lia.
Qed.

Lemma week_lookup (tpd : Z) (d : nat) (day : list Timeslot.t) :
  week tpd !! d = Some day -> (d < 5)%nat /\ day = timeslotsOfDay tpd (Z.of_nat d + 1).
Proof.
  unfold week. intros H.
  do 5 (destruct d as [|d]; [injection H as <-; split; [lia | reflexivity]|]).
  discriminate H.
Qed.

Lemma one_of_booleans (val : Assignment) (Ds : list IntVar) :
  (forall b, b ∈ Ds -> val b = 0 \/ val b = 1) ->
  foldr (fun e acc => eval val e + acc) 0 (map Var Ds) = 1 ->
  exists (d : nat) b, Ds !! d = Some b /\ val b = 1.
Proof.
  induction Ds as [|b Ds IH]; cbn [map foldr eval]; intros Hbool Hsum; [lia|].
  destruct (Hbool b) as [E|E]; [apply elem_of_cons; by left | |].
  - destruct IH as (d & b' & Hd & Hb').
    + intros b' Hb'. apply Hbool. apply elem_of_cons. by right.
    + lia.
    + by exists (S d), b'.
  - by exists 0%nat, b.
Qed.

Lemma day_of_start_slot (tpd w h d : Z) :
  1 <= h <= tpd ->
  (d * tpd + 1 <= (w - 1) * tpd + h <= d * tpd + tpd) <-> d = w - 1.
Proof.
  intros Hh. split; [|intros ->; lia].
  intros [H1 H2]. destruct (Z.lt_trichotomy d (w - 1)) as [Hlt|[Heq|Hgt]]; [|done|]; nia.
Qed.

Lemma canonical_days_nonempty (orm : ORM) :
  canonical_week orm -> 1 <= TIMESLOTS_PER_DAY orm ->
  forall day, day ∈ getTimeslotsPerDay orm -> day <> [].
Proof.
  intros [Hweek _] Htpd day Hday. rewrite Hweek in Hday.
  apply list_elem_of_lookup_1 in Hday as [d Hd].
  apply week_lookup in Hd as [_ ->].
  unfold timeslotsOfDay, range.
  destruct (Z.to_nat (TIMESLOTS_PER_DAY orm)) eqn:E; [lia | done].
Qed.

Lemma helperVars_feasible (orm : ORM) (s : State) (g : list nat) (W H t0 : IntVar)
      (Ds : list IntVar) (built : CpModel) (val : Assignment) :
  canonical_week orm -> 1 <= TIMESLOTS_PER_DAY orm ->
  helperVars orm s g W H t0 Ds -> extends (model s) built -> feasible val built ->
  1 <= val W <= 5 /\ 1 <= val H <= TIMESLOTS_PER_DAY orm /\
  val t0 = (val W - 1) * TIMESLOTS_PER_DAY orm + val H /\
  length Ds = 5%nat /\
  forall (d : nat) b, Ds !! d = Some b ->
    (val b = 0 \/ val b = 1) /\ (val b = 1 <-> Z.of_nat d = val W - 1).
Proof.
  intros [Hweek _] Htpd (_ & HW & HH & Heq & Hdays & Hsum) Hext Hfeas.
  apply (feasible_extends _ _ _ Hext) in Hfeas. destruct Hfeas as [Hdom Hcs].
  apply Hdom in HW, HH. apply Hcs in Heq, Hsum.
  cbn [in_domain] in HW, HH. cbn [holds bounded_holds eval] in Heq, Hsum.
  apply andb_true_iff in HW as [HW1 HW2]. apply andb_true_iff in HH as [HH1 HH2].
  apply Z.leb_le in HW1, HW2, HH1, HH2. apply Z.eqb_eq in Heq, Hsum.
  rewrite eval_py_sum in Hsum. unfold WEEKDAYS in HW2.
  rewrite Hweek in Hdays.
  assert (Hlen : length Ds = 5%nat) by (by rewrite (Forall2_length _ _ _ Hdays)).
  assert (Hfwd : forall (d : nat) b, Ds !! d = Some b ->
            (val b = 0 \/ val b = 1) /\ (val b = 1 -> Z.of_nat d = val W - 1)).
  { intros d b Hb.
    destruct (Forall2_lookup_l _ _ _ _ _ Hdays Hb) as (day & Hday & Hbd & first & last & Hf & Hl & Hc).
    apply week_lookup in Hday as [_ ->].
    destruct (day_id_range (TIMESLOTS_PER_DAY orm) (Z.of_nat d + 1) Htpd)
      as (first' & last' & Hf' & Hl' & Hfid & Hlid).
    assert (first' = first) by congruence. assert (last' = last) by congruence.
    subst first' last'.
    apply Hdom in Hbd. apply Hcs in Hc.
    cbn [in_domain] in Hbd. apply andb_true_iff in Hbd as [Hb1 Hb2].
    apply Z.leb_le in Hb1, Hb2. split; [lia|].
    intros Hone. cbn [holds lit_holds bounded_holds eval] in Hc.
    rewrite Hone, Z.eqb_refl in Hc. cbn [implb] in Hc.
    apply andb_true_iff in Hc as [Hc1 Hc2]. apply Z.leb_le in Hc1, Hc2.
    apply (day_of_start_slot (TIMESLOTS_PER_DAY orm) (val W) (val H)); [lia|].
    rewrite <- Heq. lia. }
  split; [lia|]. split; [lia|]. split; [done|]. split; [done|].
  intros d b Hb. destruct (Hfwd d b Hb) as [Hbool Hone]. split; [done|].
  split; [done|]. intros Hd.
  destruct (one_of_booleans val Ds) as (d' & b' & Hb' & Hone'); [|done|].
  { intros b0 [d0 Hd0]%list_elem_of_lookup_1. by destruct (Hfwd d0 b0 Hd0). }
  assert (d' = d). { destruct (Hfwd d' b' Hb') as [_ Hd']. specialize (Hd' Hone'). lia. }
  subst d'. congruence.
Qed.

(** C7. The two variable passes run in the order of the main script on a
    builder state without [timeVars] and [weekdayVar] attributes, over a
    catalog with closed same-time groups, lessons of size at least one and
    the week of five days with consecutive timeslot ids. They return, and
    every visited lesson [L] then holds a weekday variable [W], an hour
    variable [H], five weekday booleans [Ds] and a first start slot [t0];
    the members of its same-time group hold the same [W], [H] and [Ds]; and
    in every feasible assignment of every model that extends the built one,
    [W] is in [1..5], [H] is in [1..TIMESLOTS_PER_DAY],
    [t0 = (W - 1) * TIMESLOTS_PER_DAY + H], exactly one of the weekday
    booleans is 1, and a weekday boolean is 1 exactly when [t0] lies between
    the ids of the first and the last timeslot of its day. *)
Theorem helper_variables_in_feasible_assignments (orm : ORM) (s0 : State) :
  sameTimeGroupsClosed orm -> canonical_week orm -> 1 <= TIMESLOTS_PER_DAY orm ->
  (forall L, L ∈ catalogLessons orm -> 1 <= timeslot_size orm L) ->
  timeVars s0 = ∅ -> weekdayVar s0 = ∅ ->
  exists s',
    (let* _ := createLessonTimeAndRoomVariables orm in
     createLessonTimeHelperVariables orm) s0 = Ok (tt, s') /\
    forall L, L ∈ catalogLessons orm ->
      exists W H t0 tv Ds,
        weekdayVar s' !! L = Some W /\ hourNumberVar s' !! L = Some H /\
        weekdayBoolVars s' !! L = Some Ds /\ timeVars s' !! L = Some (t0 :: tv) /\
        length Ds = 5%nat /\
        (forall M, M ∈ group orm L ->
           weekdayVar s' !! M = Some W /\ hourNumberVar s' !! M = Some H /\
           weekdayBoolVars s' !! M = Some Ds) /\
        forall built val, extends (model s') built -> feasible val built ->
          1 <= val W <= 5 /\ 1 <= val H <= TIMESLOTS_PER_DAY orm /\
          val t0 = (val W - 1) * TIMESLOTS_PER_DAY orm + val H /\
          (exists (d : nat) b, Ds !! d = Some b /\ val b = 1 /\
             forall (d' : nat) b', Ds !! d' = Some b' -> d' <> d -> val b' = 0) /\
          (forall (d : nat) b day,
             Ds !! d = Some b -> getTimeslotsPerDay orm !! d = Some day ->
             (val b = 1 <->
              exists first last,
                py_index day 0 = Ok first /\ py_index day (-1) = Ok last /\
                Timeslot.id first <= val t0 <= Timeslot.id last)).
Proof.
  intros Hclosed Hweek Htpd Hsizes Hfresh HfreshW.
  destruct (createLessonTimeAndRoomVariables_run orm s0 Hclosed)
    as (s1 & Hrun1 & (Hframe & _ & _) & Hatt1 & Hall1).
  { intros L [tv HL]. rewrite Hfresh, lookup_empty in HL. discriminate. }
  assert (Hready : timeVarsReady orm s1).
  { intros L HL. destruct (Hatt1 L (Hall1 L HL)) as (leader & ts & Hleader & HLl & Hss).
    exists ts. apply (startSlots_member orm s1 leader L); [|done].
    exact (proj2 (Hclosed leader Hleader) L HLl). }
  destruct (createLessonTimeHelperVariables_run orm
              (canonical_days_nonempty orm Hweek Htpd) Hclosed Hsizes s1 Hready)
    as (s' & Hrun2 & Htv & _ & Hatt2 & Hall2).
  { intros L [w HL]. destruct Hframe as (_ & HWf & _).
    rewrite HWf, HfreshW, lookup_empty in HL. discriminate. }
  exists s'. split.
  { unfold bind. by rewrite Hrun1. }
  intros L HL.
  destruct (Hatt2 L (Hall2 L HL)) as (leader & W & H & t0 & Ds & Hleader & HLl & Hhv & Hts).
  destruct (Hts L HLl HL) as [tv HtvL].
  pose proof (proj2 (Hclosed leader Hleader) L HLl) as Hsame.
  assert (Hlen : length Ds = 5%nat).
  { destruct Hhv as (_ & _ & _ & _ & Hdays & _). destruct Hweek as [Hw _].
    rewrite Hw in Hdays. by rewrite (Forall2_length _ _ _ Hdays). }
  pose proof Hhv as (Hg & _).
  destruct (Hg L HLl) as (HWL & HHL & HDL).
  exists W, H, t0, tv, Ds. repeat (split; [done|]). split.
  { intros M HM. apply Hg. by apply Hsame. }
  intros built val Hext Hfeas.
  destruct (helperVars_feasible orm s' _ W H t0 Ds built val Hweek Htpd Hhv Hext Hfeas)
    as (HW & HH & Heq & _ & Hbools).
  split; [done|]. split; [done|]. split; [done|]. split.
  - destruct (lookup_lt_is_Some_2 Ds (Z.to_nat (val W - 1))) as [b Hb]; [lia|].
    exists (Z.to_nat (val W - 1)), b. split; [done|]. split.
    + apply (Hbools _ b Hb). lia.
    + intros d' b' Hb' Hne. destruct (Hbools d' b' Hb') as [[?|Hone] Hiff]; [done|].
      apply Hiff in Hone. lia.
  - intros d b day Hb Hday. destruct (Hbools d b Hb) as [_ Hiff]. rewrite Hiff.
    destruct Hweek as [Hw _]. rewrite Hw in Hday.
    apply week_lookup in Hday as [_ ->].
    destruct (day_id_range (TIMESLOTS_PER_DAY orm) (Z.of_nat d + 1) Htpd)
      as (first & last & Hf & Hl & Hfid & Hlid).
    pose proof (day_of_start_slot (TIMESLOTS_PER_DAY orm) (val W) (val H) (Z.of_nat d) HH)
      as Hday.
    split.
    + intros Hd. exists first, last. split; [done|]. split; [done|].
      apply Hday in Hd. lia.
    + intros (first' & last' & Hf' & Hl' & Hin).
      assert (first' = first) by congruence. assert (last' = last) by congruence.
      subst first' last'. apply Hday. lia.
Qed.

Lemma sample_canonical_week : canonical_week Sample.orm.
Proof. split; reflexivity. Qed.

Lemma sample_sizes_positive :
  forall L, L ∈ catalogLessons Sample.orm -> 1 <= timeslot_size Sample.orm L.
Proof. intros L _. vm_compute. discriminate. Qed.

Lemma helper_variables_in_feasible_assignments_witness :
  sameTimeGroupsClosed Sample.orm /\ canonical_week Sample.orm /\
  1 <= TIMESLOTS_PER_DAY Sample.orm /\
  (forall L, L ∈ catalogLessons Sample.orm -> 1 <= timeslot_size Sample.orm L) /\
  timeVars (freshState Sample.rows) = ∅ /\ weekdayVar (freshState Sample.rows) = ∅ /\
  exists s',
    (let* _ := createLessonTimeAndRoomVariables Sample.orm in
     createLessonTimeHelperVariables Sample.orm) (freshState Sample.rows) = Ok (tt, s') /\
    exists W H, weekdayVar s' !! 1%nat = Some W /\ hourNumberVar s' !! 1%nat = Some H.
Proof.
  assert (Htpd : 1 <= TIMESLOTS_PER_DAY Sample.orm) by (vm_compute; discriminate).
  split; [exact sample_groups_closed|]. split; [exact sample_canonical_week|].
  split; [exact Htpd|]. split; [exact sample_sizes_positive|].
  split; [reflexivity|]. split; [reflexivity|].
  destruct (helper_variables_in_feasible_assignments Sample.orm (freshState Sample.rows)
              sample_groups_closed sample_canonical_week Htpd sample_sizes_positive
              eq_refl eq_refl) as (s' & Hrun & Hall).
  exists s'. split; [exact Hrun|].
  destruct (Hall 1%nat) as (W & H & _ & _ & _ & HW & HH & _).
  { apply elem_of_cons. by left. }
  exists W, H. split; [exact HW | exact HH].
Defined.

(** ** The solution validator *)

Lemma teacher_not_among_lessons (teacher : nat) (lessons : list nat) :
  py_in (TeacherObject teacher) (map LessonObject lessons) = false.
Proof.
  unfold py_in. induction lessons as [|l lessons IH]; [reflexivity|].
  cbn [map existsb]. rewrite IH. by rewrite bool_decide_eq_false_2.
Qed.

Lemma exc_fold_ext {A B : Type} (f g : B -> A -> exc B) (l : list A) (b : B) :
  (forall b x, f b x = g b x) -> exc_fold f l b = exc_fold g l b.
Proof.
  intros Hfg. revert b. induction l as [|x l IH]; intros b; [reflexivity|].
  cbn [exc_fold]. rewrite Hfg. destruct (g b x); cbn [exc_bind]; [apply IH | reflexivity].
Qed.

Lemma exc_fold_invariant {A B : Type} (P : B -> Prop) (f : B -> A -> exc B)
      (l : list A) (b r : B) :
  (forall b x b', P b -> f b x = Ok b' -> P b') ->
  P b -> exc_fold f l b = Ok r -> P r.
Proof.
  intros Hstep. revert b. induction l as [|x l IH]; intros b Hb Hr.
  - injection Hr as <-. exact Hb.
  - cbn [exc_fold] in Hr. destruct (f b x) as [b'|e] eqn:E; [|discriminate].
    cbn [exc_bind] in Hr. apply (IH b'); [|exact Hr]. by eapply Hstep.
Qed.

(** The lecture block check never reports a violation: the block size is
    reset at every timeslot, since a teacher is no element of a list of
    lessons. *)
Lemma validateMaxLecturesAsBlockForTeacher_never_false (orm : ORM)
      (rows : nat -> Teacher.t) (solution : Solution.t) (b : bool) :
  validateMaxLecturesAsBlockForTeacher orm rows solution = Ok b -> b = true.
Proof.
  unfold validateMaxLecturesAsBlockForTeacher.
  apply (exc_fold_invariant (fun isValid => isValid = true)); [|reflexivity].
  intros isValid teacher isValid' -> Hstep.
  destruct (exc_fold _ (getTimeslots orm) (true, 0)) as [r|e] eqn:E; [|discriminate].
  cbn [exc_bind] in Hstep. injection Hstep as <-.
  apply (exc_fold_invariant (fun st : bool * Z => fst st = true)) in E; [done| |done].
  intros [v k] timeslot st' Hv Hst. cbn [fst] in Hv. subst v.
  destruct (Solution.getLessonsAtTimeslot solution timeslot) as [atTimeslot|e]; [|discriminate].
  cbn [exc_bind] in Hst. rewrite teacher_not_among_lessons in Hst. by injection Hst as <-.
Qed.

(** The counted lecture timeslots of a teacher on a day, as
    [validateMaxLecturesPerDayPerTeacher] counts them. *)
Definition countedLectureTimeslots (orm : ORM) (solution : Solution.t) (teacher : nat)
           (day : list Timeslot.t) : exc Z :=
  let! atDay := lessonsOfDay solution day in
  let lecturesWithTeacher :=
    py_set (filter (fun l => is_lecture orm l = true /\
                             py_in teacher (Lesson.teachers (lesson_row orm l)) = true)
                   atDay) in
  countTimeslots orm lecturesWithTeacher
    (getSameTimeLessonSets orm lecturesWithTeacher (Some teacher) None true false).


(** The rule checks in the order in which [validateSolution] calls them. *)
Definition allChecks (orm : ORM) (rows : nat -> Teacher.t) (checks : RuleChecks)
  : list (Solution.t -> exc bool) :=
  [ validateTeacherTimeConstraints checks; validateRoomTimeConstraints checks;
    validateSemesterGroupTimeConstraints checks; validateStudyDays checks;
    validateAllLessonsAsBlockCourses checks; validateBlocksOnlyInSameRoom checks;
    validateConsecutiveLessons checks; validateForenoonLessons checks;
    validateGivenTimeslots checks; validateLessonTakePlaceOnOneDay checks;
    validateLessonTime checks; validateMaxLessonsPerDayPerTeacher orm rows;
    validateMaxLessonsPerDayPerSemesterGroup checks;
    validateMaxLecturesPerDayPerTeacher orm rows;
    validateMaxLecturesAsBlockForTeacher orm rows;
    validateOneCoursePerDayPerTeacher checks;
    validateOnlyOneNotAllInOneBlockLessonPerDay orm;
    validateRoomNotAvailableTimes checks; validateTeacherNotAvailableTimes checks;
    validateSameTimeLessons checks; validateTimeslotVarHelperVariables checks ].

(** [validateSolution] runs every check in turn and keeps [isValid] false
    once a check has failed. *)
Lemma validateSolution_runs_all_checks (orm : ORM) (rows : nat -> Teacher.t)
      (checks : RuleChecks) (solution : Solution.t) :
  validateSolution orm rows checks solution =
  exc_fold (fun isValid check => failIfNot check solution isValid)
           (allChecks orm rows checks) true.
Proof.
  unfold validateSolution, allChecks. cbn [exc_fold].
  repeat (match goal with
          | |- exc_bind ?c _ = exc_bind ?c _ =>
              destruct c; cbn [exc_bind]; [|reflexivity]
          end).
  reflexivity.
Qed.

Lemma exc_fold_raises (solution : Solution.t) (before after : list (Solution.t -> exc bool))
      (check : Solution.t -> exc bool) (e : PyError) (isValid : bool) :
  check solution = Raise e ->
  exists e', exc_fold (fun isValid check => failIfNot check solution isValid)
                      (before ++ check :: after) isValid = Raise e'.
Proof.
  intros Hraise. revert isValid.
  induction before as [|c before IH]; intros isValid; cbn [app exc_fold].
  - exists e. unfold failIfNot. by rewrite Hraise.
  - destruct (failIfNot c solution isValid) as [v|e']; cbn [exc_bind]; [apply IH|].
    by exists e'.
Qed.

(** C1 (the code departs from it). In the sample solution the four lectures
    of teacher 1 occupy the first four timeslots of Monday, one after the
    other, and the teacher's [max_lectures_as_block] is 2; yet
    [validateMaxLecturesAsBlockForTeacher] returns [True]. *)
Theorem lecture_block_check_accepts_long_run :
  exists solution,
    Sample.mondayMorning = Ok solution /\
    map (fun n => Solution.getLessonsAtTimeslot solution (Sample.slot n)) [1; 2; 3; 4]
    = [Ok [1%nat]; Ok [2%nat]; Ok [3%nat]; Ok [4%nat]] /\
    map (fun n => (Timeslot.weekday (Sample.slot n), Timeslot.number (Sample.slot n)))
        [1; 2; 3; 4]
    = [(MO, 1); (MO, 2); (MO, 3); (MO, 4)] /\
    map (is_lecture Sample.orm) [1; 2; 3; 4]%nat = [true; true; true; true] /\
    map (fun l => Lesson.teachers (lesson_row Sample.orm l)) [1; 2; 3; 4]%nat
    = [[1]; [1]; [1]; [1]]%nat /\
    getTeachers Sample.orm = [1%nat] /\
    Teacher.max_lectures_as_block (Sample.rows 1%nat) = 2 /\
    validateMaxLecturesAsBlockForTeacher Sample.orm Sample.rows solution = Ok true.
Proof.
  eexists. split; [vm_compute; reflexivity|].
  repeat split; vm_compute; reflexivity.
Qed.

(** C2 (the code departs from it). In the sample solution the counted
    lecture timeslots of teacher 1 on Monday are 4 and the teacher's
    [max_lectures_per_day] is 3; yet [validateMaxLecturesPerDayPerTeacher]
    returns [True], the teacher's [max_lessons_per_day] being 5. *)
Theorem lecture_day_check_accepts_too_many_lectures :
  exists solution monday,
    Sample.mondayMorning = Ok solution /\
    py_index (getTimeslotsPerDay Sample.orm) 0 = Ok monday /\
    countedLectureTimeslots Sample.orm solution 1%nat monday = Ok 4 /\
    getTeachers Sample.orm = [1%nat] /\
    Teacher.max_lectures_per_day (Sample.rows 1%nat) = 3 /\
    Teacher.max_lessons_per_day (Sample.rows 1%nat) = 5 /\
    validateMaxLecturesPerDayPerTeacher Sample.orm Sample.rows solution = Ok true.
Proof.
  eexists _, _. split; [vm_compute; reflexivity|]. split; [vm_compute; reflexivity|].
  repeat split; vm_compute; reflexivity.
Qed.

(** C3 (the code departs from it). In the sample solution the four
    relevant lessons of the course, which is not all-in-one-block, are on
    one weekday. The only-one-not-all-in-one-block-lesson-per-day check then
    raises [NameError] instead of returning [False], and [validateSolution]
    does not return, whatever the other checks are. *)
Theorem validateSolution_raises_on_shared_weekday :
  exists solution,
    Sample.mondayMorning = Ok solution /\
    map (fun l => map Timeslot.weekday (Solution.getTimeslotsOfLesson solution l))
        (Course.lessons (course_row Sample.orm 1%nat))
    = [[MO]; [MO]; [MO]; [MO]] /\
    validateOnlyOneNotAllInOneBlockLessonPerDay Sample.orm solution = Raise NameError /\
    forall checks : RuleChecks,
      exists e, validateSolution Sample.orm Sample.rows checks solution = Raise e.
Proof.
  eexists. split; [vm_compute; reflexivity|]. split; [vm_compute; reflexivity|].
  match goal with
  | |- ?check = Raise NameError /\ _ =>
      assert (Hraise : check = Raise NameError) by (vm_compute; reflexivity)
  end.
  split; [exact Hraise|]. intros checks.
  rewrite validateSolution_runs_all_checks.
  exact (exc_fold_raises _
           [ validateTeacherTimeConstraints checks; validateRoomTimeConstraints checks;
             validateSemesterGroupTimeConstraints checks; validateStudyDays checks;
             validateAllLessonsAsBlockCourses checks; validateBlocksOnlyInSameRoom checks;
             validateConsecutiveLessons checks; validateForenoonLessons checks;
             validateGivenTimeslots checks; validateLessonTakePlaceOnOneDay checks;
             validateLessonTime checks;
             validateMaxLessonsPerDayPerTeacher Sample.orm Sample.rows;
             validateMaxLessonsPerDayPerSemesterGroup checks;
             validateMaxLecturesPerDayPerTeacher Sample.orm Sample.rows;
             validateMaxLecturesAsBlockForTeacher Sample.orm Sample.rows;
             validateOneCoursePerDayPerTeacher checks ]
           _ _ NameError true Hraise).
Qed.

Lemma validateMaxLecturesAsBlockForTeacher_never_false_witness :
  exists solution,
    validateMaxLecturesAsBlockForTeacher Sample.orm Sample.rows solution = Ok true /\
    true = true.
Proof.
  exists (Solution.init 1 Sample.orm 0).
  assert (H : validateMaxLecturesAsBlockForTeacher Sample.orm Sample.rows
                (Solution.init 1 Sample.orm 0) = Ok true) by (vm_compute; reflexivity).
  split; [exact H|].
  exact (validateMaxLecturesAsBlockForTeacher_never_false Sample.orm Sample.rows
           (Solution.init 1 Sample.orm 0) true H).
Defined.





(* ===================================================================== *)
(** * Part III: further properties of the code                            *)
(* ===================================================================== *)

(** ** Solution.py *)

(** [solution.getRoomOfLesson(lesson)]: the room of the first tuple of the
    lesson in the order of the dict; [None] when the loops end without a
    [return]. *)
Fixpoint roomInTupleList (tupleList : list (nat * nat)) (lesson : nat) : option nat :=
  match tupleList with
  | [] => None
  | tu :: rest =>
      if decide (LESSON_IDX tu = lesson) then Some (ROOM_IDX tu)
      else roomInTupleList rest lesson
  end.

Fixpoint roomInValues (values : list (list (nat * nat))) (lesson : nat) : option nat :=
  match values with
  | [] => None
  | tupleList :: rest =>
      match roomInTupleList tupleList lesson with
      | Some room => Some room
      | None => roomInValues rest lesson
      end
  end.

Definition getRoomOfLesson (self : Solution.t) (lesson : nat) : option nat :=
  roomInValues (map snd (Solution.timeslotMap self)) lesson.

(** The keys of the dict of a solution, in insertion order. *)
Definition timeslotKeys (self : Solution.t) : list Timeslot.t :=
  map fst (Solution.timeslotMap self).

Section Dict.
Context {V : Type}.
Implicit Types (d : list (Timeslot.t * V)) (k : Timeslot.t) (v : V).

Lemma dict_get_Ok d k : (exists v, Solution.dict_get d k = Ok v) <-> k ∈ map fst d.
Proof.
  induction d as [|[k' v'] d IH]; cbn [Solution.dict_get map fst].
  - split; [by intros [v ?] | by intros ?%not_elem_of_nil].
  - destruct (decide (k = k')) as [->|Hne].
    + split; [intros _; apply elem_of_cons; by left | by exists v'].
    + rewrite IH, elem_of_cons. naive_solver.
Qed.

Lemma dict_get_KeyError d k : Solution.dict_get d k = Raise KeyError <-> k ∉ map fst d.
Proof.
  induction d as [|[k' v'] d IH]; cbn [Solution.dict_get map fst].
  - split; [intros _; apply not_elem_of_nil | done].
  - destruct (decide (k = k')) as [->|Hne].
    + split; [done | intros H; exfalso; apply H, elem_of_cons; by left].
    + rewrite IH, not_elem_of_cons. naive_solver.
Qed.

Lemma dict_get_total d k :
  Solution.dict_get d k = Raise KeyError \/ exists v, Solution.dict_get d k = Ok v.
Proof.
  induction d as [|[k' v'] d IH]; cbn [Solution.dict_get]; [by left|].
  destruct (decide (k = k')); [right; by eexists | exact IH].
Qed.

Lemma dict_get_set_eq d k v : Solution.dict_get (Solution.dict_set d k v) k = Ok v.
Proof.
  induction d as [|[k' v'] d IH]; cbn [Solution.dict_set Solution.dict_get].
  - by rewrite decide_True.
  - destruct (decide (k = k')) as [->|Hne]; cbn [Solution.dict_get].
    + by rewrite decide_True.
    + by rewrite decide_False.
Qed.

Lemma dict_get_set_ne d k k' v :
  k' <> k -> Solution.dict_get (Solution.dict_set d k v) k' = Solution.dict_get d k'.
Proof.
  intros Hne. induction d as [|[k0 v0] d IH]; cbn [Solution.dict_set Solution.dict_get].
  - by rewrite decide_False.
  - destruct (decide (k = k0)) as [->|Hne0]; cbn [Solution.dict_get].
    + by rewrite !decide_False.
    + destruct (decide (k' = k0)); [done | exact IH].
Qed.

Lemma dict_set_keys_present d k v :
  k ∈ map fst d -> map fst (Solution.dict_set d k v) = map fst d.
Proof.
  induction d as [|[k0 v0] d IH]; cbn [Solution.dict_set map fst].
  - by intros ?%not_elem_of_nil.
  - intros Hin. destruct (decide (k = k0)) as [->|Hne]; [done|].
    cbn [map fst]. f_equal. apply IH.
    apply elem_of_cons in Hin as [?|?]; done.
Qed.

Lemma dict_set_keys_absent d k v :
  k ∉ map fst d -> map fst (Solution.dict_set d k v) = map fst d ++ [k].
Proof.
  induction d as [|[k0 v0] d IH]; cbn [Solution.dict_set map fst]; [done|].
  intros Hin. apply not_elem_of_cons in Hin as [Hne Hin].
  rewrite decide_False by done. cbn [map fst app]. f_equal. by apply IH.
Qed.

Lemma dict_set_keys_NoDup d k v :
  NoDup (map fst d) -> NoDup (map fst (Solution.dict_set d k v)).
Proof.
  intros Hnd. destruct (decide (k ∈ map fst d)) as [Hin|Hin].
  - by rewrite dict_set_keys_present.
  - rewrite dict_set_keys_absent by done. apply NoDup_app. split; [done|].
    split; [|apply NoDup_singleton]. by intros x Hx ->%list_elem_of_singleton.
Qed.
End Dict.

Lemma init_keys (solutionIndex : Z) (orm : ORM) (objectiveValue : Z) :
  NoDup (timeslotKeys (Solution.init solutionIndex orm objectiveValue)) /\
  (forall t, t ∈ timeslotKeys (Solution.init solutionIndex orm objectiveValue)
             <-> t ∈ getTimeslots orm) /\
  Forall (fun item => snd item = [])
         (Solution.timeslotMap (Solution.init solutionIndex orm objectiveValue)).
Proof.
  unfold timeslotKeys, Solution.init. cbn [Solution.timeslotMap].
  enough (G : forall (ts : list Timeslot.t) (d : list (Timeslot.t * list (nat * nat))),
             NoDup (map fst d) -> Forall (fun item => snd item = []) d ->
             let d' := fold_left (fun d timeslot => Solution.dict_set d timeslot []) ts d in
             NoDup (map fst d') /\
             (forall t, t ∈ map fst d' <-> t ∈ map fst d \/ t ∈ ts) /\
             Forall (fun item => snd item = []) d').
  { destruct (G (getTimeslots orm) []) as (H1 & H2 & H3); [constructor | constructor |].
    split; [exact H1|]. split; [|exact H3].
    intros t. rewrite H2. cbn [map]. rewrite elem_of_nil. tauto. }
  induction ts as [|t0 ts IH]; intros d Hnd Hall; cbn [fold_left].
  - split; [done|]. split; [|done]. intros t. rewrite elem_of_nil. tauto.
  - destruct (IH (Solution.dict_set d t0 [])) as (H1 & H2 & H3).
    + by apply dict_set_keys_NoDup.
    + clear IH Hnd. induction d as [|[k v] d IHd]; cbn [Solution.dict_set].
      * by repeat constructor.
      * apply Forall_cons in Hall as [Hv Hall].
        destruct (decide (t0 = k)); constructor; auto.
    + split; [exact H1|]. split; [|exact H3]. intros t. rewrite H2, elem_of_cons.
      destruct (decide (t0 ∈ map fst d)) as [Hin|Hin].
      * rewrite dict_set_keys_present by done. naive_solver.
      * rewrite dict_set_keys_absent by done. rewrite elem_of_app, list_elem_of_singleton.
        naive_solver.
Qed.

Lemma dict_get_split {V : Type} (d : list (Timeslot.t * V)) (k : Timeslot.t) (v : V) :
  Solution.dict_get d k = Ok v ->
  exists d1 d2, d = d1 ++ (k, v) :: d2 /\ (k ∉ map fst d1) /\
                forall v', Solution.dict_set d k v' = d1 ++ (k, v') :: d2.
Proof.
  induction d as [|[k0 v0] d IH]; cbn [Solution.dict_get]; [discriminate|].
  destruct (decide (k = k0)) as [->|Hne].
  - intros [= ->]. exists [], d. split; [done|]. split; [apply not_elem_of_nil|].
    intros v'. cbn [Solution.dict_set app]. by rewrite decide_True.
  - intros Hget. destruct (IH Hget) as (d1 & d2 & -> & Hk & Hset).
    exists ((k0, v0) :: d1), d2. split; [done|]. split.
    + cbn [map fst]. apply not_elem_of_cons. done.
    + intros v'. cbn [Solution.dict_set app]. rewrite decide_False by done.
      by rewrite Hset.
Qed.

(** A lesson is placed when some tuple of the dict holds it. *)
Definition placed (self : Solution.t) (lesson : nat) : Prop :=
  exists item tu, item ∈ Solution.timeslotMap self /\ tu ∈ snd item /\ LESSON_IDX tu = lesson.

Lemma elem_of_timeslotsOfItem (item : Timeslot.t * list (nat * nat)) (lesson : nat)
      (t : Timeslot.t) :
  t ∈ flat_map (fun tu => if decide (LESSON_IDX tu = lesson) then [fst item] else [])
               (snd item)
  <-> t = fst item /\ exists tu, tu ∈ snd item /\ LESSON_IDX tu = lesson.
Proof.
  rewrite list_elem_of_In, in_flat_map. split.
  - intros (tu & Htu & Ht). apply list_elem_of_In in Htu.
    destruct (decide (LESSON_IDX tu = lesson)) as [E|E]; [|by destruct Ht].
    destruct Ht as [<-|[]]. split; [done|]. by exists tu.
  - intros (-> & tu & Htu & E). exists tu. split; [by apply list_elem_of_In|].
    rewrite decide_True by done. by left.
Qed.

Lemma elem_of_getTimeslotsOfLesson (self : Solution.t) (lesson : nat) (t : Timeslot.t) :
  t ∈ Solution.getTimeslotsOfLesson self lesson
  <-> exists entries tu, (t, entries) ∈ Solution.timeslotMap self /\
                         tu ∈ entries /\ LESSON_IDX tu = lesson.
Proof.
  unfold Solution.getTimeslotsOfLesson. rewrite list_elem_of_In, in_flat_map. split.
  - intros ([k entries] & Hitem & Ht). apply list_elem_of_In in Hitem, Ht.
    apply elem_of_timeslotsOfItem in Ht as (-> & tu & Htu & E).
    by exists entries, tu.
  - intros (entries & tu & Hitem & Htu & E). exists (t, entries).
    split; [by apply list_elem_of_In|]. apply list_elem_of_In.
    apply elem_of_timeslotsOfItem. split; [done|]. by exists tu.
Qed.

Lemma getTimeslotsOfLesson_nil (self : Solution.t) (lesson : nat) :
  Solution.getTimeslotsOfLesson self lesson = [] <-> ~ placed self lesson.
Proof.
  split.
  - intros Hnil ([k entries] & tu & Hitem & Htu & E).
    assert (H : k ∈ Solution.getTimeslotsOfLesson self lesson).
    { apply elem_of_getTimeslotsOfLesson. by exists entries, tu. }
    rewrite Hnil in H. by apply not_elem_of_nil in H.
  - intros Hnot. destruct (Solution.getTimeslotsOfLesson self lesson) as [|t ts] eqn:E; [done|].
    exfalso. apply Hnot.
    assert (H : t ∈ Solution.getTimeslotsOfLesson self lesson).
    { rewrite E. apply elem_of_cons. by left. }
    apply elem_of_getTimeslotsOfLesson in H as (entries & tu & Hitem & Htu & El).
    by exists (t, entries), tu.
Qed.

Lemma roomInTupleList_None (tupleList : list (nat * nat)) (lesson : nat) :
  roomInTupleList tupleList lesson = None
  <-> forall tu, tu ∈ tupleList -> LESSON_IDX tu <> lesson.
Proof.
  induction tupleList as [|tu0 rest IH]; cbn [roomInTupleList].
  - split; [by intros _ tu ?%not_elem_of_nil | done].
  - destruct (decide (LESSON_IDX tu0 = lesson)) as [E|E].
    + split; [done|]. intros H. exfalso. apply (H tu0); [apply elem_of_cons; by left | done].
    + rewrite IH. split.
      * intros H tu [->|Hin]%elem_of_cons; auto.
      * intros H tu Hin. apply H. apply elem_of_cons. by right.
Qed.

Lemma roomInValues_None (values : list (list (nat * nat))) (lesson : nat) :
  roomInValues values lesson = None
  <-> forall tupleList tu, tupleList ∈ values -> tu ∈ tupleList -> LESSON_IDX tu <> lesson.
Proof.
  induction values as [|tl rest IH]; cbn [roomInValues].
  - split; [by intros _ ? ? ?%not_elem_of_nil | done].
  - destruct (roomInTupleList tl lesson) as [room|] eqn:E.
    + split; [done|]. intros H. exfalso.
      assert (Hn : roomInTupleList tl lesson = None).
      { apply roomInTupleList_None. intros tu Htu. apply (H tl); [apply elem_of_cons; by left | done]. }
      congruence.
    + rewrite IH. rewrite roomInTupleList_None in E. split.
      * intros H tl' tu [->|Hin]%elem_of_cons Htu; [by apply E | by eapply H].
      * intros H tl' tu Hin. apply H. apply elem_of_cons. by right.
Qed.

Lemma roomInValues_app (v1 v2 : list (list (nat * nat))) (lesson : nat) :
  roomInValues (v1 ++ v2) lesson =
  match roomInValues v1 lesson with
  | Some room => Some room
  | None => roomInValues v2 lesson
  end.
Proof.
  induction v1 as [|tl v1 IH]; cbn [app roomInValues]; [done|].
  by destruct (roomInTupleList tl lesson).
Qed.

Lemma roomInTupleList_app (l1 l2 : list (nat * nat)) (lesson : nat) :
  roomInTupleList (l1 ++ l2) lesson =
  match roomInTupleList l1 lesson with
  | Some room => Some room
  | None => roomInTupleList l2 lesson
  end.
Proof.
  induction l1 as [|tu l1 IH]; cbn [app roomInTupleList]; [done|].
  by destruct (decide (LESSON_IDX tu = lesson)).
Qed.

Lemma getRoomOfLesson_None_iff (self : Solution.t) (lesson : nat) :
  getRoomOfLesson self lesson = None <-> ~ placed self lesson.
Proof.
  unfold getRoomOfLesson. rewrite roomInValues_None. split.
  - intros H (item & tu & Hitem & Htu & E). apply (H (snd item) tu); [|done|done].
    apply list_elem_of_fmap. by exists item.
  - intros Hnot tl tu (item & -> & Hitem)%list_elem_of_fmap Htu E. apply Hnot.
    by exists item, tu.
Qed.

(** A new solution has exactly the timeslots of the catalog as keys, each
    once and with no lesson: asking for the lessons at another timeslot
    raises [KeyError], and no lesson has a timeslot or a room. *)
Theorem Solution_init_is_empty (solutionIndex objectiveValue : Z) (orm : ORM)
        (t : Timeslot.t) (lesson : nat) :
  let self := Solution.init solutionIndex orm objectiveValue in
  NoDup (timeslotKeys self) /\
  Solution.getLessonsAtTimeslot self t =
    (if bool_decide (t ∈ getTimeslots orm) then Ok [] else Raise KeyError) /\
  Solution.getTimeslotsOfLesson self lesson = [] /\
  getRoomOfLesson self lesson = None.
Proof.
  intros self. destruct (init_keys solutionIndex orm objectiveValue) as (Hnd & Hkeys & Hall).
  fold self in Hnd, Hkeys, Hall. rewrite Forall_forall in Hall.
  assert (Hnot : ~ placed self lesson).
  { intros (item & tu & Hitem & Htu & _). rewrite (Hall item Hitem) in Htu.
    by apply not_elem_of_nil in Htu. }
  split; [exact Hnd|]. split; [|split].
  - unfold Solution.getLessonsAtTimeslot.
    destruct (bool_decide_reflect (t ∈ getTimeslots orm)) as [Hin|Hin].
    + apply Hkeys, dict_get_Ok in Hin as [v Hv]. rewrite Hv. cbn [exc_bind].
      destruct (dict_get_split _ _ _ Hv) as (d1 & d2 & Hd & _).
      assert (Hitem : (t, v) ∈ Solution.timeslotMap self).
      { rewrite Hd. apply elem_of_app. right. apply elem_of_cons. by left. }
      apply Hall in Hitem. cbn [snd] in Hitem. by subst v.
    + assert (Hk : t ∉ timeslotKeys self) by (by rewrite Hkeys).
      apply dict_get_KeyError in Hk. by rewrite Hk.
  - by apply getTimeslotsOfLesson_nil.
  - by apply getRoomOfLesson_None_iff.
Qed.

(** [addLesson] raises [KeyError] exactly when the timeslot is no key of
    the solution; otherwise it returns, and the keys with their order, the
    solution index and the objective value are unchanged. *)
Theorem addLesson_KeyError_or_keys_kept (self : Solution.t) (lesson room : nat)
        (t : Timeslot.t) :
  match Solution.addLesson self lesson room t with
  | Ok self' =>
      t ∈ timeslotKeys self /\ timeslotKeys self' = timeslotKeys self /\
      Solution.solutionIndex self' = Solution.solutionIndex self /\
      Solution.objectiveValue self' = Solution.objectiveValue self
  | Raise e => e = KeyError /\ t ∉ timeslotKeys self
  end.
Proof.
  unfold Solution.addLesson.
  destruct (dict_get_total (Solution.timeslotMap self) t) as [E|[entries E]]; rewrite E;
    cbn [exc_bind].
  - split; [done|]. by apply dict_get_KeyError.
  - assert (Hin : t ∈ timeslotKeys self) by (apply dict_get_Ok; by exists entries).
    split; [done|]. split; [|done]. unfold timeslotKeys. cbn [Solution.timeslotMap].
    by apply dict_set_keys_present.
Qed.

(** After [addLesson(lesson, room, t)] the lessons at [t] are the former
    ones followed by [lesson], and the lessons at every other timeslot are
    as before. *)
Theorem addLesson_getLessonsAtTimeslot (self self' : Solution.t) (lesson room : nat)
        (t : Timeslot.t) :
  Solution.addLesson self lesson room t = Ok self' ->
  (exists before, Solution.getLessonsAtTimeslot self t = Ok before /\
                  Solution.getLessonsAtTimeslot self' t = Ok (before ++ [lesson])) /\
  (forall t', t' <> t ->
     Solution.getLessonsAtTimeslot self' t' = Solution.getLessonsAtTimeslot self t').
Proof.
  unfold Solution.addLesson, Solution.getLessonsAtTimeslot.
  destruct (Solution.dict_get (Solution.timeslotMap self) t) as [entries|e] eqn:E;
    cbn [exc_bind]; [|discriminate].
  intros [= <-]. cbn [Solution.timeslotMap]. split.
  - exists (map LESSON_IDX entries). split; [done|].
    rewrite dict_get_set_eq. cbn [exc_bind]. by rewrite map_app.
  - intros t' Hne. by rewrite dict_get_set_ne.
Qed.

Lemma addLesson_getLessonsAtTimeslot_witness :
  exists self',
    Solution.addLesson (Solution.init 1 Sample.orm 0) 1 1 (Sample.slot 1) = Ok self' /\
    Solution.getLessonsAtTimeslot self' (Sample.slot 1) = Ok [1%nat] /\
    Solution.getLessonsAtTimeslot self' (Sample.slot 2) = Ok [].
Proof.
  eexists. split; [vm_compute; reflexivity|].
  match goal with
  | |- Solution.getLessonsAtTimeslot ?s _ = _ /\ _ =>
      assert (Hadd : Solution.addLesson (Solution.init 1 Sample.orm 0) 1 1 (Sample.slot 1)
                     = Ok s) by (vm_compute; reflexivity)
  end.
  destruct (addLesson_getLessonsAtTimeslot _ _ _ _ _ Hadd) as [(before & Hb & Ha) Hother].
  split.
  - rewrite Ha. assert (before = []) as ->; [|done].
    assert (Hb' : Solution.getLessonsAtTimeslot (Solution.init 1 Sample.orm 0) (Sample.slot 1)
                  = Ok []) by (vm_compute; reflexivity).
    congruence.
  - rewrite Hother; [vm_compute; reflexivity | discriminate].
Defined.

Lemma timeslotsOfLesson_lessonsAt (self : Solution.t)
        (lesson : nat) (t : Timeslot.t) :
  NoDup (timeslotKeys self) ->
  t ∈ Solution.getTimeslotsOfLesson self lesson <->
  exists lessons, Solution.getLessonsAtTimeslot self t = Ok lessons /\ lesson ∈ lessons.
Proof.
  intros Hnd. rewrite elem_of_getTimeslotsOfLesson. unfold Solution.getLessonsAtTimeslot.
  split.
  - intros (entries & tu & Hitem & Htu & E).
    destruct (dict_get_total (Solution.timeslotMap self) t) as [Hk|[v Hv]].
    { apply dict_get_KeyError in Hk. exfalso. apply Hk. apply list_elem_of_fmap.
      by exists (t, entries). }
    destruct (dict_get_split _ _ _ Hv) as (d1 & d2 & Hd & Hk1 & _).
    assert (v = entries) as ->.
    { unfold timeslotKeys in Hnd. rewrite Hd in Hnd, Hitem.
      rewrite map_app in Hnd. cbn [map fst] in Hnd.
      apply NoDup_app in Hnd as (_ & Hdisj & Hnd2). apply NoDup_cons in Hnd2 as [Hk2 _].
      apply elem_of_app in Hitem as [Hitem|Hitem].
      - exfalso. apply Hk1. apply list_elem_of_fmap. by exists (t, entries).
      - apply elem_of_cons in Hitem as [[= ->]|Hitem]; [done|].
        exfalso. apply Hk2. apply list_elem_of_fmap. by exists (t, entries). }
    rewrite Hv. cbn [exc_bind]. eexists. split; [done|].
    apply list_elem_of_fmap. by exists tu.
  - intros (lessons & Hget & Hin).
    destruct (Solution.dict_get (Solution.timeslotMap self) t) as [entries|e] eqn:E;
      cbn [exc_bind] in Hget; [|discriminate].
    injection Hget as <-. apply list_elem_of_fmap in Hin as (tu & -> & Htu).
    destruct (dict_get_split _ _ _ E) as (d1 & d2 & Hd & _).
    exists entries, tu. split; [|done]. rewrite Hd. apply elem_of_app. right.
    apply elem_of_cons. by left.
Qed.

(** In a solution whose keys are distinct, the two views agree: [t] is
    among the timeslots of a lesson exactly when the lesson is among the
    lessons at [t]. *)
Theorem getTimeslotsOfLesson_agrees_with_getLessonsAtTimeslot (self : Solution.t)
        (lesson : nat) (t : Timeslot.t) :
  NoDup (timeslotKeys self) ->
  t ∈ Solution.getTimeslotsOfLesson self lesson <->
  exists lessons, Solution.getLessonsAtTimeslot self t = Ok lessons /\ lesson ∈ lessons.
Proof. exact (timeslotsOfLesson_lessonsAt self lesson t). Qed.

Lemma getTimeslotsOfLesson_agrees_with_getLessonsAtTimeslot_witness :
  NoDup (timeslotKeys (Solution.init 1 Sample.orm 0)) /\
  (Sample.slot 1 ∈ Solution.getTimeslotsOfLesson (Solution.init 1 Sample.orm 0) 1 <->
   exists lessons,
     Solution.getLessonsAtTimeslot (Solution.init 1 Sample.orm 0) (Sample.slot 1) = Ok lessons /\
     1%nat ∈ lessons).
Proof.
  assert (Hnd : NoDup (timeslotKeys (Solution.init 1 Sample.orm 0))).
  { apply (init_keys 1 Sample.orm 0). }
  split; [exact Hnd|].
  exact (getTimeslotsOfLesson_agrees_with_getLessonsAtTimeslot _ 1%nat (Sample.slot 1) Hnd).
Defined.

(** [addLesson(lesson, room, t)] adds [t] to the timeslots of the lesson
    and leaves the timeslots and the room of every other lesson as they
    were; a lesson that was not placed before gets [room] as its room.
    [getRoomOfLesson] answers [None] exactly for the lessons without a
    timeslot. *)
Theorem addLesson_places_lesson (self self' : Solution.t) (lesson room : nat)
        (t : Timeslot.t) :
  Solution.addLesson self lesson room t = Ok self' ->
  (forall t0, t0 ∈ Solution.getTimeslotsOfLesson self' lesson <->
              t0 ∈ Solution.getTimeslotsOfLesson self lesson \/ t0 = t) /\
  (forall other, other <> lesson ->
     Solution.getTimeslotsOfLesson self' other = Solution.getTimeslotsOfLesson self other /\
     getRoomOfLesson self' other = getRoomOfLesson self other) /\
  (Solution.getTimeslotsOfLesson self lesson = [] ->
   getRoomOfLesson self' lesson = Some room) /\
  (forall l, getRoomOfLesson self' l = None <-> Solution.getTimeslotsOfLesson self' l = []).
Proof.
  unfold Solution.addLesson.
  destruct (Solution.dict_get (Solution.timeslotMap self) t) as [entries|e] eqn:E;
    cbn [exc_bind]; [|discriminate].
  intros [= <-].
  destruct (dict_get_split _ _ _ E) as (d1 & d2 & Hd & _ & Hset).
  unfold Solution.getTimeslotsOfLesson, getRoomOfLesson. cbn [Solution.timeslotMap].
  rewrite Hset, Hd.
  assert (Hitem : forall l,
            flat_map (fun tu => if decide (LESSON_IDX tu = l) then [t] else [])
                     (entries ++ [(lesson, room)])
            = flat_map (fun tu => if decide (LESSON_IDX tu = l) then [t] else []) entries
              ++ (if decide (lesson = l) then [t] else [])).
  { intros l. rewrite flat_map_app. cbn [flat_map LESSON_IDX fst]. by rewrite app_nil_r. }
  split; [|split; [|split]].
  - intros t0. rewrite !flat_map_app. cbn [flat_map fst snd]. rewrite Hitem.
    rewrite decide_True by done. rewrite !elem_of_app, list_elem_of_singleton. tauto.
  - intros other Hne. split.
    + rewrite !flat_map_app. cbn [flat_map fst snd]. rewrite Hitem.
      rewrite decide_False by done. by rewrite app_nil_r.
    + rewrite !map_app. cbn [map snd]. rewrite !roomInValues_app. cbn [roomInValues].
      rewrite roomInTupleList_app. cbn [roomInTupleList LESSON_IDX fst].
      rewrite decide_False by done. by destruct (roomInTupleList entries other).
  - intros Hnil.
    assert (Hnot : ~ placed {| Solution.solutionIndex := Solution.solutionIndex self;
                               Solution.objectiveValue := Solution.objectiveValue self;
                               Solution.timeslotMap := d1 ++ (t, entries) :: d2 |} lesson).
    { apply getTimeslotsOfLesson_nil. unfold Solution.getTimeslotsOfLesson.
      cbn [Solution.timeslotMap]. exact Hnil. }
    assert (H1 : roomInValues (map snd d1) lesson = None).
    { apply roomInValues_None. intros tl tu (item & -> & Hi)%list_elem_of_fmap Htu El.
      apply Hnot. exists item, tu. split; [|done]. cbn [Solution.timeslotMap].
      apply elem_of_app. by left. }
    assert (H2 : roomInTupleList entries lesson = None).
    { apply roomInTupleList_None. intros tu Htu El. apply Hnot. exists (t, entries), tu.
      split; [|done]. cbn [Solution.timeslotMap]. apply elem_of_app. right.
      apply elem_of_cons. by left. }
    rewrite map_app. cbn [map snd]. rewrite roomInValues_app, H1. cbn [roomInValues].
    rewrite roomInTupleList_app, H2. cbn [roomInTupleList LESSON_IDX fst].
    by rewrite decide_True.
  - intros l.
    pose (s' := {| Solution.solutionIndex := Solution.solutionIndex self;
                   Solution.objectiveValue := Solution.objectiveValue self;
                   Solution.timeslotMap := d1 ++ (t, entries ++ [(lesson, room)]) :: d2 |}).
    exact (iff_trans (getRoomOfLesson_None_iff s' l)
                     (iff_sym (getTimeslotsOfLesson_nil s' l))).
Qed.

Lemma addLesson_places_lesson_witness :
  exists self',
    Solution.addLesson (Solution.init 1 Sample.orm 0) 1 7 (Sample.slot 1) = Ok self' /\
    getRoomOfLesson self' 1%nat = Some 7%nat /\
    Solution.getTimeslotsOfLesson self' 2%nat = [].
Proof.
  eexists. split; [vm_compute; reflexivity|].
  match goal with
  | |- getRoomOfLesson ?s _ = _ /\ _ =>
      assert (Hadd : Solution.addLesson (Solution.init 1 Sample.orm 0) 1 7 (Sample.slot 1)
                     = Ok s) by (vm_compute; reflexivity)
  end.
  destruct (addLesson_places_lesson _ _ _ _ _ Hadd) as (_ & Hother & Hroom & _).
  split.
  - apply Hroom. vm_compute. reflexivity.
  - destruct (Hother 2%nat) as [-> _]; [discriminate|]. vm_compute. reflexivity.
Defined.

(** A catalog with a same-time pair: the lessons 1 (one timeslot) and 2
    (two timeslots) are to start together, lesson 3 is on its own. *)
Module Paired.
Definition lessonRow (l : nat) : Lesson.t :=
  {| Lesson.whole_semester_group := true;
     Lesson.timeslot_size := if decide (l = 2%nat) then 2 else 1;
     Lesson.course := 1%nat; Lesson.teachers := [1]%nat;
     Lesson.available_timeslots := [];
     Lesson.lessons_at_same_time :=
       if decide (l = 1%nat) then [2]%nat else if decide (l = 2%nat) then [1]%nat else [];
     Lesson.lessons_consecutive := [];
     Lesson.availableTimeslotsFiltered := concat (week 6) |}.

Definition course : Course.t :=
  {| Course.only_forenoon := false; Course.all_in_one_block := false;
     Course.is_lecture := true; Course.one_per_day_per_teacher := false;
     Course.possible_rooms := [1]%nat; Course.semester_groups := [1]%nat;
     Course.lessons := [1; 2; 3]%nat |}.

Definition orm : ORM :=
  {| TIMESLOTS_PER_DAY := 6;
     getTimeslots := concat (week 6);
     getTimeslotsPerDay := week 6;
     getRooms := [1]%nat;
     getTeachers := [1]%nat;
     getSemesterGroups := [1]%nat;
     getCourses := [1]%nat;
     getLessons := [1; 2; 3]%nat;
     getLessonsAtSameTimeSets := [[1; 2]%nat];
     semester_group_row := fun _ => Sample.cohort;
     course_row := fun _ => course;
     lesson_row := lessonRow |}.

Lemma group_values :
  group orm 1 = [1; 2]%nat /\ group orm 2 = [2; 1]%nat /\ group orm 3 = [3]%nat.
Proof. repeat split; reflexivity. Qed.

Lemma groups_closed :
  forall l, l ∈ [1; 2; 3]%nat -> forall m, m ∈ group orm l ->
    forall x, x ∈ group orm m <-> x ∈ group orm l.
Proof.
  destruct group_values as (G1 & G2 & G3).
  intros l Hl m Hm x.
  assert (Hcases : l = 1%nat \/ l = 2%nat \/ l = 3%nat) by set_solver.
  destruct Hcases as [-> | [-> | ->]].
  - rewrite G1 in *. assert (Hm' : m = 1%nat \/ m = 2%nat) by set_solver.
    destruct Hm' as [->| ->]; rewrite ?G1, ?G2; set_solver.
  - rewrite G2 in *. assert (Hm' : m = 2%nat \/ m = 1%nat) by set_solver.
    destruct Hm' as [->| ->]; rewrite ?G1, ?G2; set_solver.
  - rewrite G3 in *. assert (m = 3%nat) as -> by set_solver. by rewrite G3.
Qed.

(** Lesson 1 at the first timeslot of Monday, lesson 2 at the first two,
    lesson 3 at the third. *)
Definition placement : exc Solution.t :=
  let sol := Solution.init 1 orm 0 in
  let! sol := Solution.addLesson sol 1 1 (Sample.slot 1) in
  let! sol := Solution.addLesson sol 2 1 (Sample.slot 1) in
  let! sol := Solution.addLesson sol 2 1 (Sample.slot 2) in
  Solution.addLesson sol 3 1 (Sample.slot 3).
End Paired.

(** ** HelperFunctions.py *)

Lemma NoDup_py_set {A : Type} `{EqDecision A} (l : list A) : NoDup (py_set l).
Proof.
  induction l as [|x l IH]; cbn [py_set]; [constructor|].
  apply NoDup_cons. split; [|by apply NoDup_filter].
  intros [Hne _]%list_elem_of_filter. done.
Qed.

(** [intersectAll] raises [StopIteration] exactly on an empty argument;
    otherwise it returns a set: every element once, and exactly the
    elements that all the iterables contain. *)
Theorem intersectAll_is_intersection {A : Type} `{EqDecision A} (iterables : list (list A)) :
  match intersectAll iterables with
  | Ok r => iterables <> [] /\ NoDup r /\
            forall x, x ∈ r <-> forall l : list A, l ∈ iterables -> x ∈ l
  | Raise e => e = StopIteration /\ iterables = []
  end.
Proof.
  destruct iterables as [|first others]; [done|].
  cbn [intersectAll]. split; [done|]. split.
  - generalize (NoDup_py_set first). generalize (py_set first).
    induction others as [|o others IH]; intros acc Hacc; cbn [fold_left]; [done|].
    apply IH. by apply NoDup_filter.
  - intros x. destruct (elem_of_intersectAll first others x) as (r & Hr & Hx).
    cbn [intersectAll] in Hr. injection Hr as <-. exact Hx.
Qed.

(** The condition of the filter of [getSameTimeLessonSets]. *)
Definition sameTimeFilter (orm : ORM) (teacher semesterGroup : option nat) (lecture : bool)
           (l : nat) : bool :=
  (negb lecture || is_lecture orm l)
  && (match teacher with
      | None => true
      | Some t => py_in t (Lesson.teachers (lesson_row orm l))
      end)
  && (match semesterGroup with
      | None => true
      | Some sg =>
          py_in sg (Course.semester_groups (course_row orm (Lesson.course (lesson_row orm l))))
      end).

(** The same-time set that a lesson contributes. *)
Definition sameTimeSetOf (orm : ORM) (teacher semesterGroup : option nat) (lecture : bool)
           (lesson : nat) : list nat :=
  py_set (filter (fun l => sameTimeFilter orm teacher semesterGroup lecture l = true)
                 (lesson :: lessons_at_same_time orm lesson)).

Section SameTimeSets.
Variable orm : ORM.
Variables teacher semesterGroup : option nat.
Variable lecture : bool.

(** The body of the first loop of [getSameTimeLessonSets]. *)
Definition sameTimeStep (sameTimeSetList : list (list nat)) (lesson : nat) : list (list nat) :=
  match lessons_at_same_time orm lesson with
  | [] => sameTimeSetList
  | _ :: _ =>
      if negb (existsb (fun sameTimeSet => py_in lesson sameTimeSet) sameTimeSetList)
      then let newSet := sameTimeSetOf orm teacher semesterGroup lecture lesson in
           match newSet with
           | [] => sameTimeSetList
           | _ :: _ => sameTimeSetList ++ [newSet]
           end
      else sameTimeSetList
  end.

Lemma getSameTimeLessonSets_unfold (lessons : list nat) :
  getSameTimeLessonSets orm lessons teacher semesterGroup lecture false
  = fold_left sameTimeStep lessons [].
Proof. reflexivity. Qed.

Lemma getSameTimeLessonSets_filtered (lessons : list nat) :
  getSameTimeLessonSets orm lessons teacher semesterGroup lecture true
  = filter (fun x => (1 < length x)%nat)
           (map (fun sameTimeSet => filter (fun l => py_in l lessons = true) sameTimeSet)
                (fold_left sameTimeStep lessons [])).
Proof. reflexivity. Qed.

Lemma sameTimeStep_grows (acc : list (list nat)) (lesson : nat) :
  sameTimeStep acc lesson = acc \/
  (lessons_at_same_time orm lesson <> [] /\
   sameTimeSetOf orm teacher semesterGroup lecture lesson <> [] /\
   (forall s, s ∈ acc -> lesson ∉ s) /\
   sameTimeStep acc lesson = acc ++ [sameTimeSetOf orm teacher semesterGroup lecture lesson]).
Proof.
  unfold sameTimeStep. destruct (lessons_at_same_time orm lesson) as [|p ps] eqn:Ep; [by left|].
  destruct (existsb (fun sameTimeSet => py_in lesson sameTimeSet) acc) eqn:Eex;
    cbn [negb]; [by left|].
  destruct (sameTimeSetOf orm teacher semesterGroup lecture lesson) as [|x xs] eqn:Es;
    [by left|].
  right. split; [done|]. split; [done|]. split; [|done].
  intros s Hs Hin. apply not_true_iff_false in Eex. apply Eex.
  apply existsb_exists. exists s. split; [by apply list_elem_of_In | by apply py_in_true].
Qed.

Lemma sameTimeSets_sound (lessons : list nat) (acc : list (list nat)) (s : list nat) :
  s ∈ fold_left sameTimeStep lessons acc ->
  s ∈ acc \/
  exists lesson, lesson ∈ lessons /\ lessons_at_same_time orm lesson <> [] /\
                 s <> [] /\ s = sameTimeSetOf orm teacher semesterGroup lecture lesson.
Proof.
  revert acc. induction lessons as [|l lessons IH]; intros acc; cbn [fold_left]; [by left|].
  intros Hs. destruct (IH _ Hs) as [Hacc|(lesson & Hl & Hp & Hne & ->)].
  - destruct (sameTimeStep_grows acc l) as [E|(Hp & Hne & _ & E)]; rewrite E in Hacc;
      [by left|].
    apply elem_of_app in Hacc as [?| ->%list_elem_of_singleton]; [by left|].
    right. exists l. split; [apply elem_of_cons; by left | done].
  - right. exists lesson. split; [apply elem_of_cons; by right | done].
Qed.

Lemma sameTimeSets_kept (lessons : list nat) (acc : list (list nat)) (s : list nat) :
  s ∈ acc -> s ∈ fold_left sameTimeStep lessons acc.
Proof.
  revert acc. induction lessons as [|l lessons IH]; intros acc Hs; cbn [fold_left]; [done|].
  apply IH. destruct (sameTimeStep_grows acc l) as [E|(_ & _ & _ & E)]; rewrite E; [done|].
  apply elem_of_app. by left.
Qed.

Lemma sameTimeSets_cover (lessons : list nat) (acc : list (list nat)) (lesson : nat) :
  lesson ∈ lessons -> lessons_at_same_time orm lesson <> [] ->
  sameTimeFilter orm teacher semesterGroup lecture lesson = true ->
  exists s, s ∈ fold_left sameTimeStep lessons acc /\ lesson ∈ s.
Proof.
  intros Hin Hp Hf. revert acc.
  induction lessons as [|l lessons IH]; intros acc; [by apply not_elem_of_nil in Hin|].
  cbn [fold_left]. apply elem_of_cons in Hin as [<-|Hin]; [|by apply IH].
  clear IH.
  assert (Hself : lesson ∈ sameTimeSetOf orm teacher semesterGroup lecture lesson).
  { unfold sameTimeSetOf. apply elem_of_py_set, list_elem_of_filter. split; [done|].
    apply elem_of_cons. by left. }
  destruct (existsb (fun sameTimeSet => py_in lesson sameTimeSet) acc) eqn:Eex.
  - apply existsb_exists in Eex as (s & Hs & Hls). apply list_elem_of_In in Hs.
    apply py_in_true in Hls. exists s. split; [|done].
    apply sameTimeSets_kept. unfold sameTimeStep.
    destruct (lessons_at_same_time orm lesson); [done|].
    assert (E : existsb (fun sameTimeSet => py_in lesson sameTimeSet) acc = true).
    { apply existsb_exists. exists s. split; [by apply list_elem_of_In | by apply py_in_true]. }
    by rewrite E.
  - exists (sameTimeSetOf orm teacher semesterGroup lecture lesson). split; [|done].
    apply sameTimeSets_kept. unfold sameTimeStep.
    destruct (lessons_at_same_time orm lesson) as [|p ps]; [done|].
    rewrite Eex. cbn [negb].
    destruct (sameTimeSetOf orm teacher semesterGroup lecture lesson) as [|x xs] eqn:Es.
    + by apply not_elem_of_nil in Hself.
    + apply elem_of_app. right. by apply list_elem_of_singleton.
Qed.
End SameTimeSets.

Lemma elem_of_sameTimeSetOf (orm : ORM) (teacher semesterGroup : option nat) (lecture : bool)
      (lesson m : nat) :
  m ∈ sameTimeSetOf orm teacher semesterGroup lecture lesson <->
  m ∈ lesson :: lessons_at_same_time orm lesson /\
  sameTimeFilter orm teacher semesterGroup lecture m = true.
Proof. unfold sameTimeSetOf. rewrite elem_of_py_set, list_elem_of_filter. tauto. Qed.

(** Without [filterForLessonsList], every set that [getSameTimeLessonSets]
    returns is non-empty, has no element twice, and holds exactly the
    lessons that pass the filter among one lesson of the argument, which has
    same-time partners, and these partners. Every lesson of the argument that
    has partners and passes the filter is in one of the sets. *)
Theorem getSameTimeLessonSets_sound_and_covering (orm : ORM)
        (teacher semesterGroup : option nat) (lecture : bool) (lessons : list nat) :
  let sets := getSameTimeLessonSets orm lessons teacher semesterGroup lecture false in
  (forall s, s ∈ sets ->
     s <> [] /\ NoDup s /\
     exists lesson, lesson ∈ lessons /\ lessons_at_same_time orm lesson <> [] /\
       forall m, m ∈ s <-> m ∈ lesson :: lessons_at_same_time orm lesson /\
                           sameTimeFilter orm teacher semesterGroup lecture m = true) /\
  (forall lesson, lesson ∈ lessons -> lessons_at_same_time orm lesson <> [] ->
     sameTimeFilter orm teacher semesterGroup lecture lesson = true ->
     exists s, s ∈ sets /\ lesson ∈ s).
Proof.
  intros sets. unfold sets. rewrite getSameTimeLessonSets_unfold. split.
  - intros s Hs. apply sameTimeSets_sound in Hs as [Hs|(lesson & Hl & Hp & Hne & ->)].
    { by apply not_elem_of_nil in Hs. }
    split; [done|]. split; [apply NoDup_py_set|]. exists lesson. split; [done|].
    split; [done|]. intros m. apply elem_of_sameTimeSetOf.
  - intros lesson Hl Hp Hf. by apply sameTimeSets_cover.
Qed.

(** When every lesson of the argument passes the filter and the same-time
    groups of these lessons are closed, the sets that
    [getSameTimeLessonSets] returns are pairwise disjoint: no lesson is in
    two of them. *)
Theorem getSameTimeLessonSets_disjoint (orm : ORM) (teacher semesterGroup : option nat)
        (lecture : bool) (lessons : list nat) :
  (forall l, l ∈ lessons -> sameTimeFilter orm teacher semesterGroup lecture l = true) ->
  (forall l, l ∈ lessons -> forall m, m ∈ group orm l ->
     forall x, x ∈ group orm m <-> x ∈ group orm l) ->
  forall (i j : nat) s1 s2 x,
    getSameTimeLessonSets orm lessons teacher semesterGroup lecture false !! i = Some s1 ->
    getSameTimeLessonSets orm lessons teacher semesterGroup lecture false !! j = Some s2 ->
    i <> j -> x ∈ s1 -> x ∉ s2.
Proof.
  intros Hpass Hclosed. rewrite getSameTimeLessonSets_unfold.
  pose (ok := fun acc : list (list nat) =>
          (forall s, s ∈ acc -> exists l0, l0 ∈ lessons /\
                       s = sameTimeSetOf orm teacher semesterGroup lecture l0) /\
          (forall (i j : nat) s1 s2 x, acc !! i = Some s1 -> acc !! j = Some s2 ->
                                      i <> j -> x ∈ s1 -> x ∉ s2)).
  enough (G : forall todo acc, (forall l, l ∈ todo -> l ∈ lessons) -> ok acc ->
                ok (fold_left (sameTimeStep orm teacher semesterGroup lecture) todo acc)).
  { apply (G lessons []); [done|]. split; [by intros s ?%not_elem_of_nil|].
    intros i j s1 s2 x H. by rewrite lookup_nil in H. }
  induction todo as [|l todo IH]; intros acc Hsub Hok; cbn [fold_left]; [done|].
  apply IH; [intros l' Hl'; apply Hsub, elem_of_cons; by right|].
  assert (Hl : l ∈ lessons) by (apply Hsub, elem_of_cons; by left).
  destruct (sameTimeStep_grows orm teacher semesterGroup lecture acc l)
    as [E|(_ & _ & Hfresh & E)]; rewrite E; [done|].
  destruct Hok as [Hsets Hdisj].
  assert (Hnew : forall s x, s ∈ acc ->
            x ∈ sameTimeSetOf orm teacher semesterGroup lecture l -> x ∉ s).
  { intros s x Hs Hx Hxs. destruct (Hsets s Hs) as (l0 & Hl0 & ->).
    apply elem_of_sameTimeSetOf in Hx as [Hx _], Hxs as [Hxs _].
    apply (Hfresh _ Hs). apply elem_of_sameTimeSetOf. split; [|by apply Hpass].
    change (l ∈ group orm l0). apply (Hclosed l0 Hl0 x Hxs).
    apply (Hclosed l Hl x Hx). apply elem_of_cons. by left. }
  split.
  - intros s [Hs| ->%list_elem_of_singleton]%elem_of_app; [by apply Hsets|]. by exists l.
  - intros i j s1 s2 x H1 H2 Hij Hx1 Hx2.
    apply lookup_app_Some in H1 as [H1|[Hi H1]], H2 as [H2|[Hj H2]].
    + by apply (Hdisj i j s1 s2 x).
    + apply list_lookup_singleton_Some in H2 as [_ <-].
      apply (Hnew s1 x); [by eapply list_elem_of_lookup_2 | done | done].
    + apply list_lookup_singleton_Some in H1 as [_ <-].
      apply (Hnew s2 x); [by eapply list_elem_of_lookup_2 | done | done].
    + apply list_lookup_singleton_Some in H1 as [Hi' _], H2 as [Hj' _]. lia.
Qed.

Lemma getSameTimeLessonSets_disjoint_witness :
  (forall l, l ∈ [1; 2; 3]%nat -> sameTimeFilter Paired.orm None None false l = true) /\
  getSameTimeLessonSets Paired.orm [1; 2; 3]%nat None None false false = [[1; 2]%nat] /\
  forall (i j : nat) s1 s2 x,
    getSameTimeLessonSets Paired.orm [1; 2; 3]%nat None None false false !! i = Some s1 ->
    getSameTimeLessonSets Paired.orm [1; 2; 3]%nat None None false false !! j = Some s2 ->
    i <> j -> x ∈ s1 -> x ∉ s2.
Proof.
  assert (Hpass : forall l, l ∈ [1; 2; 3]%nat ->
            sameTimeFilter Paired.orm None None false l = true) by done.
  split; [exact Hpass|]. split; [vm_compute; reflexivity|].
  exact (getSameTimeLessonSets_disjoint Paired.orm None None false [1; 2; 3]%nat Hpass
           Paired.groups_closed).
Defined.

(** With [filterForLessonsList], every returned set has at least two
    elements, none twice, all of them lessons of the argument that pass the
    filter. *)
Theorem getSameTimeLessonSets_filtered_for_lessons (orm : ORM)
        (teacher semesterGroup : option nat) (lecture : bool) (lessons s : list nat) :
  s ∈ getSameTimeLessonSets orm lessons teacher semesterGroup lecture true ->
  (1 < length s)%nat /\ NoDup s /\
  forall m, m ∈ s -> m ∈ lessons /\ sameTimeFilter orm teacher semesterGroup lecture m = true.
Proof.
  rewrite getSameTimeLessonSets_filtered.
  intros [Hlen (s0 & -> & Hs0)%list_elem_of_fmap]%list_elem_of_filter.
  apply sameTimeSets_sound in Hs0 as [Hs0|(lesson & Hl & Hp & Hne & ->)].
  { by apply not_elem_of_nil in Hs0. }
  split; [done|]. split; [apply NoDup_filter, NoDup_py_set|].
  intros m [Hm Hin]%list_elem_of_filter. apply py_in_true in Hm.
  split; [done|]. by apply elem_of_sameTimeSetOf in Hin as [_ ?].
Qed.

Lemma getSameTimeLessonSets_filtered_for_lessons_witness :
  [1; 2]%nat ∈ getSameTimeLessonSets Paired.orm [1; 2; 3]%nat None None false true /\
  (1 < length [1; 2]%nat)%nat.
Proof.
  assert (Hin : [1; 2]%nat
                ∈ getSameTimeLessonSets Paired.orm [1; 2; 3]%nat None None false true).
  { assert (E : getSameTimeLessonSets Paired.orm [1; 2; 3]%nat None None false true
                = [[1; 2]%nat]) by (vm_compute; reflexivity).
    rewrite E. by apply list_elem_of_singleton. }
  split; [exact Hin|].
  exact (proj1 (getSameTimeLessonSets_filtered_for_lessons Paired.orm None None false
                  [1; 2; 3]%nat [1; 2]%nat Hin)).
Defined.

(** ** Lesson.py *)

(** [lesson.getAvailableTimeslots(allTimeslots)]; [rows] are the teacher
    objects. *)
Definition getAvailableTimeslots (orm : ORM) (rows : nat -> Teacher.t) (self : Lesson.t)
           (allTimeslots : list Timeslot.t) : list Timeslot.t :=
  let notAvailableTimeslotsTeachers :=
    flatMap (fun t => Teacher.not_available_timeslots (rows t)) (Lesson.teachers self) in
  let notAvailableTimeslotsForenoon :=
    if Course.only_forenoon (course_row orm (Lesson.course self))
    then filter (fun t => py_in (Timeslot.number t) Timeslot.getForenoonTimeslotNumbers = false)
                allTimeslots
    else [] in
  let timeslots :=
    filter (fun x => py_in x (notAvailableTimeslotsTeachers ++ notAvailableTimeslotsForenoon)
                     = false)
           allTimeslots in
  match Lesson.available_timeslots self with
  | [] => timeslots
  | _ :: _ => filter (fun x => py_in x (Lesson.available_timeslots self) = true) timeslots
  end.

Lemma py_in_false {A : Type} `{EqDecision A} (x : A) (l : list A) :
  py_in x l = false <-> x ∉ l.
Proof. rewrite <- not_true_iff_false, py_in_true. done. Qed.

Lemma getAvailableTimeslots_correct (orm : ORM) (rows : nat -> Teacher.t)
        (self : Lesson.t) (allTimeslots : list Timeslot.t) :
  getAvailableTimeslots orm rows self allTimeslots `sublist_of` allTimeslots /\
  forall t, t ∈ getAvailableTimeslots orm rows self allTimeslots <->
    t ∈ allTimeslots /\
    (forall teacher, teacher ∈ Lesson.teachers self ->
       t ∉ Teacher.not_available_timeslots (rows teacher)) /\
    (Course.only_forenoon (course_row orm (Lesson.course self)) = true ->
       Timeslot.number t ∈ Timeslot.getForenoonTimeslotNumbers) /\
    (Lesson.available_timeslots self <> [] -> t ∈ Lesson.available_timeslots self).
Proof.
  unfold getAvailableTimeslots.
  set (busy := flatMap (fun t => Teacher.not_available_timeslots (rows t))
                      (Lesson.teachers self)).
  set (naf := if Course.only_forenoon (course_row orm (Lesson.course self))
              then filter (fun t => py_in (Timeslot.number t)
                                          Timeslot.getForenoonTimeslotNumbers = false)
                          allTimeslots
              else []).
  assert (Hnat : forall t, t ∉ busy <->
            forall teacher, teacher ∈ Lesson.teachers self ->
                            t ∉ Teacher.not_available_timeslots (rows teacher)).
  { intros t. unfold busy, flatMap. rewrite list_elem_of_In, in_flat_map. split.
    - intros H teacher Hteacher Ht. apply H. exists teacher.
      split; by apply list_elem_of_In.
    - intros H (teacher & Hteacher & Ht). apply list_elem_of_In in Hteacher, Ht.
      by apply (H teacher). }
  assert (Hnaf : forall t, t ∈ allTimeslots ->
            (t ∉ naf <->
             (Course.only_forenoon (course_row orm (Lesson.course self)) = true ->
              Timeslot.number t ∈ Timeslot.getForenoonTimeslotNumbers))).
  { intros t Ht. unfold naf.
    destruct (Course.only_forenoon (course_row orm (Lesson.course self))).
    - rewrite list_elem_of_filter, py_in_false. split.
      + intros H _. destruct (decide (Timeslot.number t ∈ Timeslot.getForenoonTimeslotNumbers));
          [done|]. exfalso. by apply H.
      + intros H [Hn _]. by apply Hn, H.
    - split; [done|]. intros _. apply not_elem_of_nil. }
  assert (Hbase : forall t,
            t ∈ filter (fun x => py_in x (busy ++ naf) = false) allTimeslots <->
            t ∈ allTimeslots /\
            (forall teacher, teacher ∈ Lesson.teachers self ->
               t ∉ Teacher.not_available_timeslots (rows teacher)) /\
            (Course.only_forenoon (course_row orm (Lesson.course self)) = true ->
               Timeslot.number t ∈ Timeslot.getForenoonTimeslotNumbers)).
  { intros t. rewrite list_elem_of_filter, py_in_false, not_elem_of_app, Hnat.
    split.
    - intros [[H1 H2] Hin]. split; [done|]. split; [done|]. by apply Hnaf.
    - intros (Hin & H1 & H2). split; [|done]. split; [done|]. by apply Hnaf. }
  destruct (Lesson.available_timeslots self) as [|a rest] eqn:Ea.
  - split; [apply sublist_filter|]. intros t. rewrite Hbase. naive_solver.
  - split.
    + etrans; apply sublist_filter.
    + intros t. rewrite list_elem_of_filter, py_in_true, Hbase. naive_solver.
Qed.

(** [getAvailableTimeslots] keeps the order of [allTimeslots] and returns
    exactly its timeslots at which every teacher of the lesson is available,
    which are in the forenoon when the course is forenoon-only, and which are
    among [available_timeslots] when that list is not empty. *)
Theorem getAvailableTimeslots_characterised (orm : ORM) (rows : nat -> Teacher.t)
        (self : Lesson.t) (allTimeslots : list Timeslot.t) :
  getAvailableTimeslots orm rows self allTimeslots `sublist_of` allTimeslots /\
  forall t, t ∈ getAvailableTimeslots orm rows self allTimeslots <->
    t ∈ allTimeslots /\
    (forall teacher, teacher ∈ Lesson.teachers self ->
       t ∉ Teacher.not_available_timeslots (rows teacher)) /\
    (Course.only_forenoon (course_row orm (Lesson.course self)) = true ->
       Timeslot.number t ∈ Timeslot.getForenoonTimeslotNumbers) /\
    (Lesson.available_timeslots self <> [] -> t ∈ Lesson.available_timeslots self).
Proof. exact (getAvailableTimeslots_correct orm rows self allTimeslots). Qed.

(** ** SolutionValidation.py: the other rule checks *)

(** Loops of the validator: [isValid &= check(x)] evaluates every check,
    [isValid = isValid and check(x)] only while [isValid] holds. *)
Definition and_each {A : Type} (check : A -> exc bool) (l : list A) (isValid : bool)
  : exc bool :=
  exc_fold (fun isValid x => let! c := check x in Ok (isValid && c)) l isValid.

Definition and_while {A : Type} (check : A -> exc bool) (l : list A) (isValid : bool)
  : exc bool :=
  exc_fold (fun (isValid : bool) x => if isValid then check x else Ok false) l isValid.

(** [all(check(x) for x in l)]: stops at the first false. *)
Fixpoint exc_all {A : Type} (check : A -> exc bool) (l : list A) : exc bool :=
  match l with
  | [] => Ok true
  | x :: rest => let! c := check x in if c then exc_all check rest else Ok false
  end.

(** [range(a, b)] *)
Definition range_from (a b : Z) : list Z :=
  map (fun k => a + Z.of_nat k) (seq 0 (Z.to_nat (b - a))).

Lemma elem_of_range_from (a b i : Z) : i ∈ range_from a b <-> a <= i < b.
Proof.
  unfold range_from. rewrite list_elem_of_fmap. split.
  - intros (k & -> & Hk). apply elem_of_seq in Hk. lia.
  - intros Hi. exists (Z.to_nat (i - a)). split; [lia|]. apply elem_of_seq. lia.
Qed.

Lemma exc_fold_nested {A B C : Type} (inner : A -> list B) (g : A -> C -> B -> exc C)
      (l : list A) (c : C) :
  exc_fold (fun c x => exc_fold (g x) (inner x) c) l c
  = exc_fold (fun c p => g (fst p) c (snd p))
             (flat_map (fun x => map (pair x) (inner x)) l) c.
Proof.
  revert c. induction l as [|x l IH]; intros c; [reflexivity|].
  cbn [exc_fold flat_map].
  assert (G : forall (ys : list B) (rest : list (A * B)) c0,
            exc_fold (fun c p => g (fst p) c (snd p)) (map (pair x) ys ++ rest) c0
            = exc_bind (exc_fold (g x) ys c0)
                       (fun c' => exc_fold (fun c p => g (fst p) c (snd p)) rest c')).
  { induction ys as [|y ys IHy]; intros rest c0; cbn [map app exc_fold exc_bind fst snd];
      [reflexivity|].
    destruct (g x c0 y); cbn [exc_bind]; [apply IHy | reflexivity]. }
  rewrite G. destruct (exc_fold (g x) (inner x) c); cbn [exc_bind]; [apply IH | reflexivity].
Qed.

Lemma and_each_Ok {A : Type} (check : A -> exc bool) (l : list A) (isValid r : bool) :
  and_each check l isValid = Ok r ->
  (r = true <-> isValid = true /\ forall x, x ∈ l -> check x = Ok true) /\
  forall x, x ∈ l -> exists c, check x = Ok c.
Proof.
  unfold and_each. revert isValid. induction l as [|x l IH]; intros isValid; cbn [exc_fold].
  - intros [= <-]. split; [|by intros x ?%not_elem_of_nil].
    split; [intros ->; split; [done|]; by intros x ?%not_elem_of_nil | by intros [? _]].
  - destruct (check x) as [c|e] eqn:E; cbn [exc_bind]; [|discriminate].
    intros Hr. destruct (IH _ Hr) as [Hiff Hall]. split.
    + rewrite Hiff, andb_true_iff. split.
      * intros [[-> ->] H]. split; [done|]. intros y [->|Hy]%elem_of_cons; auto.
      * intros [-> H]. split.
        -- split; [done|]. assert (Hx : check x = Ok true) by (apply H, elem_of_cons; by left).
           congruence.
        -- intros y Hy. apply H, elem_of_cons. by right.
    + intros y [->|Hy]%elem_of_cons; [by exists c | by apply Hall].
Qed.

Lemma and_each_total {A : Type} (check : A -> exc bool) (l : list A) (isValid : bool) :
  (forall x, x ∈ l -> exists c, check x = Ok c) ->
  exists r, and_each check l isValid = Ok r.
Proof.
  unfold and_each. revert isValid. induction l as [|x l IH]; intros isValid Hall;
    cbn [exc_fold]; [by eexists|].
  destruct (Hall x) as [c ->]; [apply elem_of_cons; by left|]. cbn [exc_bind].
  apply IH. intros y Hy. apply Hall, elem_of_cons. by right.
Qed.

Lemma and_each_raises {A : Type} (check : A -> exc bool) (l : list A) (isValid : bool)
      (err : PyError) :
  (forall x e, x ∈ l -> check x = Raise e -> e = err) ->
  (exists x e, x ∈ l /\ check x = Raise e) ->
  and_each check l isValid = Raise err.
Proof.
  unfold and_each. revert isValid. induction l as [|x l IH]; intros isValid Honly Hsome;
    cbn [exc_fold].
  - destruct Hsome as (x & e & Hx & _). by apply not_elem_of_nil in Hx.
  - destruct (check x) as [c|e] eqn:E; cbn [exc_bind].
    + apply IH.
      * intros y e Hy. apply Honly, elem_of_cons. by right.
      * destruct Hsome as (y & e & [->|Hy]%elem_of_cons & Hraise); [congruence|].
        by exists y, e.
    + f_equal. apply (Honly x); [apply elem_of_cons; by left | done].
Qed.

Lemma and_while_total {A : Type} (check : A -> exc bool) (l : list A) (isValid : bool) :
  (forall x, x ∈ l -> exists c, check x = Ok c) ->
  exists r, and_while check l isValid = Ok r /\
            (r = true <-> isValid = true /\ forall x, x ∈ l -> check x = Ok true).
Proof.
  unfold and_while. revert isValid. induction l as [|x l IH]; intros isValid Hall;
    cbn [exc_fold].
  - exists isValid. split; [done|]. split; [|by intros [? _]].
    intros ->. split; [done|]. by intros x ?%not_elem_of_nil.
  - assert (Hrest : forall y, y ∈ l -> exists c, check y = Ok c).
    { intros y Hy. apply Hall, elem_of_cons. by right. }
    destruct (Hall x) as [c Hc]; [apply elem_of_cons; by left|].
    destruct isValid.
    + rewrite Hc. cbn [exc_bind]. destruct (IH c Hrest) as (r & Hr & Hiff).
      exists r. split; [done|]. rewrite Hiff. split.
      * intros [-> H]. split; [done|]. intros y [->|Hy]%elem_of_cons; auto.
      * intros [_ H]. split.
        -- assert (Hx : check x = Ok true) by (apply H, elem_of_cons; by left). congruence.
        -- intros y Hy. apply H, elem_of_cons. by right.
    + cbn [exc_bind]. destruct (IH false Hrest) as (r & Hr & Hiff).
      exists r. split; [done|]. rewrite Hiff. naive_solver.
Qed.

Lemma exc_all_total {A : Type} (check : A -> exc bool) (l : list A) :
  (forall x, x ∈ l -> exists c, check x = Ok c) ->
  exists r, exc_all check l = Ok r /\ (r = true <-> forall x, x ∈ l -> check x = Ok true).
Proof.
  induction l as [|x l IH]; intros Hall; cbn [exc_all].
  - exists true. split; [done|]. split; [|done]. by intros _ x ?%not_elem_of_nil.
  - destruct (Hall x) as [c Hc]; [apply elem_of_cons; by left|]. rewrite Hc. cbn [exc_bind].
    destruct c.
    + destruct IH as (r & Hr & Hiff).
      { intros y Hy. apply Hall, elem_of_cons. by right. }
      exists r. split; [done|]. rewrite Hiff. split.
      * intros H y [->|Hy]%elem_of_cons; auto.
      * intros H y Hy. apply H, elem_of_cons. by right.
    + exists false. split; [done|]. split; [done|]. intros H.
      assert (Hx : check x = Ok true) by (apply H, elem_of_cons; by left). congruence.
Qed.

Module SolutionValidation.
Section Checks.
Variable orm : ORM.
(** The teacher objects as they are when the solution is validated. *)
Variable rows : nat -> Teacher.t.

(** [solution.getTimeTableMap()[timeslot]] *)
Definition tuplesAt (solution : Solution.t) (timeslot : Timeslot.t) : exc (list (nat * nat)) :=
  Solution.dict_get (Solution.getTimeTableMap solution) timeslot.

(** [validateTeacherNotAvailableTimes(solution, orm)] *)
Definition validateTeacherNotAvailableTimes (solution : Solution.t) : exc bool :=
  exc_fold (fun isValid teacher =>
    and_while (fun timeslot =>
                 let! tuples := tuplesAt solution timeslot in
                 Ok (negb (py_in teacher
                             (flatMap (fun tu => Lesson.teachers (lesson_row orm (LESSON_IDX tu)))
                                      tuples))))
              (Teacher.not_available_timeslots (rows teacher)) isValid)
    (getTeachers orm) true.

(** [validateForenoonLessons(solution, orm)] *)
Definition validateForenoonLessons (solution : Solution.t) : exc bool :=
  and_while (fun timeslot =>
               let! tuples := tuplesAt solution timeslot in
               Ok (forallb (fun l => negb (Course.only_forenoon
                                             (course_row orm (Lesson.course (lesson_row orm l)))))
                           (map LESSON_IDX tuples)))
            (filter (fun t => py_in (Timeslot.number t) Timeslot.getForenoonTimeslotNumbers
                              = false)
                    (getTimeslots orm))
            true.

(** [validateGivenTimeslots(solution, orm)] *)
Definition validateGivenTimeslots (solution : Solution.t) : exc bool :=
  Ok (fold_left
        (fun (isValid : bool) lesson =>
           if existsb (fun timeslot =>
                         negb (py_in timeslot (Lesson.available_timeslots (lesson_row orm lesson))))
                      (Solution.getTimeslotsOfLesson solution lesson)
           then false else isValid)
        (filter (fun l => length (Lesson.available_timeslots (lesson_row orm l)) <> 0%nat)
                (getLessons orm))
        true).

(** [all(all(teacher not in l[LESSON_IDX].teachers for l in
    solution.getTimeTableMap()[t]) for t in timeslots)] *)
Definition teacherFreeAt (solution : Solution.t) (teacher : nat)
           (timeslots : list Timeslot.t) : exc bool :=
  exc_all (fun t =>
             let! tuples := tuplesAt solution t in
             Ok (forallb (fun l => negb (py_in teacher
                                           (Lesson.teachers (lesson_row orm (LESSON_IDX l)))))
                         tuples))
          timeslots.

(** [validateStudyDays(solution, orm)] *)
Definition validateStudyDays (solution : Solution.t) : exc bool :=
  exc_fold (fun (isValid : bool) teacher =>
    if Teacher.hasStudyday (rows teacher) then
      let studyDay1Timeslots :=
        filter (fun t => Some (Timeslot.weekday t) = Teacher.study_day_1 (rows teacher))
               (getTimeslots orm) in
      let studyDay2Timeslots :=
        filter (fun t => Some (Timeslot.weekday t) = Teacher.study_day_2 (rows teacher))
               (getTimeslots orm) in
      if isValid then
        let! free1 := teacherFreeAt solution teacher studyDay1Timeslots in
        if free1 then Ok true else teacherFreeAt solution teacher studyDay2Timeslots
      else Ok false
    else Ok isValid)
    (getTeachers orm) true.

(** [validateLessonTime(solution, orm)] *)
Definition validateLessonTime (solution : Solution.t) : exc bool :=
  exc_fold (fun isValid lesson =>
    let timeslots := Solution.getTimeslotsOfLesson solution lesson in
    and_each (fun i =>
                let! a := py_index timeslots (i - 1) in
                let! b := py_index timeslots i in
                Ok ((Timeslot.number a + 1 =? Timeslot.number b)
                    && bool_decide (Timeslot.weekday a = Timeslot.weekday b)))
             (range_from 1 (timeslot_size orm lesson)) isValid)
    (getLessons orm) true.

(** [validateLessonTakePlaceOnOneDay(solution, orm)] *)
Definition validateLessonTakePlaceOnOneDay (solution : Solution.t) : exc bool :=
  Ok (fold_left
        (fun (isValid : bool) lesson =>
           if 1 <? timeslot_size orm lesson
           then isValid
                && (length (py_set (map Timeslot.weekday
                                        (Solution.getTimeslotsOfLesson solution lesson)))
                    =? 1)%nat
           else isValid)
        (getLessons orm) true).

(** [validateSameTimeLessons(solution, orm)] *)
Definition validateSameTimeLessons (solution : Solution.t) : exc bool :=
  exc_fold (fun (isValid : bool) lesson =>
    match lessons_at_same_time orm lesson with
    | [] => Ok isValid
    | _ :: _ =>
        let! firsts :=
          exc_map (fun l => py_index (Solution.getTimeslotsOfLesson solution l) 0)
                  (lesson :: lessons_at_same_time orm lesson) in
        Ok (isValid && (1 =? length (py_set firsts))%nat)
    end)
    (getLessons orm) true.

(** [validateConsecutiveLessons(solution, orm)] *)
Definition validateConsecutiveLessons (solution : Solution.t) : exc bool :=
  exc_fold (fun isValid lesson =>
    let! lessonEnd := py_index (Solution.getTimeslotsOfLesson solution lesson) (-1) in
    and_each (fun conLesson =>
                let! conLessonStart :=
                  py_index (Solution.getTimeslotsOfLesson solution conLesson) 0 in
                Ok ((Timeslot.number lessonEnd + 1 =? Timeslot.number conLessonStart)
                    && bool_decide (Timeslot.weekday lessonEnd
                                    = Timeslot.weekday conLessonStart)))
             (Lesson.lessons_consecutive (lesson_row orm lesson)) isValid)
    (getLessons orm) true.

(** [validateBlocksOnlyInSameRoom(solution, orm)]: the room set may hold
    [None], the answer of [getRoomOfLesson] for a lesson without a tuple. *)
Definition validateBlocksOnlyInSameRoom (solution : Solution.t) : exc bool :=
  Ok (fold_left
        (fun (isValid : bool) course =>
           let roomSet := py_set (map (getRoomOfLesson solution)
                                      (Course.lessons (course_row orm course))) in
           isValid && (length roomSet =? 1)%nat)
        (filter (fun c => Course.all_in_one_block (course_row orm c) = true) (getCourses orm))
        true).
End Checks.
End SolutionValidation.

Lemma elem_of_pairs {A B : Type} (inner : A -> list B) (l : list A) (x : A) (y : B) :
  (x, y) ∈ flat_map (fun x => map (pair x) (inner x)) l <-> x ∈ l /\ y ∈ inner x.
Proof.
  rewrite list_elem_of_In, in_flat_map. split.
  - intros (x' & Hx' & Hy). apply list_elem_of_In in Hx', Hy.
    apply list_elem_of_fmap in Hy as (y' & [= -> ->] & Hy'). done.
  - intros [Hx Hy]. exists x. split; [by apply list_elem_of_In|].
    apply list_elem_of_In, list_elem_of_fmap. by exists y.
Qed.

Lemma tuplesAt_key (solution : Solution.t) (t : Timeslot.t) :
  t ∈ timeslotKeys solution ->
  exists tuples, SolutionValidation.tuplesAt solution t = Ok tuples /\
                 Solution.getLessonsAtTimeslot solution t = Ok (map LESSON_IDX tuples).
Proof.
  intros [tuples Ht]%dict_get_Ok. exists tuples. split; [exact Ht|].
  unfold Solution.getLessonsAtTimeslot. by rewrite Ht.
Qed.

Lemma forallb_true_iff {A : Type} (f : A -> bool) (l : list A) :
  forallb f l = true <-> forall x, x ∈ l -> f x = true.
Proof.
  rewrite forallb_forall. split; intros H x Hx; apply H; by apply list_elem_of_In.
Qed.

Section ChecksCorrect.
Variable orm : ORM.
Variable rows : nat -> Teacher.t.
Variable solution : Solution.t.

(** The lessons at a timeslot of the solution. *)
Definition lessonAt (l : nat) (t : Timeslot.t) : Prop :=
  exists lessons, Solution.getLessonsAtTimeslot solution t = Ok lessons /\ l ∈ lessons.

Lemma lessonAt_tuples (t : Timeslot.t) (tuples : list (nat * nat)) (l : nat) :
  SolutionValidation.tuplesAt solution t = Ok tuples ->
  lessonAt l t <-> l ∈ map LESSON_IDX tuples.
Proof.
  intros Ht. unfold lessonAt, Solution.getLessonsAtTimeslot.
  unfold SolutionValidation.tuplesAt, Solution.getTimeTableMap in Ht. rewrite Ht.
  cbn [exc_bind]. split; [by intros (ls & [= <-] & Hl) | intros Hl; by eexists].
Qed.

Lemma teacher_check_true (teacher : nat) (t : Timeslot.t) (tuples : list (nat * nat)) :
  SolutionValidation.tuplesAt solution t = Ok tuples ->
  negb (py_in teacher (flatMap (fun tu => Lesson.teachers (lesson_row orm (LESSON_IDX tu)))
                               tuples)) = true
  <-> forall l, lessonAt l t -> teacher ∉ Lesson.teachers (lesson_row orm l).
Proof.
  intros Ht. rewrite negb_true_iff, py_in_false. unfold flatMap.
  rewrite list_elem_of_In, in_flat_map. split.
  - intros H l Hl Hin. apply (lessonAt_tuples t tuples l Ht) in Hl.
    apply list_elem_of_fmap in Hl as (tu & -> & Htu). apply H. exists tu.
    split; by apply list_elem_of_In.
  - intros H (tu & Htu & Hin). apply list_elem_of_In in Htu, Hin.
    apply (H (LESSON_IDX tu)); [|done]. apply (lessonAt_tuples t tuples _ Ht).
    apply list_elem_of_fmap. by exists tu.
Qed.
End ChecksCorrect.

Lemma validateTeacherNotAvailableTimes_correct (orm : ORM) (rows : nat -> Teacher.t)
        (solution : Solution.t) :
  (forall teacher t, teacher ∈ getTeachers orm ->
     t ∈ Teacher.not_available_timeslots (rows teacher) -> t ∈ timeslotKeys solution) ->
  exists b,
    SolutionValidation.validateTeacherNotAvailableTimes orm rows solution = Ok b /\
    (b = true <->
     forall teacher t l, teacher ∈ getTeachers orm ->
       t ∈ Teacher.not_available_timeslots (rows teacher) ->
       lessonAt solution l t -> teacher ∉ Lesson.teachers (lesson_row orm l)).
Proof.
  intros Hkeys. unfold SolutionValidation.validateTeacherNotAvailableTimes, and_while.
  rewrite (exc_fold_nested (fun teacher => Teacher.not_available_timeslots (rows teacher))
             (fun teacher (isValid : bool) timeslot =>
                if isValid
                then let! tuples := SolutionValidation.tuplesAt solution timeslot in
                     Ok (negb (py_in teacher
                                 (flatMap (fun tu => Lesson.teachers
                                                       (lesson_row orm (LESSON_IDX tu)))
                                          tuples)))
                else Ok false)).
  destruct (and_while_total
              (fun p : nat * Timeslot.t =>
                 let! tuples := SolutionValidation.tuplesAt solution (snd p) in
                 Ok (negb (py_in (fst p)
                             (flatMap (fun tu => Lesson.teachers
                                                   (lesson_row orm (LESSON_IDX tu)))
                                      tuples))))
              (flat_map (fun x => map (pair x) (Teacher.not_available_timeslots (rows x)))
                        (getTeachers orm)) true) as (b & Hb & Hiff).
  { intros [teacher t] [Hteacher Ht]%elem_of_pairs.
    destruct (tuplesAt_key solution t (Hkeys teacher t Hteacher Ht)) as (tuples & E & _).
    cbn [fst snd]. rewrite E. by eexists. }
  exists b. split; [exact Hb|]. rewrite Hiff. split.
  - intros [_ H] teacher t l Hteacher Ht Hl.
    specialize (H (teacher, t) (proj2 (elem_of_pairs _ _ _ _) (conj Hteacher Ht))).
    cbn [fst snd] in H.
    destruct (tuplesAt_key solution t (Hkeys teacher t Hteacher Ht)) as (tuples & E & _).
    rewrite E in H. cbn [exc_bind] in H. injection H as H.
    by apply (teacher_check_true orm solution teacher t tuples E).
  - intros H. split; [done|]. intros [teacher t] [Hteacher Ht]%elem_of_pairs.
    cbn [fst snd].
    destruct (tuplesAt_key solution t (Hkeys teacher t Hteacher Ht)) as (tuples & E & _).
    rewrite E. cbn [exc_bind]. f_equal.
    apply (teacher_check_true orm solution teacher t tuples E). intros l Hl.
    by apply (H teacher t l).
Qed.

(** When the timeslots at which the teachers are not available are keys of
    the solution, [validateTeacherNotAvailableTimes] returns, and it returns
    [True] exactly when no lesson of a teacher is at a timeslot at which the
    teacher is not available. *)
Theorem validateTeacherNotAvailableTimes_iff (orm : ORM) (rows : nat -> Teacher.t)
        (solution : Solution.t) :
  (forall teacher t, teacher ∈ getTeachers orm ->
     t ∈ Teacher.not_available_timeslots (rows teacher) -> t ∈ timeslotKeys solution) ->
  exists b,
    SolutionValidation.validateTeacherNotAvailableTimes orm rows solution = Ok b /\
    (b = true <->
     forall teacher t l, teacher ∈ getTeachers orm ->
       t ∈ Teacher.not_available_timeslots (rows teacher) ->
       lessonAt solution l t -> teacher ∉ Lesson.teachers (lesson_row orm l)).
Proof. exact (validateTeacherNotAvailableTimes_correct orm rows solution). Qed.

Lemma validateForenoonLessons_correct (orm : ORM) (solution : Solution.t) :
  (forall t, t ∈ getTimeslots orm -> t ∈ timeslotKeys solution) ->
  exists b,
    SolutionValidation.validateForenoonLessons orm solution = Ok b /\
    (b = true <->
     forall t l, t ∈ getTimeslots orm ->
       Timeslot.number t ∉ Timeslot.getForenoonTimeslotNumbers ->
       lessonAt solution l t ->
       Course.only_forenoon (course_row orm (Lesson.course (lesson_row orm l))) = false).
Proof.
  intros Hkeys. unfold SolutionValidation.validateForenoonLessons.
  match goal with
  | |- exists b, and_while ?check ?l true = Ok b /\ _ =>
      destruct (and_while_total check l true) as (b & Hb & Hiff)
  end.
  { intros t [_ Ht]%list_elem_of_filter.
    destruct (tuplesAt_key solution t (Hkeys t Ht)) as (tuples & E & _).
    rewrite E. by eexists. }
  exists b. split; [exact Hb|]. rewrite Hiff. split.
  - intros [_ H] t l Ht Hn Hl.
    destruct (tuplesAt_key solution t (Hkeys t Ht)) as (tuples & E & _).
    specialize (H t). rewrite E in H. cbn [exc_bind] in H.
    assert (Hf : forallb (fun l => negb (Course.only_forenoon
                                           (course_row orm (Lesson.course (lesson_row orm l)))))
                         (map LESSON_IDX tuples) = true).
    { assert (Ht' : t ∈ filter (fun t => py_in (Timeslot.number t)
                                               Timeslot.getForenoonTimeslotNumbers = false)
                               (getTimeslots orm)).
      { apply list_elem_of_filter. split; [by apply py_in_false | done]. }
      specialize (H Ht'). by injection H. }
    rewrite forallb_true_iff in Hf. apply negb_true_iff, Hf.
    by apply (lessonAt_tuples solution t tuples l E).
  - intros H. split; [done|]. intros t [Hn Ht]%list_elem_of_filter.
    apply py_in_false in Hn.
    destruct (tuplesAt_key solution t (Hkeys t Ht)) as (tuples & E & _).
    rewrite E. cbn [exc_bind]. f_equal. apply forallb_true_iff. intros l Hl.
    apply negb_true_iff. apply (H t l Ht Hn).
    by apply (lessonAt_tuples solution t tuples l E).
Qed.

(** When the timeslots of the catalog are keys of the solution,
    [validateForenoonLessons] returns, and it returns [True] exactly when no
    lesson of a forenoon-only course is at a timeslot whose number is not a
    forenoon number. *)
Theorem validateForenoonLessons_iff (orm : ORM) (solution : Solution.t) :
  (forall t, t ∈ getTimeslots orm -> t ∈ timeslotKeys solution) ->
  exists b,
    SolutionValidation.validateForenoonLessons orm solution = Ok b /\
    (b = true <->
     forall t l, t ∈ getTimeslots orm ->
       Timeslot.number t ∉ Timeslot.getForenoonTimeslotNumbers ->
       lessonAt solution l t ->
       Course.only_forenoon (course_row orm (Lesson.course (lesson_row orm l))) = false).
Proof. exact (validateForenoonLessons_correct orm solution). Qed.

Lemma fold_left_unless {A : Type} (bad : A -> bool) (l : list A) (isValid : bool) :
  fold_left (fun (isValid : bool) x => if bad x then false else isValid) l isValid = true
  <-> isValid = true /\ forall x, x ∈ l -> bad x = false.
Proof.
  revert isValid. induction l as [|x l IH]; intros isValid; cbn [fold_left].
  - split; [intros ->; split; [done|]; by intros x ?%not_elem_of_nil | by intros [? _]].
  - rewrite IH. split.
    + intros [Hv H]. destruct (bad x) eqn:E; [done|]. split; [done|].
      intros y [->|Hy]%elem_of_cons; auto.
    + intros [-> H]. rewrite (H x) by (apply elem_of_cons; by left). split; [done|].
      intros y Hy. apply H, elem_of_cons. by right.
Qed.

Lemma fold_left_andb {A : Type} (ok : A -> bool) (l : list A) (isValid : bool) :
  fold_left (fun (isValid : bool) x => isValid && ok x) l isValid = true
  <-> isValid = true /\ forall x, x ∈ l -> ok x = true.
Proof.
  revert isValid. induction l as [|x l IH]; intros isValid; cbn [fold_left].
  - split; [intros ->; split; [done|]; by intros x ?%not_elem_of_nil | by intros [? _]].
  - rewrite IH, andb_true_iff. split.
    + intros [[-> Hx] H]. split; [done|]. intros y [->|Hy]%elem_of_cons; auto.
    + intros [-> H]. split; [split; [done|]; apply H, elem_of_cons; by left|].
      intros y Hy. apply H, elem_of_cons. by right.
Qed.

Lemma validateGivenTimeslots_correct (orm : ORM) (solution : Solution.t) :
  exists b,
    SolutionValidation.validateGivenTimeslots orm solution = Ok b /\
    (b = true <->
     forall lesson t, lesson ∈ getLessons orm ->
       Lesson.available_timeslots (lesson_row orm lesson) <> [] ->
       t ∈ Solution.getTimeslotsOfLesson solution lesson ->
       t ∈ Lesson.available_timeslots (lesson_row orm lesson)).
Proof.
  unfold SolutionValidation.validateGivenTimeslots. eexists. split; [reflexivity|].
  rewrite fold_left_unless. split.
  - intros [_ H] lesson t Hl Hne Ht.
    assert (Hin : lesson ∈ filter (fun l => length (Lesson.available_timeslots
                                                      (lesson_row orm l)) <> 0%nat)
                                  (getLessons orm)).
    { apply list_elem_of_filter. split; [|done].
      by destruct (Lesson.available_timeslots (lesson_row orm lesson)). }
    specialize (H lesson Hin). apply not_true_iff_false in H.
    destruct (decide (t ∈ Lesson.available_timeslots (lesson_row orm lesson))) as [|Hnot];
      [done|].
    exfalso. apply H. apply existsb_exists. exists t. split; [by apply list_elem_of_In|].
    by apply negb_true_iff, py_in_false.
  - intros H. split; [done|]. intros lesson [Hlen Hl]%list_elem_of_filter.
    apply not_true_iff_false. intros (t & Ht & Hn)%existsb_exists.
    apply list_elem_of_In in Ht. apply negb_true_iff, py_in_false in Hn. apply Hn.
    apply (H lesson t Hl); [|done]. intros E. by rewrite E in Hlen.
Qed.

(** [validateGivenTimeslots] never raises, and it returns [True] exactly
    when every lesson with a non-empty [available_timeslots] has all its
    timeslots in that list. *)
Theorem validateGivenTimeslots_iff (orm : ORM) (solution : Solution.t) :
  exists b,
    SolutionValidation.validateGivenTimeslots orm solution = Ok b /\
    (b = true <->
     forall lesson t, lesson ∈ getLessons orm ->
       Lesson.available_timeslots (lesson_row orm lesson) <> [] ->
       t ∈ Solution.getTimeslotsOfLesson solution lesson ->
       t ∈ Lesson.available_timeslots (lesson_row orm lesson)).
Proof. exact (validateGivenTimeslots_correct orm solution). Qed.

Section StudyDaysCorrect.
Variable orm : ORM.
Variable rows : nat -> Teacher.t.
Variable solution : Solution.t.
Hypothesis keys : forall t, t ∈ getTimeslots orm -> t ∈ timeslotKeys solution.

(** The teacher has no lesson on a weekday. *)
Definition freeOn (teacher : nat) (day : option Weekday) : Prop :=
  forall t l, t ∈ getTimeslots orm -> Some (Timeslot.weekday t) = day ->
              lessonAt solution l t -> teacher ∉ Lesson.teachers (lesson_row orm l).

Lemma teacherFreeAt_day (teacher : nat) (day : option Weekday) :
  exists b,
    SolutionValidation.teacherFreeAt orm solution teacher
      (filter (fun t => Some (Timeslot.weekday t) = day) (getTimeslots orm)) = Ok b /\
    (b = true <-> freeOn teacher day).
Proof.
  unfold SolutionValidation.teacherFreeAt.
  match goal with
  | |- exists b, exc_all ?check ?l = Ok b /\ _ =>
      destruct (exc_all_total check l) as (b & Hb & Hiff)
  end.
  { intros t [_ Ht]%list_elem_of_filter.
    destruct (tuplesAt_key solution t (keys t Ht)) as (tuples & E & _).
    rewrite E. by eexists. }
  exists b. split; [exact Hb|]. rewrite Hiff. unfold freeOn. split.
  - intros H t l Ht Hd Hl.
    destruct (tuplesAt_key solution t (keys t Ht)) as (tuples & E & _).
    specialize (H t). rewrite E in H. cbn [exc_bind] in H.
    assert (Hf : forallb (fun l => negb (py_in teacher
                                           (Lesson.teachers (lesson_row orm (LESSON_IDX l)))))
                         tuples = true).
    { assert (Ht' : t ∈ filter (fun t => Some (Timeslot.weekday t) = day) (getTimeslots orm))
        by (by apply list_elem_of_filter).
      specialize (H Ht'). by injection H. }
    rewrite forallb_true_iff in Hf.
    apply (lessonAt_tuples solution t tuples l E) in Hl.
    apply list_elem_of_fmap in Hl as (tu & -> & Htu).
    by apply py_in_false, negb_true_iff, Hf.
  - intros H t [Hd Ht]%list_elem_of_filter.
    destruct (tuplesAt_key solution t (keys t Ht)) as (tuples & E & _).
    rewrite E. cbn [exc_bind]. f_equal. apply forallb_true_iff. intros tu Htu.
    apply negb_true_iff, py_in_false. apply (H t _ Ht Hd).
    apply (lessonAt_tuples solution t tuples _ E). apply list_elem_of_fmap. by exists tu.
Qed.

(** The check of one teacher in [validateStudyDays]. *)
Definition studyDayCheck (teacher : nat) : exc bool :=
  if Teacher.hasStudyday (rows teacher) then
    let! free1 :=
      SolutionValidation.teacherFreeAt orm solution teacher
        (filter (fun t => Some (Timeslot.weekday t) = Teacher.study_day_1 (rows teacher))
                (getTimeslots orm)) in
    if free1 then Ok true
    else SolutionValidation.teacherFreeAt orm solution teacher
           (filter (fun t => Some (Timeslot.weekday t) = Teacher.study_day_2 (rows teacher))
                   (getTimeslots orm))
  else Ok true.

Lemma validateStudyDays_and_while :
  SolutionValidation.validateStudyDays orm rows solution
  = and_while studyDayCheck (getTeachers orm) true.
Proof.
  unfold SolutionValidation.validateStudyDays, and_while. apply exc_fold_ext.
  intros isValid teacher. unfold studyDayCheck.
  destruct (Teacher.hasStudyday (rows teacher)); [done|]. by destruct isValid.
Qed.

Lemma studyDayCheck_iff (teacher : nat) :
  exists b, studyDayCheck teacher = Ok b /\
    (b = true <->
     (Teacher.hasStudyday (rows teacher) = true ->
      freeOn teacher (Teacher.study_day_1 (rows teacher)) \/
      freeOn teacher (Teacher.study_day_2 (rows teacher)))).
Proof.
  unfold studyDayCheck. destruct (Teacher.hasStudyday (rows teacher)).
  - destruct (teacherFreeAt_day teacher (Teacher.study_day_1 (rows teacher)))
      as (b1 & E1 & H1).
    destruct (teacherFreeAt_day teacher (Teacher.study_day_2 (rows teacher)))
      as (b2 & E2 & H2).
    rewrite E1. cbn [exc_bind]. destruct b1.
    + exists true. split; [done|]. split; [|done]. intros _ _. left. by apply H1.
    + exists b2. split; [done|]. rewrite H2. split; [intros Hf _; by right|].
      intros H. destruct (H eq_refl) as [Hf|Hf]; [|done]. by apply H1 in Hf.
  - exists true. split; [done|]. split; [|done]. by intros _ ?.
Qed.
End StudyDaysCorrect.

(** When the timeslots of the catalog are keys of the solution,
    [validateStudyDays] returns, and it returns [True] exactly when every
    teacher with two study days has no lesson on the first or no lesson on
    the second. *)
Theorem validateStudyDays_iff (orm : ORM) (rows : nat -> Teacher.t) (solution : Solution.t) :
  (forall t, t ∈ getTimeslots orm -> t ∈ timeslotKeys solution) ->
  exists b,
    SolutionValidation.validateStudyDays orm rows solution = Ok b /\
    (b = true <->
     forall teacher, teacher ∈ getTeachers orm ->
       Teacher.hasStudyday (rows teacher) = true ->
       freeOn orm solution teacher (Teacher.study_day_1 (rows teacher)) \/
       freeOn orm solution teacher (Teacher.study_day_2 (rows teacher))).
Proof.
  intros Hkeys. rewrite validateStudyDays_and_while.
  destruct (and_while_total (studyDayCheck orm rows solution) (getTeachers orm) true)
    as (b & Hb & Hiff).
  { intros teacher _. destruct (studyDayCheck_iff orm rows solution Hkeys teacher)
      as (c & Hc & _). by exists c. }
  exists b. split; [exact Hb|]. rewrite Hiff. split.
  - intros [_ H] teacher Hteacher.
    destruct (studyDayCheck_iff orm rows solution Hkeys teacher) as (c & Hc & Hciff).
    apply Hciff. specialize (H teacher Hteacher). congruence.
  - intros H. split; [done|]. intros teacher Hteacher.
    destruct (studyDayCheck_iff orm rows solution Hkeys teacher) as (c & Hc & Hciff).
    rewrite Hc. f_equal. apply Hciff. by apply H.
Qed.

(** A solution over the timeslots of the catalog that places every lesson
    only at timeslots that [getAvailableTimeslots] returns for it passes the
    three availability checks: the teachers' unavailable timeslots, the
    forenoon-only courses and the given timeslots of the lessons. *)
Theorem available_placement_passes_availability_checks (orm : ORM)
        (rows : nat -> Teacher.t) (solution : Solution.t) :
  NoDup (timeslotKeys solution) ->
  (forall t, t ∈ getTimeslots orm -> t ∈ timeslotKeys solution) ->
  (forall teacher t, teacher ∈ getTeachers orm ->
     t ∈ Teacher.not_available_timeslots (rows teacher) -> t ∈ getTimeslots orm) ->
  (forall l t, lessonAt solution l t ->
     t ∈ getAvailableTimeslots orm rows (lesson_row orm l) (getTimeslots orm)) ->
  SolutionValidation.validateTeacherNotAvailableTimes orm rows solution = Ok true /\
  SolutionValidation.validateForenoonLessons orm solution = Ok true /\
  SolutionValidation.validateGivenTimeslots orm solution = Ok true.
Proof.
  intros Hnd Hkeys Hna Havail.
  assert (Hprops : forall l t, lessonAt solution l t ->
            (forall teacher, teacher ∈ Lesson.teachers (lesson_row orm l) ->
               t ∉ Teacher.not_available_timeslots (rows teacher)) /\
            (Course.only_forenoon (course_row orm (Lesson.course (lesson_row orm l))) = true ->
               Timeslot.number t ∈ Timeslot.getForenoonTimeslotNumbers) /\
            (Lesson.available_timeslots (lesson_row orm l) <> [] ->
               t ∈ Lesson.available_timeslots (lesson_row orm l))).
  { intros l t Hl. specialize (Havail l t Hl).
    apply (proj2 (getAvailableTimeslots_correct orm rows (lesson_row orm l) (getTimeslots orm)))
      in Havail.
    tauto. }
  split; [|split].
  - destruct (validateTeacherNotAvailableTimes_correct orm rows solution) as (b & -> & Hiff).
    { intros teacher t Hteacher Ht. by eapply Hkeys, Hna. }
    f_equal. apply Hiff. intros teacher t l Hteacher Ht Hl Hin.
    destruct (Hprops l t Hl) as (H1 & _). by apply (H1 teacher).
  - destruct (validateForenoonLessons_correct orm solution Hkeys) as (b & -> & Hiff).
    f_equal. apply Hiff. intros t l Ht Hn Hl.
    destruct (Hprops l t Hl) as (_ & H2 & _).
    destruct (Course.only_forenoon (course_row orm (Lesson.course (lesson_row orm l))));
      [|done].
    exfalso. by apply Hn, H2.
  - destruct (validateGivenTimeslots_correct orm solution) as (b & -> & Hiff).
    f_equal. apply Hiff. intros lesson t Hlesson Hne Ht.
    apply (timeslotsOfLesson_lessonsAt solution lesson t Hnd) in Ht.
    destruct (Hprops lesson t Ht) as (_ & _ & H3). by apply H3.
Qed.

Lemma py_index_cases {A : Type} (l : list A) (i : Z) :
  0 <= i ->
  match py_index l i with
  | Ok x => l !! Z.to_nat i = Some x
  | Raise e => e = IndexError /\ (length l <= Z.to_nat i)%nat
  end.
Proof.
  intros Hi. unfold py_index.
  destruct (Z.leb_spec 0 i); [|lia]. destruct (Z.ltb_spec i 0); [lia|].
  destruct (l !! Z.to_nat i) eqn:E; [done|]. split; [done|].
  by apply lookup_ge_None.
Qed.

Lemma py_index_last_cases {A : Type} (l : list A) :
  match py_index l (-1) with
  | Ok x => last l = Some x
  | Raise e => e = IndexError /\ l = []
  end.
Proof.
  destruct l as [|x0 l]; [done|].
  destruct (py_index_last (x0 :: l)) as (x & -> & Hx); [done|].
  rewrite last_lookup. cbn [length pred]. cbn [length] in Hx.
  by replace (S (length l) - 1)%nat with (length l) in Hx by lia.
Qed.

Lemma exc_fold_ext_in {A B : Type} (f g : B -> A -> exc B) (l : list A) (b : B) :
  (forall b x, x ∈ l -> f b x = g b x) -> exc_fold f l b = exc_fold g l b.
Proof.
  revert b. induction l as [|x l IH]; intros b Hfg; [reflexivity|].
  cbn [exc_fold]. rewrite Hfg by (apply elem_of_cons; by left).
  destruct (g b x); cbn [exc_bind]; [|reflexivity].
  apply IH. intros b' y Hy. apply Hfg, elem_of_cons. by right.
Qed.

Lemma exc_fold_raises_only {A B : Type} (f : B -> A -> exc B) (l : list A) (b : B)
      (err : PyError) :
  (forall b x e, x ∈ l -> f b x = Raise e -> e = err) ->
  (exists x, x ∈ l /\ forall b, exists e, f b x = Raise e) ->
  exc_fold f l b = Raise err.
Proof.
  revert b. induction l as [|x l IH]; intros b Honly Hsome; cbn [exc_fold].
  - destruct Hsome as (x & Hx & _). by apply not_elem_of_nil in Hx.
  - destruct (f b x) as [b'|e] eqn:E; cbn [exc_bind].
    + apply IH.
      * intros b0 y e Hy. apply Honly, elem_of_cons. by right.
      * destruct Hsome as (y & [->|Hy]%elem_of_cons & Hraise).
        -- destruct (Hraise b) as [e He]. congruence.
        -- by exists y.
    + f_equal. apply (Honly b x); [apply elem_of_cons; by left | done].
Qed.

Lemma and_each_only_raises {A : Type} (check : A -> exc bool) (l : list A) (isValid : bool)
      (err e : PyError) :
  (forall x e, x ∈ l -> check x = Raise e -> e = err) ->
  and_each check l isValid = Raise e -> e = err.
Proof.
  unfold and_each. revert isValid. induction l as [|x l IH]; intros isValid Honly;
    cbn [exc_fold]; [discriminate|].
  destruct (check x) as [c|e'] eqn:E; cbn [exc_bind].
  - apply IH. intros y e0 Hy. apply Honly, elem_of_cons. by right.
  - intros [= <-]. apply (Honly x); [apply elem_of_cons; by left | done].
Qed.

Lemma length_py_set_one {A : Type} `{EqDecision A} (l : list A) :
  length (py_set l) = 1%nat <-> exists x, l <> [] /\ forall y, y ∈ l -> y = x.
Proof.
  split.
  - intros Hlen. destruct (py_set l) as [|x [|x' s]] eqn:E; try discriminate.
    exists x. split.
    + intros ->. discriminate E.
    + intros y Hy. rewrite <- (elem_of_py_set l y), E in Hy.
      by apply list_elem_of_singleton in Hy.
  - intros (x & Hne & Hall). destruct l as [|y l]; [done|]. cbn [py_set length]. f_equal.
    assert (y = x) as -> by (apply Hall, elem_of_cons; by left).
    destruct (filter (fun z => z <> x) (py_set l)) as [|z s] eqn:E; [done|].
    assert (Hz : z ∈ filter (fun z => z <> x) (py_set l)) by (rewrite E; apply elem_of_cons; by left).
    apply list_elem_of_filter in Hz as [Hzx Hz]. rewrite elem_of_py_set in Hz.
    exfalso. apply Hzx, Hall, elem_of_cons. by right.
Qed.

Lemma fold_left_andb_if {A : Type} (cond ok : A -> bool) (l : list A) (isValid : bool) :
  fold_left (fun (isValid : bool) x => if cond x then isValid && ok x else isValid) l isValid
  = true
  <-> isValid = true /\ forall x, x ∈ l -> cond x = true -> ok x = true.
Proof.
  revert isValid. induction l as [|x l IH]; intros isValid; cbn [fold_left].
  - split; [intros ->; split; [done|]; by intros x ?%not_elem_of_nil | by intros [? _]].
  - rewrite IH. destruct (cond x) eqn:Ec.
    + rewrite andb_true_iff. split.
      * intros [[-> Hx] H]. split; [done|]. intros y [->|Hy]%elem_of_cons; auto.
      * intros [-> H]. split; [split; [done|]; apply H; [apply elem_of_cons; by left | done]|].
        intros y Hy. apply H, elem_of_cons. by right.
    + split.
      * intros [-> H]. split; [done|]. intros y [->|Hy]%elem_of_cons; [congruence | auto].
      * intros [-> H]. split; [done|]. intros y Hy. apply H, elem_of_cons. by right.
Qed.

(** [validateLessonTakePlaceOnOneDay] never raises, and it returns [True]
    exactly when every lesson of more than one timeslot has a timeslot and
    has all its timeslots on one weekday: a lesson of more than one timeslot
    that is not placed makes it [False]. *)
Theorem validateLessonTakePlaceOnOneDay_iff (orm : ORM) (solution : Solution.t) :
  exists b,
    SolutionValidation.validateLessonTakePlaceOnOneDay orm solution = Ok b /\
    (b = true <->
     forall lesson, lesson ∈ getLessons orm -> 1 < timeslot_size orm lesson ->
       exists day, Solution.getTimeslotsOfLesson solution lesson <> [] /\
         forall t, t ∈ Solution.getTimeslotsOfLesson solution lesson ->
                   Timeslot.weekday t = day).
Proof.
  unfold SolutionValidation.validateLessonTakePlaceOnOneDay. eexists. split; [reflexivity|].
  rewrite (fold_left_andb_if (fun lesson => 1 <? timeslot_size orm lesson)
             (fun lesson => (length (py_set (map Timeslot.weekday
                                (Solution.getTimeslotsOfLesson solution lesson))) =? 1)%nat)).
  assert (Hone : forall lesson,
            (length (py_set (map Timeslot.weekday
                               (Solution.getTimeslotsOfLesson solution lesson))) =? 1)%nat = true
            <-> exists day, Solution.getTimeslotsOfLesson solution lesson <> [] /\
                  forall t, t ∈ Solution.getTimeslotsOfLesson solution lesson ->
                            Timeslot.weekday t = day).
  { intros lesson. rewrite Nat.eqb_eq, length_py_set_one. split.
    - intros (day & Hne & Hall). exists day. split.
      + intros E. by rewrite E in Hne.
      + intros t Ht. apply Hall, list_elem_of_fmap. by exists t.
    - intros (day & Hne & Hall). exists day. split.
      + by destruct (Solution.getTimeslotsOfLesson solution lesson).
      + intros d (t & -> & Ht)%list_elem_of_fmap. by apply Hall. }
  split.
  - intros [_ H] lesson Hl Hsize. apply Hone, H; [done|]. by apply Z.ltb_lt.
  - intros H. split; [done|]. intros lesson Hl Hsize. apply Hone, H; [done|].
    by apply Z.ltb_lt.
Qed.

(** [validateBlocksOnlyInSameRoom] never raises, and it returns [True]
    exactly when every all-in-one-block course has a lesson and
    [getRoomOfLesson] gives one and the same answer for all its lessons; the
    answer may be [None], so a block course none of whose lessons is placed
    passes. *)
Theorem validateBlocksOnlyInSameRoom_iff (orm : ORM) (solution : Solution.t) :
  exists b,
    SolutionValidation.validateBlocksOnlyInSameRoom orm solution = Ok b /\
    (b = true <->
     forall course, course ∈ getCourses orm ->
       Course.all_in_one_block (course_row orm course) = true ->
       exists room : option nat,
         Course.lessons (course_row orm course) <> [] /\
         forall lesson, lesson ∈ Course.lessons (course_row orm course) ->
                        getRoomOfLesson solution lesson = room).
Proof.
  unfold SolutionValidation.validateBlocksOnlyInSameRoom. eexists. split; [reflexivity|].
  rewrite (fold_left_andb
             (fun course => (length (py_set (map (getRoomOfLesson solution)
                                (Course.lessons (course_row orm course)))) =? 1)%nat)).
  assert (Hone : forall course,
            (length (py_set (map (getRoomOfLesson solution)
                               (Course.lessons (course_row orm course)))) =? 1)%nat = true
            <-> exists room : option nat,
                  Course.lessons (course_row orm course) <> [] /\
                  forall lesson, lesson ∈ Course.lessons (course_row orm course) ->
                                 getRoomOfLesson solution lesson = room).
  { intros course. rewrite Nat.eqb_eq, length_py_set_one. split.
    - intros (room & Hne & Hall). exists room. split.
      + intros E. by rewrite E in Hne.
      + intros lesson Hl. apply Hall, list_elem_of_fmap. by exists lesson.
    - intros (room & Hne & Hall). exists room. split.
      + by destruct (Course.lessons (course_row orm course)).
      + intros r (lesson & -> & Hl)%list_elem_of_fmap. by apply Hall. }
  split.
  - intros [_ H] course Hc Hblock. apply Hone, H. by apply list_elem_of_filter.
  - intros H. split; [done|]. intros course [Hblock Hc]%list_elem_of_filter.
    by apply Hone, H.
Qed.

Section LessonTimeCorrect.
Variable orm : ORM.
Variable solution : Solution.t.

(** A lesson of two or more timeslots with fewer timeslots in the solution
    than its size. *)
Definition tooFewTimeslots (lesson : nat) : Prop :=
  2 <= timeslot_size orm lesson /\
  Z.of_nat (length (Solution.getTimeslotsOfLesson solution lesson)) < timeslot_size orm lesson.

(** The comparison of [validateLessonTime] for the timeslots [i - 1] and [i]
    of a lesson. *)
Definition lessonTimeCheck (p : nat * Z) : exc bool :=
  let timeslots := Solution.getTimeslotsOfLesson solution (fst p) in
  let! a := py_index timeslots (snd p - 1) in
  let! b := py_index timeslots (snd p) in
  Ok ((Timeslot.number a + 1 =? Timeslot.number b)
      && bool_decide (Timeslot.weekday a = Timeslot.weekday b)).

Definition lessonTimePairs : list (nat * Z) :=
  flat_map (fun lesson => map (pair lesson) (range_from 1 (timeslot_size orm lesson)))
           (getLessons orm).

Lemma validateLessonTime_pairs :
  SolutionValidation.validateLessonTime orm solution
  = and_each lessonTimeCheck lessonTimePairs true.
Proof.
  unfold SolutionValidation.validateLessonTime, and_each, lessonTimePairs.
  by rewrite (exc_fold_nested (fun lesson => range_from 1 (timeslot_size orm lesson))
                (fun lesson (isValid : bool) i =>
                   let! c := lessonTimeCheck (lesson, i) in Ok (isValid && c))).
Qed.

Lemma lessonTimeCheck_cases (lesson : nat) (i : Z) :
  1 <= i ->
  match lessonTimeCheck (lesson, i) with
  | Ok c =>
      exists a b,
        Solution.getTimeslotsOfLesson solution lesson !! Z.to_nat (i - 1) = Some a /\
        Solution.getTimeslotsOfLesson solution lesson !! Z.to_nat i = Some b /\
        (c = true <-> Timeslot.number a + 1 = Timeslot.number b /\
                      Timeslot.weekday a = Timeslot.weekday b)
  | Raise e =>
      e = IndexError /\
      (length (Solution.getTimeslotsOfLesson solution lesson) <= Z.to_nat i)%nat
  end.
Proof.
  intros Hi. unfold lessonTimeCheck. cbn [fst snd].
  pose proof (py_index_cases (Solution.getTimeslotsOfLesson solution lesson) (i - 1)) as H1.
  pose proof (py_index_cases (Solution.getTimeslotsOfLesson solution lesson) i) as H2.
  destruct (py_index (Solution.getTimeslotsOfLesson solution lesson) (i - 1)) as [a|e1];
    cbn [exc_bind].
  - destruct (py_index (Solution.getTimeslotsOfLesson solution lesson) i) as [b|e2];
      cbn [exc_bind].
    + exists a, b. split; [apply H1; lia|]. split; [apply H2; lia|].
      rewrite andb_true_iff, Z.eqb_eq, bool_decide_eq_true. done.
    + apply H2. lia.
  - destruct H1 as [-> Hlen]; [lia|]. split; [done|]. lia.
Qed.

Lemma validateLessonTime_raises :
  (exists lesson, lesson ∈ getLessons orm /\ tooFewTimeslots lesson) ->
  SolutionValidation.validateLessonTime orm solution = Raise IndexError.
Proof.
  intros (lesson & Hl & Hsize & Hlen). rewrite validateLessonTime_pairs.
  apply and_each_raises.
  - intros [l i] e [_ Hi%elem_of_range_from]%elem_of_pairs Hraise.
    pose proof (lessonTimeCheck_cases l i) as H. rewrite Hraise in H. apply H. lia.
  - pose proof (lessonTimeCheck_cases lesson (timeslot_size orm lesson - 1)) as H.
    destruct (lessonTimeCheck (lesson, timeslot_size orm lesson - 1)) as [c|e] eqn:E.
    + destruct H as (a & b & _ & Hb & _); [lia|].
      apply lookup_lt_Some in Hb. lia.
    + exists (lesson, timeslot_size orm lesson - 1), e. split; [|done].
      apply elem_of_pairs. split; [done|]. apply elem_of_range_from. lia.
Qed.

Lemma validateLessonTime_returns :
  (forall lesson, lesson ∈ getLessons orm -> ~ tooFewTimeslots lesson) ->
  exists b,
    SolutionValidation.validateLessonTime orm solution = Ok b /\
    (b = true <->
     forall lesson (i : Z) a b, lesson ∈ getLessons orm ->
       1 <= i < timeslot_size orm lesson ->
       Solution.getTimeslotsOfLesson solution lesson !! Z.to_nat (i - 1) = Some a ->
       Solution.getTimeslotsOfLesson solution lesson !! Z.to_nat i = Some b ->
       Timeslot.number a + 1 = Timeslot.number b /\
       Timeslot.weekday a = Timeslot.weekday b).
Proof.
  intros Henough. rewrite validateLessonTime_pairs.
  assert (Hok : forall lesson i, lesson ∈ getLessons orm -> 1 <= i < timeslot_size orm lesson ->
            exists c, lessonTimeCheck (lesson, i) = Ok c).
  { intros lesson i Hl Hi. pose proof (lessonTimeCheck_cases lesson i) as H.
    destruct (lessonTimeCheck (lesson, i)) as [c|e]; [by exists c|].
    destruct H as [_ Hlen]; [lia|]. exfalso. apply (Henough lesson Hl). split; lia. }
  destruct (and_each_total lessonTimeCheck lessonTimePairs true) as [b Hb].
  { intros [lesson i] [Hl Hi%elem_of_range_from]%elem_of_pairs. by apply Hok. }
  exists b. split; [exact Hb|].
  destruct (and_each_Ok _ _ _ _ Hb) as [Hiff _]. rewrite Hiff. split.
  - intros [_ H] lesson i a b0 Hl Hi Ha Hb0.
    specialize (H (lesson, i)).
    pose proof (lessonTimeCheck_cases lesson i) as Hc. rewrite H in Hc.
    + destruct Hc as (a' & b' & Ha' & Hb' & Hiff'); [lia|].
      assert (a' = a) by congruence. assert (b' = b0) by congruence. subst. by apply Hiff'.
    + apply elem_of_pairs. split; [done|]. apply elem_of_range_from. lia.
  - intros H. split; [done|].
    intros [lesson i] [Hl Hi%elem_of_range_from]%elem_of_pairs.
    destruct (Hok lesson i Hl Hi) as [c Hc]. rewrite Hc. f_equal.
    pose proof (lessonTimeCheck_cases lesson i) as Hcase. rewrite Hc in Hcase.
    destruct Hcase as (a & b0 & Ha & Hb0 & Hiff'); [lia|].
    apply Hiff'. by apply (H lesson i a b0).
Qed.
End LessonTimeCorrect.

(** [validateLessonTime] raises [IndexError] when a lesson of two or more
    timeslots has fewer timeslots in the solution than its size. Otherwise it
    returns, and it returns [True] exactly when, for every lesson, each of
    its first [timeslot_size] timeslots but the first has the number after
    that of the timeslot before it and the same weekday. *)
Theorem validateLessonTime_raises_or_checks_blocks (orm : ORM) (solution : Solution.t) :
  ((exists lesson, lesson ∈ getLessons orm /\ tooFewTimeslots orm solution lesson) ->
   SolutionValidation.validateLessonTime orm solution = Raise IndexError) /\
  ((forall lesson, lesson ∈ getLessons orm -> ~ tooFewTimeslots orm solution lesson) ->
   exists b,
     SolutionValidation.validateLessonTime orm solution = Ok b /\
     (b = true <->
      forall lesson (i : Z) a b, lesson ∈ getLessons orm ->
        1 <= i < timeslot_size orm lesson ->
        Solution.getTimeslotsOfLesson solution lesson !! Z.to_nat (i - 1) = Some a ->
        Solution.getTimeslotsOfLesson solution lesson !! Z.to_nat i = Some b ->
        Timeslot.number a + 1 = Timeslot.number b /\
        Timeslot.weekday a = Timeslot.weekday b)).
Proof.
  split; [apply validateLessonTime_raises | apply validateLessonTime_returns].
Qed.

Lemma exc_map_total {A B : Type} (f : A -> exc B) (l : list A) :
  (forall x, x ∈ l -> exists y, f x = Ok y) ->
  exists ys, exc_map f l = Ok ys /\ Forall2 (fun x y => f x = Ok y) l ys.
Proof.
  induction l as [|x l IH]; intros Hall; cbn [exc_map].
  - exists []. split; [done | constructor].
  - destruct (Hall x) as [y Hy]; [apply elem_of_cons; by left|].
    destruct IH as (ys & Hys & HF).
    { intros z Hz. apply Hall, elem_of_cons. by right. }
    exists (y :: ys). rewrite Hy, Hys. split; [done|]. by constructor.
Qed.

Lemma exc_map_raise_from {A B : Type} (f : A -> exc B) (l : list A) (e : PyError) :
  exc_map f l = Raise e -> exists x, x ∈ l /\ f x = Raise e.
Proof.
  induction l as [|x l IH]; cbn [exc_map]; [discriminate|].
  destruct (f x) as [y|e'] eqn:E; cbn [exc_bind].
  - destruct (exc_map f l) as [ys|e'']; cbn [exc_bind]; [discriminate|].
    intros [= <-]. destruct IH as (z & Hz & Hf); [done|].
    exists z. split; [apply elem_of_cons; by right | done].
  - intros [= <-]. exists x. split; [apply elem_of_cons; by left | done].
Qed.

Lemma exc_map_Ok_all {A B : Type} (f : A -> exc B) (l : list A) (ys : list B) :
  exc_map f l = Ok ys -> forall x, x ∈ l -> exists y, f x = Ok y.
Proof.
  revert ys. induction l as [|x l IH]; intros ys; cbn [exc_map].
  - by intros _ z ?%not_elem_of_nil.
  - destruct (f x) as [y|e] eqn:E; cbn [exc_bind]; [|discriminate].
    destruct (exc_map f l) as [ys'|e]; cbn [exc_bind]; [|discriminate].
    intros _ z [->|Hz]%elem_of_cons; [by exists y | by eapply IH].
Qed.

Lemma py_index_first_cases {A : Type} (l : list A) :
  match py_index l 0 with
  | Ok x => head l = Some x
  | Raise e => e = IndexError /\ l = []
  end.
Proof. by destruct l. Qed.

Section SameTimeCorrect.
Variable orm : ORM.
Variable solution : Solution.t.

(** The check of one lesson in [validateSameTimeLessons]. *)
Definition sameTimeCheck (lesson : nat) : exc bool :=
  match lessons_at_same_time orm lesson with
  | [] => Ok true
  | _ :: _ =>
      let! firsts :=
        exc_map (fun l => py_index (Solution.getTimeslotsOfLesson solution l) 0)
                (lesson :: lessons_at_same_time orm lesson) in
      Ok (1 =? length (py_set firsts))%nat
  end.

Lemma validateSameTimeLessons_and_each :
  SolutionValidation.validateSameTimeLessons orm solution
  = and_each sameTimeCheck (getLessons orm) true.
Proof.
  unfold SolutionValidation.validateSameTimeLessons, and_each. apply exc_fold_ext.
  intros isValid lesson. unfold sameTimeCheck.
  destruct (lessons_at_same_time orm lesson); cbn [exc_bind]; [by rewrite andb_true_r|].
  by destruct (exc_map _ _).
Qed.

(** A lesson with same-time partners of which one, or the lesson, has no
    timeslot in the solution. *)
Definition sameTimeMemberUnplaced (lesson : nat) : Prop :=
  lessons_at_same_time orm lesson <> [] /\
  exists m, m ∈ lesson :: lessons_at_same_time orm lesson /\
            Solution.getTimeslotsOfLesson solution m = [].

Lemma sameTimeCheck_cases (lesson : nat) :
  match sameTimeCheck lesson with
  | Ok c =>
      ~ sameTimeMemberUnplaced lesson /\
      (c = true <->
       forall m, m ∈ lessons_at_same_time orm lesson ->
         head (Solution.getTimeslotsOfLesson solution m)
         = head (Solution.getTimeslotsOfLesson solution lesson))
  | Raise e => e = IndexError /\ sameTimeMemberUnplaced lesson
  end.
Proof.
  unfold sameTimeCheck, sameTimeMemberUnplaced.
  destruct (lessons_at_same_time orm lesson) as [|p ps] eqn:Ep.
  { split; [by intros [? _]|]. split; [|done]. by intros _ m ?%not_elem_of_nil. }
  destruct (exc_map (fun l => py_index (Solution.getTimeslotsOfLesson solution l) 0)
                    (lesson :: p :: ps)) as [firsts|e] eqn:E; cbn [exc_bind].
  - pose proof (exc_map_Ok_all _ _ _ E) as Hall.
    assert (Hplaced : forall m, m ∈ lesson :: p :: ps ->
              exists t, py_index (Solution.getTimeslotsOfLesson solution m) 0 = Ok t /\
                        head (Solution.getTimeslotsOfLesson solution m) = Some t).
    { intros m Hm. destruct (Hall m Hm) as [t Ht]. exists t. split; [done|].
      pose proof (py_index_first_cases (Solution.getTimeslotsOfLesson solution m)) as H.
      by rewrite Ht in H. }
    split.
    { intros (_ & m & Hm & Hnil). destruct (Hplaced m Hm) as (t & _ & Ht).
      by rewrite Hnil in Ht. }
    destruct (exc_map_total (fun l => py_index (Solution.getTimeslotsOfLesson solution l) 0)
                            (lesson :: p :: ps)) as (ys & Hys & HF).
    { intros m Hm. destruct (Hplaced m Hm) as (t & Ht & _). by exists t. }
    assert (ys = firsts) by congruence. subst ys.
    destruct (Hplaced lesson) as (t0 & Ht0 & Hh0); [apply elem_of_cons; by left|].
    rewrite Nat.eqb_eq. split.
    + intros Hone m Hm. symmetry in Hone. apply length_py_set_one in Hone as (t & _ & Hsame).
      assert (Hfirst : forall m t', m ∈ lesson :: p :: ps ->
                py_index (Solution.getTimeslotsOfLesson solution m) 0 = Ok t' -> t' = t).
      { intros m' t' Hm' Ht'. apply list_elem_of_lookup_1 in Hm' as [i Hi].
        destruct (Forall2_lookup_l _ _ _ _ _ HF Hi) as (y & Hy & Hfy).
        assert (y = t') by congruence. subst y. apply Hsame.
        by eapply list_elem_of_lookup_2. }
      destruct (Hplaced m) as (tm & Htm & Hhm); [apply elem_of_cons; by right|].
      rewrite Hhm, Hh0. f_equal.
      rewrite (Hfirst m tm); [|apply elem_of_cons; by right|done].
      symmetry. apply (Hfirst lesson t0); [apply elem_of_cons; by left | done].
    + intros Hsame. symmetry. apply length_py_set_one. exists t0. split.
      * apply Forall2_length in HF. by destruct firsts.
      * intros y Hy. apply list_elem_of_lookup_1 in Hy as [i Hi].
        destruct (Forall2_lookup_r _ _ _ _ _ HF Hi) as (m & Hm & Hfm).
        apply list_elem_of_lookup_2 in Hm.
        apply elem_of_cons in Hm as [->|Hm]; [congruence|].
        specialize (Hsame m Hm).
        pose proof (py_index_first_cases (Solution.getTimeslotsOfLesson solution m)) as H.
        rewrite Hfm in H. congruence.
  - apply exc_map_raise_from in E as (m & Hm & Hraise).
    pose proof (py_index_first_cases (Solution.getTimeslotsOfLesson solution m)) as H.
    rewrite Hraise in H. destruct H as [-> Hnil]. split; [done|]. split; [done|].
    by exists m.
Qed.
End SameTimeCorrect.

(** [validateSameTimeLessons] raises [IndexError] when a lesson with
    same-time partners, or one of the partners, has no timeslot in the
    solution. Otherwise it returns, and it returns [True] exactly when every
    partner of every lesson has the same first timeslot as the lesson. *)
Theorem validateSameTimeLessons_raises_or_compares_first (orm : ORM) (solution : Solution.t) :
  ((exists lesson, lesson ∈ getLessons orm /\ sameTimeMemberUnplaced orm solution lesson) ->
   SolutionValidation.validateSameTimeLessons orm solution = Raise IndexError) /\
  ((forall lesson, lesson ∈ getLessons orm -> ~ sameTimeMemberUnplaced orm solution lesson) ->
   exists b,
     SolutionValidation.validateSameTimeLessons orm solution = Ok b /\
     (b = true <->
      forall lesson m, lesson ∈ getLessons orm -> m ∈ lessons_at_same_time orm lesson ->
        head (Solution.getTimeslotsOfLesson solution m)
        = head (Solution.getTimeslotsOfLesson solution lesson))).
Proof.
  rewrite validateSameTimeLessons_and_each. split.
  - intros (lesson & Hl & Hun). apply and_each_raises.
    + intros l e _ Hraise. pose proof (sameTimeCheck_cases orm solution l) as H.
      rewrite Hraise in H. apply H.
    + pose proof (sameTimeCheck_cases orm solution lesson) as H.
      destruct (sameTimeCheck orm solution lesson) as [c|e] eqn:E.
      * by destruct H as [H _].
      * by exists lesson, e.
  - intros Hplaced.
    assert (Hok : forall lesson, lesson ∈ getLessons orm ->
              exists c, sameTimeCheck orm solution lesson = Ok c).
    { intros lesson Hl. pose proof (sameTimeCheck_cases orm solution lesson) as H.
      destruct (sameTimeCheck orm solution lesson) as [c|e]; [by exists c|].
      destruct H as [_ H]. by apply Hplaced in H. }
    destruct (and_each_total _ _ true Hok) as [b Hb]. exists b. split; [exact Hb|].
    destruct (and_each_Ok _ _ _ _ Hb) as [Hiff _]. rewrite Hiff. split.
    + intros [_ H] lesson m Hl Hm.
      pose proof (sameTimeCheck_cases orm solution lesson) as Hc.
      rewrite (H lesson Hl) in Hc. destruct Hc as [_ Hc]. by apply Hc.
    + intros H. split; [done|]. intros lesson Hl.
      destruct (Hok lesson Hl) as [c Hc]. rewrite Hc. f_equal.
      pose proof (sameTimeCheck_cases orm solution lesson) as Hcase.
      rewrite Hc in Hcase. destruct Hcase as [_ Hcase]. apply Hcase.
      intros m Hm. by apply H.
Qed.

Section ConsecutiveCorrect.
Variable orm : ORM.
Variable solution : Solution.t.

(** The comparison of [validateConsecutiveLessons] for a lesson that ends
    at [lessonEnd] and a lesson that is to follow it. *)
Definition consecutiveCheck (lessonEnd : Timeslot.t) (conLesson : nat) : exc bool :=
  let! conLessonStart := py_index (Solution.getTimeslotsOfLesson solution conLesson) 0 in
  Ok ((Timeslot.number lessonEnd + 1 =? Timeslot.number conLessonStart)
      && bool_decide (Timeslot.weekday lessonEnd = Timeslot.weekday conLessonStart)).

Lemma consecutiveCheck_cases (lessonEnd : Timeslot.t) (conLesson : nat) :
  match consecutiveCheck lessonEnd conLesson with
  | Ok c =>
      exists s, head (Solution.getTimeslotsOfLesson solution conLesson) = Some s /\
        (c = true <-> Timeslot.number lessonEnd + 1 = Timeslot.number s /\
                      Timeslot.weekday lessonEnd = Timeslot.weekday s)
  | Raise e => e = IndexError /\ Solution.getTimeslotsOfLesson solution conLesson = []
  end.
Proof.
  unfold consecutiveCheck.
  pose proof (py_index_first_cases (Solution.getTimeslotsOfLesson solution conLesson)) as H.
  destruct (py_index (Solution.getTimeslotsOfLesson solution conLesson) 0) as [s|e];
    cbn [exc_bind]; [|done].
  exists s. split; [done|]. by rewrite andb_true_iff, Z.eqb_eq, bool_decide_eq_true.
Qed.

(** The last timeslot of a lesson, for a lesson that has one. *)
Definition endOf (lesson : nat) : Timeslot.t :=
  default {| Timeslot.id := 0; Timeslot.weekday := MO;
             Timeslot.weekday_number := 0; Timeslot.number := 0 |}
          (last (Solution.getTimeslotsOfLesson solution lesson)).

Lemma validateConsecutiveLessons_raises :
  (exists lesson, lesson ∈ getLessons orm /\
                  Solution.getTimeslotsOfLesson solution lesson = []) ->
  SolutionValidation.validateConsecutiveLessons orm solution = Raise IndexError.
Proof.
  intros (lesson & Hl & Hnil). unfold SolutionValidation.validateConsecutiveLessons.
  apply exc_fold_raises_only.
  - intros isValid l e _.
    pose proof (py_index_last_cases (Solution.getTimeslotsOfLesson solution l)) as H.
    destruct (py_index (Solution.getTimeslotsOfLesson solution l) (-1)) as [lessonEnd|e'];
      cbn [exc_bind].
    + apply and_each_only_raises. intros con e0 _ Hraise.
      pose proof (consecutiveCheck_cases lessonEnd con) as Hc.
      unfold consecutiveCheck in Hc. rewrite Hraise in Hc. apply Hc.
    + intros [= <-]. apply H.
  - exists lesson. split; [done|]. intros isValid. rewrite Hnil. by exists IndexError.
Qed.

Lemma validateConsecutiveLessons_returns :
  (forall lesson, lesson ∈ getLessons orm ->
     Solution.getTimeslotsOfLesson solution lesson <> [] /\
     forall con, con ∈ Lesson.lessons_consecutive (lesson_row orm lesson) ->
                 Solution.getTimeslotsOfLesson solution con <> []) ->
  exists b,
    SolutionValidation.validateConsecutiveLessons orm solution = Ok b /\
    (b = true <->
     forall lesson con e s, lesson ∈ getLessons orm ->
       con ∈ Lesson.lessons_consecutive (lesson_row orm lesson) ->
       last (Solution.getTimeslotsOfLesson solution lesson) = Some e ->
       head (Solution.getTimeslotsOfLesson solution con) = Some s ->
       Timeslot.number e + 1 = Timeslot.number s /\
       Timeslot.weekday e = Timeslot.weekday s).
Proof.
  intros Hplaced.
  assert (Hend : forall lesson, lesson ∈ getLessons orm ->
            py_index (Solution.getTimeslotsOfLesson solution lesson) (-1) = Ok (endOf lesson) /\
            last (Solution.getTimeslotsOfLesson solution lesson) = Some (endOf lesson)).
  { intros lesson Hl. destruct (Hplaced lesson Hl) as [Hne _].
    pose proof (py_index_last_cases (Solution.getTimeslotsOfLesson solution lesson)) as H.
    destruct (py_index (Solution.getTimeslotsOfLesson solution lesson) (-1)) as [e|e].
    - unfold endOf. rewrite H. done.
    - by destruct H as [_ H]. }
  assert (E : SolutionValidation.validateConsecutiveLessons orm solution
              = and_each (fun p => consecutiveCheck (endOf (fst p)) (snd p))
                         (flat_map (fun lesson =>
                                      map (pair lesson)
                                          (Lesson.lessons_consecutive (lesson_row orm lesson)))
                                   (getLessons orm)) true).
  { unfold SolutionValidation.validateConsecutiveLessons, and_each.
    rewrite <- (exc_fold_nested
                  (fun lesson => Lesson.lessons_consecutive (lesson_row orm lesson))
                  (fun lesson (isValid : bool) con =>
                     let! c := consecutiveCheck (endOf lesson) con in Ok (isValid && c))).
    apply exc_fold_ext_in. intros isValid lesson Hl.
    by rewrite (proj1 (Hend lesson Hl)). }
  rewrite E.
  assert (Hok : forall p, p ∈ flat_map (fun lesson =>
                                      map (pair lesson)
                                          (Lesson.lessons_consecutive (lesson_row orm lesson)))
                                   (getLessons orm) ->
            exists c, consecutiveCheck (endOf (fst p)) (snd p) = Ok c).
  { intros [lesson con] [Hl Hcon]%elem_of_pairs. cbn [fst snd].
    pose proof (consecutiveCheck_cases (endOf lesson) con) as H.
    destruct (consecutiveCheck (endOf lesson) con) as [c|e]; [by exists c|].
    destruct H as [_ H]. by apply (proj2 (Hplaced lesson Hl)) in H. }
  destruct (and_each_total _ _ true Hok) as [b Hb]. exists b. split; [exact Hb|].
  destruct (and_each_Ok _ _ _ _ Hb) as [Hiff _]. rewrite Hiff. split.
  - intros [_ H] lesson con e s Hl Hcon He Hs.
    specialize (H (lesson, con) (proj2 (elem_of_pairs _ _ _ _) (conj Hl Hcon))).
    cbn [fst snd] in H.
    pose proof (consecutiveCheck_cases (endOf lesson) con) as Hc. rewrite H in Hc.
    destruct Hc as (s' & Hs' & Hiff').
    assert (s' = s) by congruence. subst s'.
    assert (endOf lesson = e) as <-.
    { destruct (Hend lesson Hl) as [_ Hlast]. congruence. }
    by apply Hiff'.
  - intros H. split; [done|]. intros [lesson con] Hp.
    destruct (Hok _ Hp) as [c Hc]. rewrite Hc. f_equal.
    apply elem_of_pairs in Hp as [Hl Hcon]. cbn [fst snd] in Hc.
    pose proof (consecutiveCheck_cases (endOf lesson) con) as Hcase. rewrite Hc in Hcase.
    destruct Hcase as (s & Hs & Hiff'). apply Hiff'.
    apply (H lesson con (endOf lesson) s Hl Hcon); [apply (Hend lesson Hl) | done].
Qed.
End ConsecutiveCorrect.

(** [validateConsecutiveLessons] takes the last timeslot of every lesson of
    the catalog, so it raises [IndexError] when any lesson has no timeslot in
    the solution, whether or not a lesson is to follow it. When every lesson
    and every lesson that is to follow one has a timeslot, it returns, and it
    returns [True] exactly when each following lesson starts at the number
    after the last timeslot of its predecessor, on the same weekday. *)
Theorem validateConsecutiveLessons_raises_or_compares (orm : ORM) (solution : Solution.t) :
  ((exists lesson, lesson ∈ getLessons orm /\
                   Solution.getTimeslotsOfLesson solution lesson = []) ->
   SolutionValidation.validateConsecutiveLessons orm solution = Raise IndexError) /\
  ((forall lesson, lesson ∈ getLessons orm ->
      Solution.getTimeslotsOfLesson solution lesson <> [] /\
      forall con, con ∈ Lesson.lessons_consecutive (lesson_row orm lesson) ->
                  Solution.getTimeslotsOfLesson solution con <> []) ->
   exists b,
     SolutionValidation.validateConsecutiveLessons orm solution = Ok b /\
     (b = true <->
      forall lesson con e s, lesson ∈ getLessons orm ->
        con ∈ Lesson.lessons_consecutive (lesson_row orm lesson) ->
        last (Solution.getTimeslotsOfLesson solution lesson) = Some e ->
        head (Solution.getTimeslotsOfLesson solution con) = Some s ->
        Timeslot.number e + 1 = Timeslot.number s /\
        Timeslot.weekday e = Timeslot.weekday s)).
Proof.
  split; [apply validateConsecutiveLessons_raises | apply validateConsecutiveLessons_returns].
Qed.






(** ** Sample placements for the checks *)

(** A catalog with restrictions: the teacher is not available at the first
    timeslot of Monday and has Monday and Tuesday as study days, the course
    is forenoon-only, the two lessons are restricted to the second and third
    timeslot of Wednesday, and lesson 2 is to follow lesson 1. *)
Module Restricted.
Definition teacher : Teacher.t :=
  {| Teacher.study_day_1 := Some MO; Teacher.study_day_2 := Some TU;
     Teacher.max_lessons_per_day := 5; Teacher.max_lectures_per_day := 3;
     Teacher.max_lectures_as_block := 2; Teacher.avoid_free_day_gaps := false;
     Teacher.not_available_timeslots := [Sample.slot 1];
     Teacher.lessons := [1; 2]%nat |}.

Definition course : Course.t :=
  {| Course.only_forenoon := true; Course.all_in_one_block := false;
     Course.is_lecture := true; Course.one_per_day_per_teacher := false;
     Course.possible_rooms := [1]%nat; Course.semester_groups := [1]%nat;
     Course.lessons := [1; 2]%nat |}.

Definition lessonRow (l : nat) : Lesson.t :=
  {| Lesson.whole_semester_group := true; Lesson.timeslot_size := 1;
     Lesson.course := 1%nat; Lesson.teachers := [1]%nat;
     Lesson.available_timeslots := [Sample.slot 14; Sample.slot 15];
     Lesson.lessons_at_same_time := [];
     Lesson.lessons_consecutive := if decide (l = 1%nat) then [2]%nat else [];
     Lesson.availableTimeslotsFiltered := [Sample.slot 14; Sample.slot 15] |}.

Definition orm : ORM :=
  {| TIMESLOTS_PER_DAY := 6;
     getTimeslots := concat (week 6);
     getTimeslotsPerDay := week 6;
     getRooms := [1]%nat;
     getTeachers := [1]%nat;
     getSemesterGroups := [1]%nat;
     getCourses := [1]%nat;
     getLessons := [1; 2]%nat;
     getLessonsAtSameTimeSets := [];
     semester_group_row := fun _ => Sample.cohort;
     course_row := fun _ => course;
     lesson_row := lessonRow |}.

Definition rows : nat -> Teacher.t := fun _ => teacher.

(** Lesson 1 at the second timeslot of Wednesday, lesson 2 at the third. *)
Definition placement : exc Solution.t :=
  let sol := Solution.init 1 orm 0 in
  let! sol := Solution.addLesson sol 1 1 (Sample.slot 14) in
  Solution.addLesson sol 2 1 (Sample.slot 15).
End Restricted.

(** The timeslots of a solution that have a lesson. *)
Definition occupiedTimeslots (self : Solution.t) : list Timeslot.t :=
  map fst (filter (fun item : Timeslot.t * list (nat * nat) => snd item <> [])
                  (Solution.timeslotMap self)).

Lemma lessonAt_occupied (solution : Solution.t) (l : nat) (t : Timeslot.t) :
  lessonAt solution l t -> t ∈ occupiedTimeslots solution.
Proof.
  intros (lessons & Hget & Hin). unfold Solution.getLessonsAtTimeslot in Hget.
  destruct (Solution.dict_get (Solution.timeslotMap solution) t) as [entries|] eqn:E;
    [|discriminate].
  cbn [exc_bind] in Hget. injection Hget as <-.
  destruct (dict_get_split _ _ _ E) as (d1 & d2 & Hd & _).
  unfold occupiedTimeslots. apply list_elem_of_fmap. exists (t, entries).
  split; [done|]. apply list_elem_of_filter. split.
  - cbn [snd]. intros ->. by apply not_elem_of_nil in Hin.
  - rewrite Hd. apply elem_of_app. right. apply elem_of_cons. by left.
Qed.


Lemma validateTeacherNotAvailableTimes_iff_witness :
  exists solution,
    Restricted.placement = Ok solution /\
    SolutionValidation.validateTeacherNotAvailableTimes Restricted.orm Restricted.rows solution
    = Ok true.
Proof.
  eexists. split; [vm_compute; reflexivity|].
  match goal with
  | |- SolutionValidation.validateTeacherNotAvailableTimes _ _ ?s = _ => set (solution := s)
  end.
  assert (Hkeys : timeslotKeys solution = getTimeslots Restricted.orm)
    by (vm_compute; reflexivity).
  assert (Hocc : occupiedTimeslots solution = [Sample.slot 14; Sample.slot 15])
    by (vm_compute; reflexivity).
  destruct (validateTeacherNotAvailableTimes_iff Restricted.orm Restricted.rows solution)
    as (b & -> & Hiff).
  - intros teacher t _ Ht. rewrite Hkeys.
    apply list_elem_of_singleton in Ht as ->. vm_compute. by left.
  - f_equal. apply Hiff. intros teacher t l _ Ht Hat.
    apply list_elem_of_singleton in Ht as ->. apply lessonAt_occupied in Hat.
    rewrite Hocc in Hat. exfalso.
    apply elem_of_cons in Hat as [Hat|Hat]; [discriminate|].
    apply list_elem_of_singleton in Hat. discriminate.
Defined.

(** The placement of the restricted catalog with what the witnesses below
    use of it. *)
Lemma restricted_placement :
  exists solution,
    Restricted.placement = Ok solution /\
    timeslotKeys solution = getTimeslots Restricted.orm /\
    NoDup (timeslotKeys solution) /\
    occupiedTimeslots solution = [Sample.slot 14; Sample.slot 15].
Proof.
  eexists. split; [vm_compute; reflexivity|].
  split; [vm_compute; reflexivity|]. split; [|vm_compute; reflexivity].
  match goal with
  | |- NoDup (timeslotKeys ?s) =>
      assert (E : timeslotKeys s = timeslotKeys (Solution.init 1 Restricted.orm 0))
        by (vm_compute; reflexivity)
  end.
  rewrite E. apply init_keys.
Qed.

Lemma occupied_cases (occupied : list Timeslot.t) (a b t : Timeslot.t) :
  occupied = [a; b] -> t ∈ occupied -> t = a \/ t = b.
Proof.
  intros -> [->|Ht]%elem_of_cons; [by left|]. apply list_elem_of_singleton in Ht. by right.
Qed.

Lemma validateForenoonLessons_iff_witness :
  exists solution,
    Restricted.placement = Ok solution /\
    SolutionValidation.validateForenoonLessons Restricted.orm solution = Ok true.
Proof.
  destruct restricted_placement as (solution & Hsol & Hkeys & _ & Hocc).
  exists solution. split; [exact Hsol|].
  destruct (validateForenoonLessons_iff Restricted.orm solution) as (b & -> & Hiff).
  - intros t Ht. by rewrite Hkeys.
  - f_equal. apply Hiff. intros t l _ Hnum Hat. exfalso. apply Hnum.
    apply lessonAt_occupied in Hat.
    destruct (occupied_cases _ _ _ _ Hocc Hat) as [-> | ->]; vm_compute; set_solver.
Defined.

Lemma validateStudyDays_iff_witness :
  exists solution,
    Restricted.placement = Ok solution /\
    SolutionValidation.validateStudyDays Restricted.orm Restricted.rows solution = Ok true.
Proof.
  destruct restricted_placement as (solution & Hsol & Hkeys & _ & Hocc).
  exists solution. split; [exact Hsol|].
  destruct (validateStudyDays_iff Restricted.orm Restricted.rows solution) as (b & -> & Hiff).
  - intros t Ht. by rewrite Hkeys.
  - f_equal. apply Hiff. intros teacher _ _. left. intros t l _ Hday Hat.
    apply lessonAt_occupied in Hat.
    destruct (occupied_cases _ _ _ _ Hocc Hat) as [-> | ->]; discriminate.
Defined.

Lemma available_placement_passes_availability_checks_witness :
  exists solution,
    Restricted.placement = Ok solution /\
    SolutionValidation.validateTeacherNotAvailableTimes Restricted.orm Restricted.rows solution
    = Ok true /\
    SolutionValidation.validateForenoonLessons Restricted.orm solution = Ok true /\
    SolutionValidation.validateGivenTimeslots Restricted.orm solution = Ok true.
Proof.
  destruct restricted_placement as (solution & Hsol & Hkeys & Hnd & Hocc).
  exists solution. split; [exact Hsol|].
  apply (available_placement_passes_availability_checks Restricted.orm Restricted.rows
           solution Hnd).
  - intros t Ht. by rewrite Hkeys.
  - intros teacher t _ Ht. apply list_elem_of_singleton in Ht as ->. vm_compute. by left.
  - intros l t Hat. apply lessonAt_occupied in Hat.
    assert (E : getAvailableTimeslots Restricted.orm Restricted.rows
                  (lesson_row Restricted.orm l) (getTimeslots Restricted.orm)
                = [Sample.slot 14; Sample.slot 15]).
    { cbn [lesson_row Restricted.orm]. unfold Restricted.lessonRow.
      destruct (decide (l = 1%nat)); vm_compute; reflexivity. }
    rewrite E, <- Hocc. exact Hat.
Defined.


Lemma validateLessonTime_raises_or_checks_blocks_witness :
  SolutionValidation.validateLessonTime Paired.orm (Solution.init 1 Paired.orm 0)
  = Raise IndexError /\
  exists solution,
    Paired.placement = Ok solution /\
    SolutionValidation.validateLessonTime Paired.orm solution = Ok true.
Proof.
  split.
  - apply (validateLessonTime_raises_or_checks_blocks Paired.orm
             (Solution.init 1 Paired.orm 0)).
    exists 2%nat. split; [set_solver|]. split; vm_compute; done.
  - eexists. split; [vm_compute; reflexivity|].
    match goal with
    | |- SolutionValidation.validateLessonTime _ ?s = _ => set (solution := s)
    end.
    assert (H1 : Solution.getTimeslotsOfLesson solution 1 = [Sample.slot 1])
      by (vm_compute; reflexivity).
    assert (H2 : Solution.getTimeslotsOfLesson solution 2 = [Sample.slot 1; Sample.slot 2])
      by (vm_compute; reflexivity).
    assert (H3 : Solution.getTimeslotsOfLesson solution 3 = [Sample.slot 3])
      by (vm_compute; reflexivity).
    assert (Hlessons : forall lesson, lesson ∈ getLessons Paired.orm ->
              lesson = 1%nat \/ lesson = 2%nat \/ lesson = 3%nat) by set_solver.
    destruct (proj2 (validateLessonTime_raises_or_checks_blocks Paired.orm solution))
      as (ok & -> & Hiff).
    + intros lesson Hl [Hsize Hlen].
      assert (S1 : timeslot_size Paired.orm 1 = 1) by reflexivity.
      assert (S2 : timeslot_size Paired.orm 2 = 2) by reflexivity.
      assert (S3 : timeslot_size Paired.orm 3 = 1) by reflexivity.
      destruct (Hlessons lesson Hl) as [-> | [-> | ->]];
        rewrite ?H1, ?H2, ?H3 in Hlen; cbn [length] in Hlen; lia.
    + f_equal. apply Hiff. intros lesson i a b0 Hl Hi Ha Hb.
      assert (S1 : timeslot_size Paired.orm 1 = 1) by reflexivity.
      assert (S2 : timeslot_size Paired.orm 2 = 2) by reflexivity.
      assert (S3 : timeslot_size Paired.orm 3 = 1) by reflexivity.
      destruct (Hlessons lesson Hl) as [-> | [-> | ->]]; [lia | | lia].
      assert (i = 1) as -> by lia.
      rewrite H2 in Ha, Hb. injection Ha as <-. injection Hb as <-. done.
Defined.

Lemma validateSameTimeLessons_raises_or_compares_first_witness :
  SolutionValidation.validateSameTimeLessons Paired.orm (Solution.init 1 Paired.orm 0)
  = Raise IndexError /\
  exists solution,
    Paired.placement = Ok solution /\
    SolutionValidation.validateSameTimeLessons Paired.orm solution = Ok true.
Proof.
  split.
  - apply (validateSameTimeLessons_raises_or_compares_first Paired.orm
             (Solution.init 1 Paired.orm 0)).
    exists 1%nat. split; [set_solver|]. split; [done|].
    exists 1%nat. split; [set_solver|]. vm_compute. reflexivity.
  - eexists. split; [vm_compute; reflexivity|].
    match goal with
    | |- SolutionValidation.validateSameTimeLessons _ ?s = _ => set (solution := s)
    end.
    assert (H1 : Solution.getTimeslotsOfLesson solution 1 = [Sample.slot 1])
      by (vm_compute; reflexivity).
    assert (H2 : Solution.getTimeslotsOfLesson solution 2 = [Sample.slot 1; Sample.slot 2])
      by (vm_compute; reflexivity).
    assert (Hlessons : forall lesson, lesson ∈ getLessons Paired.orm ->
              lesson = 1%nat \/ lesson = 2%nat \/ lesson = 3%nat) by set_solver.
    destruct (proj2 (validateSameTimeLessons_raises_or_compares_first Paired.orm solution))
      as (ok & -> & Hiff).
    + intros lesson Hl [Hne (m & Hm & Hnil)].
      destruct (Hlessons lesson Hl) as [-> | [-> | ->]]; [| |done].
      * assert (m = 1%nat \/ m = 2%nat) as [-> | ->] by set_solver; congruence.
      * assert (m = 2%nat \/ m = 1%nat) as [-> | ->] by set_solver; congruence.
    + f_equal. apply Hiff. intros lesson m Hl Hm.
      destruct (Hlessons lesson Hl) as [-> | [-> | ->]].
      * assert (m = 2%nat) as -> by set_solver. by rewrite H1, H2.
      * assert (m = 1%nat) as -> by set_solver. by rewrite H1, H2.
      * by apply not_elem_of_nil in Hm.
Defined.

Lemma validateConsecutiveLessons_raises_or_compares_witness :
  SolutionValidation.validateConsecutiveLessons Sample.orm (Solution.init 1 Sample.orm 0)
  = Raise IndexError /\
  exists solution,
    Restricted.placement = Ok solution /\
    SolutionValidation.validateConsecutiveLessons Restricted.orm solution = Ok true.
Proof.
  split.
  - apply (validateConsecutiveLessons_raises_or_compares Sample.orm
             (Solution.init 1 Sample.orm 0)).
    exists 1%nat. split; [set_solver|]. vm_compute. reflexivity.
  - eexists. split; [vm_compute; reflexivity|].
    match goal with
    | |- SolutionValidation.validateConsecutiveLessons _ ?s = _ => set (solution := s)
    end.
    assert (H1 : Solution.getTimeslotsOfLesson solution 1 = [Sample.slot 14])
      by (vm_compute; reflexivity).
    assert (H2 : Solution.getTimeslotsOfLesson solution 2 = [Sample.slot 15])
      by (vm_compute; reflexivity).
    assert (Hlessons : forall lesson, lesson ∈ getLessons Restricted.orm ->
              lesson = 1%nat \/ lesson = 2%nat) by set_solver.
    destruct (proj2 (validateConsecutiveLessons_raises_or_compares Restricted.orm solution))
      as (ok & -> & Hiff).
    + intros lesson Hl. destruct (Hlessons lesson Hl) as [-> | ->].
      * split; [by rewrite H1|]. intros con Hcon.
        assert (con = 2%nat) as -> by set_solver. by rewrite H2.
      * split; [by rewrite H2|]. intros con Hcon. by apply not_elem_of_nil in Hcon.
    + f_equal. apply Hiff. intros lesson con e s Hl Hcon He Hs.
      destruct (Hlessons lesson Hl) as [-> | ->];
        [|by apply not_elem_of_nil in Hcon].
      assert (con = 2%nat) as -> by set_solver.
      rewrite H1 in He. rewrite H2 in Hs. injection He as <-. injection Hs as <-. done.
Defined.

(** ** HardConstraints.py: the tables of forbidden day patterns *)

(** A day pattern has [k] occupied slots in a row. *)
Definition consecutive_ones (k : nat) (pattern : list Z) : Prop :=
  exists i : nat, forall j : nat, (j < k)%nat -> pattern !! (i + j)%nat = Some 1.

Definition run_at (k i : nat) (pattern : list Z) : bool :=
  forallb (fun j => bool_decide (pattern !! (i + j)%nat = Some 1)) (seq 0 k).

Definition has_run (k : nat) (pattern : list Z) : bool :=
  existsb (fun i => run_at k i pattern) (seq 0 (length pattern)).

(** The 0/1 lists of a length. *)
Fixpoint bitPatterns (n : nat) : list (list Z) :=
  match n with
  | O => [[]]
  | S n => flat_map (fun p => [0 :: p; 1 :: p]) (bitPatterns n)
  end.

(** The limit pairs with a table, in the order of the source. *)
Definition forbiddenTables : list (Z * Z * list (list Z)) :=
  [(5, 4, max5_maxblock_4); (5, 3, max5_maxblock_3); (4, 3, max4_maxblock_3);
   (4, 2, max4_maxblock_2); (3, 2, max3_maxblock_2); (3, 1, max3_maxblock_1);
   (2, 1, max2_maxblock_1)].

Lemma has_run_spec (k : nat) (pattern : list Z) :
  (0 < k)%nat -> has_run k pattern = true <-> consecutive_ones k pattern.
Proof.
  intros Hk. unfold has_run, consecutive_ones, run_at. rewrite existsb_exists. split.
  - intros (i & _ & Hall). exists i. intros j Hj.
    rewrite forallb_forall in Hall.
    assert (Hin : In j (seq 0 k)) by (apply in_seq; lia).
    apply Hall in Hin. by apply bool_decide_eq_true in Hin.
  - intros (i & Hall). exists i. split.
    + apply in_seq. specialize (Hall 0%nat Hk). apply lookup_lt_Some in Hall. lia.
    + apply forallb_forall. intros j Hj%in_seq. apply bool_decide_eq_true, Hall. lia.
Qed.

Lemma bitPatterns_complete (pattern : list Z) :
  (forall x, x ∈ pattern -> x = 0 \/ x = 1) -> pattern ∈ bitPatterns (length pattern).
Proof.
  induction pattern as [|x pattern IH]; intros Hbits; cbn [length bitPatterns].
  - by apply list_elem_of_singleton.
  - apply list_elem_of_In, in_flat_map. exists pattern. split.
    + apply list_elem_of_In, IH. intros y Hy. apply Hbits, elem_of_cons. by right.
    + apply list_elem_of_In.
      destruct (Hbits x) as [-> | ->]; [apply elem_of_cons; by left | |]; set_solver.
Qed.

Lemma forbiddenTables_checked :
  forallb (fun entry : Z * Z * list (list Z) =>
             forallb (fun pattern =>
                        Bool.eqb (py_in pattern (snd entry))
                                 (has_run (Z.to_nat (snd (fst entry)) + 1) pattern
                                  && (occupied pattern <=? fst (fst entry))))
                     (bitPatterns 6))
          forbiddenTables = true.
Proof. vm_compute. reflexivity. Qed.

(** The limits and the table that [reduceLectureLimits] leaves behind:
    either a pair with its table, or no table. *)
Lemma reduceLectureLimits_table (row : Teacher.t) :
  (Teacher.max_lectures_per_day (fst (reduceLectureLimits row)),
   Teacher.max_lectures_as_block (fst (reduceLectureLimits row)),
   snd (reduceLectureLimits row)) ∈ forbiddenTables \/
  snd (reduceLectureLimits row) = [].
Proof.
  destruct row as [sd1 sd2 mlpd d b gaps na ls].
  unfold reduceLectureLimits, forbiddenTables; simpl.
  case_limits; first [by right | left; set_solver].
Qed.

Lemma forbidden_assignments_exact_correct (row : Teacher.t) (pattern : list Z) :
  length pattern = 6%nat ->
  (forall x, x ∈ pattern -> x = 0 \/ x = 1) ->
  snd (reduceLectureLimits row) <> [] ->
  (pattern ∈ snd (reduceLectureLimits row) <->
   consecutive_ones
     (Z.to_nat (Teacher.max_lectures_as_block (fst (reduceLectureLimits row))) + 1) pattern /\
   occupied pattern <= Teacher.max_lectures_per_day (fst (reduceLectureLimits row))).
Proof.
  intros Hlen Hbits Hne.
  destruct (reduceLectureLimits_table row) as [Htable|Hnil]; [|done].
  pose proof forbiddenTables_checked as Hchecked.
  rewrite forallb_true_iff in Hchecked. specialize (Hchecked _ Htable).
  cbn [fst snd] in Hchecked. rewrite forallb_true_iff in Hchecked.
  apply bitPatterns_complete in Hbits. rewrite Hlen in Hbits.
  specialize (Hchecked pattern Hbits). apply Bool.eqb_prop in Hchecked.
  rewrite <- py_in_true, Hchecked, andb_true_iff, has_run_spec, Z.leb_le by lia. done.
Qed.

(** Whenever [reduceLectureLimits] leaves a table of forbidden day patterns,
    the table holds exactly the patterns of six slots that have more occupied
    slots in a row than the reduced [max_lectures_as_block] and at most the
    reduced [max_lectures_per_day] occupied slots in all. *)
Theorem forbidden_assignments_exact (row : Teacher.t) (pattern : list Z) :
  length pattern = 6%nat ->
  (forall x, x ∈ pattern -> x = 0 \/ x = 1) ->
  snd (reduceLectureLimits row) <> [] ->
  (pattern ∈ snd (reduceLectureLimits row) <->
   consecutive_ones
     (Z.to_nat (Teacher.max_lectures_as_block (fst (reduceLectureLimits row))) + 1) pattern /\
   occupied pattern <= Teacher.max_lectures_per_day (fst (reduceLectureLimits row))).
Proof. exact (forbidden_assignments_exact_correct row pattern). Qed.

Lemma forbidden_assignments_exact_witness :
  [1; 1; 1; 0; 1; 0] ∈ snd (reduceLectureLimits (SampleState.withLimits 6 2)) /\
  [1; 1; 0; 1; 1; 0] ∉ snd (reduceLectureLimits (SampleState.withLimits 6 2)).
Proof.
  assert (Hne : snd (reduceLectureLimits (SampleState.withLimits 6 2)) <> []) by done.
  assert (Hbits : forall pattern, pattern ∈ bitPatterns 6 ->
            forall x : Z, x ∈ pattern -> x = 0 \/ x = 1).
  { intros pattern Hp x Hx.
    assert (Hall : Forall (Forall (fun x => x = 0 \/ x = 1)) (bitPatterns 6)).
    { apply Forall_forall. intros p Hp'. apply Forall_forall. revert p Hp'.
      generalize 6%nat. intros n. induction n as [|n IH]; cbn [bitPatterns]; intros p Hp'.
      - apply list_elem_of_singleton in Hp' as ->. intros y Hy. by apply not_elem_of_nil in Hy.
      - apply list_elem_of_In, in_flat_map in Hp' as (q & Hq%list_elem_of_In & Hp').
        apply list_elem_of_In in Hp'.
        intros y Hy. assert (p = 0 :: q \/ p = 1 :: q) as [-> | ->] by set_solver;
          apply elem_of_cons in Hy as [->|Hy]; eauto. }
    rewrite Forall_forall in Hall. specialize (Hall pattern Hp).
    rewrite Forall_forall in Hall. by apply Hall. }
  split.
  - apply (forbidden_assignments_exact (SampleState.withLimits 6 2) [1; 1; 1; 0; 1; 0]);
      [done | apply Hbits; vm_compute; set_solver | exact Hne |].
    split; [|vm_compute; discriminate].
    exists 0%nat. intros j Hj. destruct j as [|[|[|j]]]; [done..|]. vm_compute in Hj. lia.
  - intros Hin.
    apply (forbidden_assignments_exact (SampleState.withLimits 6 2) [1; 1; 0; 1; 1; 0])
      in Hin as [Hrun _]; [| done | apply Hbits; vm_compute; set_solver | exact Hne].
    apply has_run_spec in Hrun; [|vm_compute; lia]. vm_compute in Hrun. discriminate.
Defined.

(** Running [reduceLectureLimits] on the row it returns changes nothing
    more: the reduced limits and the table are a fixed point. *)
Theorem reduceLectureLimits_idempotent (row : Teacher.t) :
  reduceLectureLimits (fst (reduceLectureLimits row)) = reduceLectureLimits row.
Proof.
  destruct row as [sd1 sd2 mlpd d b gaps na ls].
  remember (reduceLectureLimits _) as r eqn:Hr in |- * at 2.
  assert (Hr' : reduceLectureLimits (Teacher.Build_t sd1 sd2 mlpd d b gaps na ls) = r) by done.
  rewrite Hr'. clear Hr'. revert Hr.
  unfold reduceLectureLimits at 1; simpl.
  case_limits; intros ->; cbn [fst]; unfold reduceLectureLimits; simpl;
    case_limits; first [reflexivity | lia].
Qed.

(** [reduceLectureLimits] never raises a limit and leaves the block limit at
    most the day limit. It leaves no table exactly when the reduced day limit
    is outside 2..5 or the reduced block limit is outside 1..day limit - 1;
    in particular a day limit above 6 is kept and gets no table, whatever the
    block limit. *)
Theorem reduceLectureLimits_no_table_iff (row : Teacher.t) :
  let d := Teacher.max_lectures_per_day row in
  let b := Teacher.max_lectures_as_block row in
  let d' := Teacher.max_lectures_per_day (fst (reduceLectureLimits row)) in
  let b' := Teacher.max_lectures_as_block (fst (reduceLectureLimits row)) in
  b' <= b /\ d' <= d /\ b' <= d' /\
  (snd (reduceLectureLimits row) = [] <-> ~ (2 <= d' <= 5 /\ 1 <= b' < d')) /\
  (6 < d -> d' = d /\ snd (reduceLectureLimits row) = []).
Proof.
  destruct row as [sd1 sd2 mlpd d b gaps na ls].
  unfold reduceLectureLimits; simpl.
  case_limits; repeat split; intros; try done; try lia.
Qed.





(** ** HardConstraints.py: the lecture-at-timeslot booleans of the teachers *)

Definition upd_timeslotLectureBoolMap
           (f : gmap nat (gmap Timeslot.t IntVar) -> gmap nat (gmap Timeslot.t IntVar))
           (s : State) : State :=
  {| model := model s;
     teacher_row := teacher_row s;
     roomVar := roomVar s;
     timeVars := timeVars s;
     weekdayVar := weekdayVar s;
     hourNumberVar := hourNumberVar s;
     weekdayBoolVars := weekdayBoolVars s;
     timeslotBoolVars := timeslotBoolVars s;
     timeslotLectureBoolMap := f (timeslotLectureBoolMap s);
     studyDay1BoolVar := studyDay1BoolVar s;
     studyDay2BoolVar := studyDay2BoolVar s;
     gapCounts := gapCounts s;
     dayGapCounts := dayGapCounts s;
     lessonsOnFreeDay := lessonsOnFreeDay s |}.

Section TeacherLectureMap.
Variable orm : ORM.

(** The first loop over the timeslots: an empty list for every timeslot in
    the local dict [timeslotLecturesListTakePlaceMap]. *)
Definition emptyListsOfTimeslots : gmap Timeslot.t (list IntVar) :=
  fold_left (fun d timeslot => <[timeslot := []]> d) (getTimeslots orm) ∅.

(** [timeslotLecturesListTakePlaceMap[timeslot].append(
       lesson.timeslotBoolVars[timeslot.id - 1])] *)
Definition appendLectureBool (timeslot : Timeslot.t) (d : gmap Timeslot.t (list IntVar))
           (lesson : nat) : Build (gmap Timeslot.t (list IntVar)) :=
  let* cur := lift (dict_lookup d timeslot) in
  let* bools := getattr timeslotBoolVars lesson in
  let* b := lift (py_index bools (Timeslot.id timeslot - 1)) in
  ret (<[timeslot := cur ++ [b]]> d).

(** The body of the third loop over the timeslots. *)
Definition createOccupiedVar (teacher : nat) (d : gmap Timeslot.t (list IntVar))
           (timeslot : Timeslot.t) : Build unit :=
  let* tOccupied := NewBoolVar in
  let* bools := lift (dict_lookup d timeslot) in
  let* _ := AddConstraint (OnlyEnforceIf (BoolOr (map Lit bools)) (Lit tOccupied)) in
  let* bools := lift (dict_lookup d timeslot) in
  let* _ := AddConstraint (OnlyEnforceIf (Linear (Eq (py_sum (map Var bools)) (Const 0)))
                                         (Not tOccupied)) in
  let* m := getattr timeslotLectureBoolMap teacher in
  modify (upd_timeslotLectureBoolMap (<[teacher := <[timeslot := tOccupied]> m]>)).

(** [createTeacherLectureAtTimeslotMap(model, orm)] *)
Definition createTeacherLectureAtTimeslotMap : Build unit :=
  for_each (getTeachers orm) (fun teacher =>
    let* _ := modify (upd_timeslotLectureBoolMap (<[teacher := ∅]>)) in
    let timeslotLecturesListTakePlaceMap := emptyListsOfTimeslots in
    let* timeslotLecturesListTakePlaceMap :=
      foldM (fun d timeslot =>
               let* rows := get teacher_row in
               foldM (appendLectureBool timeslot)
                     (filter (fun l => is_lecture orm l = true)
                             (Teacher.lessons (rows teacher)))
                     d)
            (getTimeslots orm) timeslotLecturesListTakePlaceMap in
    for_each (getTimeslots orm) (createOccupiedVar teacher timeslotLecturesListTakePlaceMap)).
End TeacherLectureMap.

(** The state [s] with another model and other lecture-at-timeslot maps. *)
Definition with_model_lectureMaps (M : CpModel) (L : gmap nat (gmap Timeslot.t IntVar))
           (s : State) : State :=
  upd_model (fun _ => M) (upd_timeslotLectureBoolMap (fun _ => L) s).

(** [lesson.timeslotBoolVars[timeslot.id - 1]], when there is one. *)
Definition lectureBool (s : State) (lesson : nat) (timeslot : Timeslot.t) : option IntVar :=
  match timeslotBoolVars s !! lesson with
  | Some bools =>
      match py_index bools (Timeslot.id timeslot - 1) with
      | Ok b => Some b
      | Raise _ => None
      end
  | None => None
  end.

Section TeacherLectureMapCorrect.
Variable orm : ORM.

(** The lectures of a teacher, in the order of [teacher.lessons]. *)
Definition lecturesOf (s : State) (teacher : nat) : list nat :=
  filter (fun l => is_lecture orm l = true) (Teacher.lessons (teacher_row s teacher)).

(** The timeslot booleans of the lectures of a teacher for a timeslot. *)
Definition lectureBools (s : State) (teacher : nat) (timeslot : Timeslot.t) : list IntVar :=
  omap (fun l => lectureBool s l timeslot) (lecturesOf s teacher).

(** What [createLessonTimeslotBoolHelperVariables] has to leave behind: every
    lecture of a teacher has a boolean for every timeslot. *)
Definition lectureBoolsReady (s : State) : Prop :=
  forall teacher l timeslot,
    teacher ∈ getTeachers orm -> l ∈ lecturesOf s teacher -> timeslot ∈ getTimeslots orm ->
    is_Some (lectureBool s l timeslot).

(** The variable [tOccupied] of a teacher and a timeslot with its two
    constraints, over a list with the timeslot booleans of the lectures. *)
Definition occupiedPosted (s : State) (M : CpModel) (teacher : nat) (timeslot : Timeslot.t)
           (tOccupied : IntVar) : Prop :=
  variables M !! tOccupied = Some (FromInterval 0 1) /\
  exists bools,
    (forall b, b ∈ bools <-> b ∈ lectureBools s teacher timeslot) /\
    OnlyEnforceIf (BoolOr (map Lit bools)) (Lit tOccupied) ∈ constraints M /\
    OnlyEnforceIf (Linear (Eq (py_sum (map Var bools)) (Const 0))) (Not tOccupied)
      ∈ constraints M.

Lemma occupiedPosted_extends (s : State) (M M' : CpModel) (teacher : nat)
      (timeslot : Timeslot.t) (tOccupied : IntVar) :
  extends M M' -> occupiedPosted s M teacher timeslot tOccupied ->
  occupiedPosted s M' teacher timeslot tOccupied.
Proof.
  intros Hext (Hv & bools & Hb & Hor & Hsum). split; [by eapply extends_variable|].
  exists bools. split; [done|]. split; by eapply extends_constraint.
Qed.

Lemma emptyListsOfTimeslots_lookup (timeslot : Timeslot.t) :
  (timeslot ∈ getTimeslots orm -> emptyListsOfTimeslots orm !! timeslot = Some []) /\
  (timeslot ∉ getTimeslots orm -> emptyListsOfTimeslots orm !! timeslot = None).
Proof.
  unfold emptyListsOfTimeslots.
  enough (G : forall (ts : list Timeslot.t) (d : gmap Timeslot.t (list IntVar)),
            (timeslot ∈ ts ->
             fold_left (fun d t => <[t := []]> d) ts d !! timeslot = Some []) /\
            (timeslot ∉ ts ->
             fold_left (fun d t => <[t := []]> d) ts d !! timeslot = d !! timeslot)).
  { destruct (G (getTimeslots orm) ∅) as [G1 G2]. split; [exact G1|].
    intros Hn. by rewrite G2. }
  induction ts as [|t ts IH]; intros d; cbn [fold_left].
  - split; [by intros ?%not_elem_of_nil | done].
  - destruct (IH (<[t := []]> d)) as [IH1 IH2]. split.
    + intros Hin. destruct (decide (timeslot ∈ ts)) as [Hts|Hts]; [by apply IH1|].
      rewrite IH2 by done. apply elem_of_cons in Hin as [->|Hin]; [|done].
      by rewrite lookup_insert_eq.
    + intros Hn. apply not_elem_of_cons in Hn as [Hne Hn].
      rewrite IH2 by done. by rewrite lookup_insert_ne.
Qed.

Lemma sum_of_vars_zero (val : Assignment) (bools : list IntVar) :
  (forall b, b ∈ bools -> 0 <= val b) ->
  eval val (py_sum (map Var bools)) = 0 ->
  forall b, b ∈ bools -> val b = 0.
Proof.
  rewrite eval_py_sum.
  induction bools as [|b0 bools IH]; intros Hnn Hsum b Hb; [by apply not_elem_of_nil in Hb|].
  cbn [map foldr eval] in Hsum.
  assert (H0 : 0 <= val b0) by (apply Hnn, elem_of_cons; by left).
  assert (Hrest : 0 <= foldr (fun e acc => eval val e + acc) 0 (map Var bools)).
  { clear -Hnn. induction bools as [|b1 bools IH]; cbn [map foldr eval]; [lia|].
    assert (0 <= val b1) by (apply Hnn; set_solver).
    assert (0 <= foldr (fun e acc => eval val e + acc) 0 (map Var bools)); [|lia].
    apply IH. intros b Hb. apply Hnn. set_solver. }
  apply elem_of_cons in Hb as [->|Hb]; [lia|].
  apply IH; [|lia|done]. intros b' Hb'. apply Hnn, elem_of_cons. by right.
Qed.

(** What the variable and its two constraints mean for an assignment. *)
Lemma occupiedPosted_feasible (s : State) (M built : CpModel) (val : Assignment)
      (teacher : nat) (timeslot : Timeslot.t) (tOccupied : IntVar) :
  occupiedPosted s M teacher timeslot tOccupied ->
  extends M built -> feasible val built ->
  (val tOccupied = 0 \/ val tOccupied = 1) /\
  (val tOccupied = 1 -> exists b, b ∈ lectureBools s teacher timeslot /\ val b = 1) /\
  ((forall b, b ∈ lectureBools s teacher timeslot -> 0 <= val b) ->
   val tOccupied = 0 -> forall b, b ∈ lectureBools s teacher timeslot -> val b = 0).
Proof.
  intros (Hv & bools & Hb & Hor & Hsum) Hext [Hdom Hcs].
  apply (extends_variable _ built) in Hv; [|done].
  apply (extends_constraint _ built) in Hor, Hsum; [|done..].
  apply Hdom in Hv. apply Hcs in Hor, Hsum.
  cbn [in_domain] in Hv. apply andb_true_iff in Hv as [Hlo%Z.leb_le Hhi%Z.leb_le].
  split; [lia|]. split.
  - intros H1. cbn [holds lit_holds] in Hor. rewrite H1 in Hor. cbn [Z.eqb implb] in Hor.
    change (1 =? 1) with true in Hor. cbn [implb] in Hor.
    apply existsb_exists in Hor as (lit & Hlit & Hholds).
    apply list_elem_of_In, list_elem_of_fmap in Hlit as (b & -> & Hin).
    cbn [lit_holds] in Hholds. exists b. split; [by apply Hb|]. by apply Z.eqb_eq.
  - intros Hnn H0 b Hin. cbn [holds lit_holds bounded_holds] in Hsum. rewrite H0 in Hsum.
    change (0 =? 0) with true in Hsum. cbn [implb eval] in Hsum. apply Z.eqb_eq in Hsum.
    apply (sum_of_vars_zero val bools); [|done|by apply Hb].
    intros b' Hb'. by apply Hnn, Hb.
Qed.
End TeacherLectureMapCorrect.

Lemma with_model_lectureMaps_id (s : State) :
  with_model_lectureMaps (model s) (timeslotLectureBoolMap s) s = s.
Proof. by destruct s. Qed.

Lemma upd_model_with (f : CpModel -> CpModel) (M : CpModel)
      (L : gmap nat (gmap Timeslot.t IntVar)) (s : State) :
  upd_model f (with_model_lectureMaps M L s) = with_model_lectureMaps (f M) L s.
Proof. reflexivity. Qed.

Lemma upd_lectureMaps_with
      (g : gmap nat (gmap Timeslot.t IntVar) -> gmap nat (gmap Timeslot.t IntVar))
      (M : CpModel) (L : gmap nat (gmap Timeslot.t IntVar)) (s : State) :
  upd_timeslotLectureBoolMap g (with_model_lectureMaps M L s)
  = with_model_lectureMaps M (g L) s.
Proof. reflexivity. Qed.

Lemma with_model_lectureMaps_twice (M M' : CpModel)
      (L L' : gmap nat (gmap Timeslot.t IntVar)) (s : State) :
  with_model_lectureMaps M' L' (with_model_lectureMaps M L s)
  = with_model_lectureMaps M' L' s.
Proof. reflexivity. Qed.

Section TeacherLectureMapRuns.
Variable orm : ORM.

(** The inner loop over the lectures appends their booleans for the
    timeslot to the list of the timeslot. *)
Lemma wp_appendLectureBools (teacher : nat) (timeslot : Timeslot.t)
      (d : gmap Timeslot.t (list IntVar)) (cur : list IntVar) (s : State) :
  d !! timeslot = Some cur ->
  (forall l, l ∈ lecturesOf orm s teacher -> is_Some (lectureBool s l timeslot)) ->
  wp (foldM (appendLectureBool timeslot) (lecturesOf orm s teacher) d)
     (fun d' s' => s' = s /\ d' = <[timeslot := cur ++ lectureBools orm s teacher timeslot]> d)
     s.
Proof.
  intros Hcur Hready.
  apply (wp_foldM_read
           (fun done d' =>
              d' = <[timeslot := cur ++ omap (fun l => lectureBool s l timeslot) done]> d)).
  - cbn [omap list_omap]. rewrite app_nil_r. symmetry. by apply insert_id.
  - intros done l rest d' Hl ->. unfold appendLectureBool. wp_step.
    eapply wp_lift; [unfold dict_lookup; by rewrite lookup_insert_eq|].
    destruct (Hready l) as [b Hb].
    { rewrite Hl. apply elem_of_app. right. apply elem_of_cons. by left. }
    pose proof Hb as Hb'. unfold lectureBool in Hb.
    destruct (timeslotBoolVars s !! l) as [bools|] eqn:E; [|discriminate].
    destruct (py_index bools (Timeslot.id timeslot - 1)) as [b0|] eqn:Ei; [|discriminate].
    injection Hb as ->.
    wp_step. eapply wp_getattr; [exact E|]. wp_step. eapply wp_lift; [exact Ei|]. wp_step.
    split; [done|]. rewrite insert_insert_eq, omap_app. cbn [omap list_omap].
    rewrite Hb'. by rewrite app_assoc.
  - intros d' ->. done.
Qed.

(** The local dict after the second loop: for every timeslot a list with
    the timeslot booleans of the lectures of the teacher. *)
Definition lectureBoolsCollected (s : State) (teacher : nat)
           (d : gmap Timeslot.t (list IntVar)) : Prop :=
  forall timeslot, timeslot ∈ getTimeslots orm ->
    exists bools, d !! timeslot = Some bools /\
                  forall b, b ∈ bools <-> b ∈ lectureBools orm s teacher timeslot.

Lemma wp_collectLectureBools (teacher : nat) (s : State) :
  lectureBoolsReady orm s -> teacher ∈ getTeachers orm ->
  wp (foldM (fun d timeslot =>
               let* rows := get teacher_row in
               foldM (appendLectureBool timeslot)
                     (filter (fun l => is_lecture orm l = true)
                             (Teacher.lessons (rows teacher)))
                     d)
            (getTimeslots orm) (emptyListsOfTimeslots orm))
     (fun d s' => s' = s /\ lectureBoolsCollected s teacher d) s.
Proof.
  intros Hready Hteacher.
  apply (wp_foldM_read
           (fun done d =>
              (forall timeslot, timeslot ∈ getTimeslots orm -> is_Some (d !! timeslot)) /\
              forall timeslot bools, d !! timeslot = Some bools ->
                forall b, b ∈ bools <->
                          timeslot ∈ done /\ b ∈ lectureBools orm s teacher timeslot)).
  - split.
    + intros timeslot Hin. destruct (emptyListsOfTimeslots_lookup orm timeslot) as [-> _]; done.
    + intros timeslot bools Hd b.
      destruct (decide (timeslot ∈ getTimeslots orm)) as [Hin|Hin].
      * destruct (emptyListsOfTimeslots_lookup orm timeslot) as [E _].
        rewrite E in Hd by done. injection Hd as <-. set_solver.
      * destruct (emptyListsOfTimeslots_lookup orm timeslot) as [_ E].
        rewrite E in Hd by done. discriminate.
  - intros done timeslot rest d Hl [Hdom Hlists]. wp_step. wp_step.
    assert (Hin : timeslot ∈ getTimeslots orm).
    { rewrite Hl. apply elem_of_app. right. apply elem_of_cons. by left. }
    destruct (Hdom timeslot Hin) as [cur Hcur].
    eapply wp_mono.
    + apply (wp_appendLectureBools teacher timeslot d cur s Hcur).
      intros l Hl'. by apply (Hready teacher).
    + intros d' s' [-> ->]. split; [done|]. split.
      * intros timeslot' Hin'. destruct (decide (timeslot' = timeslot)) as [->|Hne].
        -- rewrite lookup_insert_eq. by eexists.
        -- rewrite lookup_insert_ne by done. by apply Hdom.
      * intros timeslot' bools Hd b. destruct (decide (timeslot' = timeslot)) as [->|Hne].
        -- rewrite lookup_insert_eq in Hd. injection Hd as <-.
           rewrite elem_of_app, (Hlists timeslot cur Hcur b). set_solver.
        -- rewrite lookup_insert_ne in Hd by done.
           rewrite (Hlists timeslot' bools Hd b). set_solver.
  - intros d [Hdom Hlists]. split; [done|]. intros timeslot Hin.
    destruct (Hdom timeslot Hin) as [bools Hd]. exists bools. split; [done|].
    intros b. rewrite (Hlists timeslot bools Hd b). tauto.
Qed.

(** The map of a teacher with its variables and their constraints. *)
Definition occupiedVarsAttached (s : State) (M : CpModel) (teacher : nat)
           (over : list Timeslot.t) (m : gmap Timeslot.t IntVar) : Prop :=
  (forall timeslot, is_Some (m !! timeslot) <-> timeslot ∈ over) /\
  forall timeslot tOccupied, m !! timeslot = Some tOccupied ->
    occupiedPosted orm s M teacher timeslot tOccupied.

Lemma wp_createOccupiedVars (teacher : nat) (d : gmap Timeslot.t (list IntVar)) (s : State) :
  timeslotLectureBoolMap s !! teacher = Some ∅ ->
  lectureBoolsCollected s teacher d ->
  wp (for_each (getTimeslots orm) (createOccupiedVar teacher d))
     (fun _ s' =>
        exists M m,
          s' = with_model_lectureMaps M (<[teacher := m]> (timeslotLectureBoolMap s)) s /\
          extends (model s) M /\
          occupiedVarsAttached s M teacher (getTimeslots orm) m)
     s.
Proof.
  intros Hempty Hcollected.
  apply (wp_for_each
           (fun done s' =>
              exists M m,
                s' = with_model_lectureMaps M (<[teacher := m]> (timeslotLectureBoolMap s)) s /\
                extends (model s) M /\
                occupiedVarsAttached s M teacher done m)).
  - exists (model s), ∅. split.
    + rewrite insert_id by done. symmetry. apply with_model_lectureMaps_id.
    + split; [apply extends_refl|]. split.
      * intros timeslot. rewrite lookup_empty. split; [by intros [? ?] | by intros ?%not_elem_of_nil].
      * intros timeslot tOccupied. by rewrite lookup_empty.
  - intros done timeslot rest s' Hl (M & m & -> & Hext & Hdom & Hposted).
    assert (Hin : timeslot ∈ getTimeslots orm).
    { rewrite Hl. apply elem_of_app. right. apply elem_of_cons. by left. }
    destruct (Hcollected timeslot Hin) as (bools & Hd & Hbools).
    unfold createOccupiedVar. wp_step. wp_step. rewrite upd_model_with.
    change (length (variables (model (with_model_lectureMaps M
              (<[teacher := m]> (timeslotLectureBoolMap s)) s))))
      with (length (variables M)).
    set (tOccupied := length (variables M)).
    set (M1 := add_variable (FromInterval 0 1) M).
    wp_step. eapply wp_lift; [unfold dict_lookup; by rewrite Hd|].
    wp_step. wp_step. rewrite upd_model_with.
    set (M2 := add_constraint (OnlyEnforceIf (BoolOr (map Lit bools)) (Lit tOccupied)) M1).
    wp_step. eapply wp_lift; [unfold dict_lookup; by rewrite Hd|].
    wp_step. wp_step. rewrite upd_model_with.
    set (M3 := add_constraint
                 (OnlyEnforceIf (Linear (Eq (py_sum (map Var bools)) (Const 0)))
                                (Not tOccupied)) M2).
    wp_step. eapply (wp_getattr _ _ m).
    { change (timeslotLectureBoolMap (with_model_lectureMaps M3
                (<[teacher := m]> (timeslotLectureBoolMap s)) s))
        with (<[teacher := m]> (timeslotLectureBoolMap s)).
      apply lookup_insert_eq. }
    wp_step. rewrite upd_lectureMaps_with, insert_insert_eq.
    assert (H12 : extends M M1) by apply extends_add_variable.
    assert (H23 : extends M1 M2) by apply extends_add_constraint.
    assert (H34 : extends M2 M3) by apply extends_add_constraint.
    assert (H13 : extends M M3) by (eapply extends_trans; [|eapply extends_trans]; done).
    exists M3, (<[timeslot := tOccupied]> m). split; [reflexivity|].
    split; [by eapply extends_trans|]. split.
    + intros timeslot'. destruct (decide (timeslot' = timeslot)) as [->|Hne].
      * rewrite lookup_insert_eq. split; [|by eexists]. intros _.
        apply elem_of_app. right. by apply list_elem_of_singleton.
      * rewrite lookup_insert_ne, Hdom, elem_of_app, list_elem_of_singleton by done. tauto.
    + intros timeslot' tOccupied' Hm. destruct (decide (timeslot' = timeslot)) as [->|Hne].
      * rewrite lookup_insert_eq in Hm. injection Hm as <-. split.
        -- apply (extends_variable M1); [by eapply extends_trans|].
           unfold M1, add_variable, tOccupied. cbn [variables].
           by rewrite lookup_app_r, Nat.sub_diag.
        -- exists bools. split; [done|]. split.
           ++ apply (extends_constraint M2); [done|]. unfold M2, add_constraint.
              cbn [constraints]. apply elem_of_app. right. by apply list_elem_of_singleton.
           ++ unfold M3, add_constraint. cbn [constraints]. apply elem_of_app. right.
              by apply list_elem_of_singleton.
      * rewrite lookup_insert_ne in Hm by done.
        apply (occupiedPosted_extends orm s M); [done|]. by apply Hposted.
  - intros s' H. exact H.
Qed.
End TeacherLectureMapRuns.

Lemma createTeacherLectureAtTimeslotMap_run (orm : ORM) (s0 : State) :
  lectureBoolsReady orm s0 ->
  exists M L,
    createTeacherLectureAtTimeslotMap orm s0 = Ok (tt, with_model_lectureMaps M L s0) /\
    extends (model s0) M /\
    forall teacher, teacher ∈ getTeachers orm ->
      exists m, L !! teacher = Some m /\
                occupiedVarsAttached orm s0 M teacher (getTimeslots orm) m.
Proof.
  intros Hready.
  assert (W : wp (createTeacherLectureAtTimeslotMap orm)
                 (fun _ s1 =>
                    exists M L,
                      s1 = with_model_lectureMaps M L s0 /\ extends (model s0) M /\
                      forall teacher, teacher ∈ getTeachers orm ->
                        exists m, L !! teacher = Some m /\
                                  occupiedVarsAttached orm s0 M teacher (getTimeslots orm) m)
                 s0).
  { unfold createTeacherLectureAtTimeslotMap.
    apply (wp_for_each
             (fun done s1 =>
                exists M L,
                  s1 = with_model_lectureMaps M L s0 /\ extends (model s0) M /\
                  forall teacher, teacher ∈ done ->
                    exists m, L !! teacher = Some m /\
                              occupiedVarsAttached orm s0 M teacher (getTimeslots orm) m)).
    - exists (model s0), (timeslotLectureBoolMap s0).
      split; [symmetry; apply with_model_lectureMaps_id|].
      split; [apply extends_refl|]. by intros teacher ?%not_elem_of_nil.
    - intros done x rest s Hl (M & L & -> & Hext & Hdone).
      assert (Hx : x ∈ getTeachers orm).
      { rewrite Hl. apply elem_of_app. right. apply elem_of_cons. by left. }
      wp_step. wp_step. rewrite upd_lectureMaps_with.
      set (sa := with_model_lectureMaps M (<[x := ∅]> L) s0).
      assert (Hready' : lectureBoolsReady orm sa) by exact Hready.
      wp_step. eapply wp_mono; [exact (wp_collectLectureBools orm x sa Hready' Hx)|].
      intros d s' [-> Hcollected].
      eapply wp_mono.
      + apply (wp_createOccupiedVars orm x d sa); [|exact Hcollected].
        change (timeslotLectureBoolMap sa) with (<[x := ∅]> L). apply lookup_insert_eq.
      + intros _ s' (M' & m & -> & Hext' & Hattached).
        change (timeslotLectureBoolMap sa) with (<[x := ∅]> L).
        change (model sa) with M in Hext'.
        unfold sa. rewrite with_model_lectureMaps_twice, insert_insert_eq.
        exists M', (<[x := m]> L). split; [reflexivity|].
        split; [by eapply extends_trans|].
        intros teacher Hteacher. destruct (decide (teacher = x)) as [->|Hne].
        * exists m. split; [apply lookup_insert_eq|]. exact Hattached.
        * apply elem_of_app in Hteacher as [Hteacher|Hteacher];
            [|apply list_elem_of_singleton in Hteacher; done].
          destruct (Hdone teacher Hteacher) as (m' & Hm' & Hdom & Hposted).
          exists m'. split; [by rewrite lookup_insert_ne|]. split; [exact Hdom|].
          intros timeslot tOccupied Hm.
          apply (occupiedPosted_extends orm s0 M); [done|]. by apply Hposted.
    - intros s H. exact H. }
  destruct W as ([] & s1 & Hrun & M & L & -> & Hext & Hall).
  exists M, L. auto.
Qed.

(** When every lecture of every teacher has a timeslot boolean for every
    timeslot, [createTeacherLectureAtTimeslotMap] returns normally. It only
    adds to the model and replaces the lecture-at-timeslot maps of the
    teachers. Afterwards every teacher of the catalog has a map whose keys
    are exactly the timeslots of the catalog, and in every feasible
    assignment of a model that extends the built one the variable of a
    timeslot is 0 or 1, is 1 only if one of the teacher's lectures has its
    timeslot boolean 1 there, and is 0 only if all of them are 0 there (the
    timeslot booleans not being negative). *)
Theorem createTeacherLectureAtTimeslotMap_attaches (orm : ORM) (s0 : State) :
  lectureBoolsReady orm s0 ->
  exists s1,
    createTeacherLectureAtTimeslotMap orm s0 = Ok (tt, s1) /\
    extends (model s0) (model s1) /\
    s1 = with_model_lectureMaps (model s1) (timeslotLectureBoolMap s1) s0 /\
    forall teacher, teacher ∈ getTeachers orm ->
      exists m,
        timeslotLectureBoolMap s1 !! teacher = Some m /\
        (forall timeslot, is_Some (m !! timeslot) <-> timeslot ∈ getTimeslots orm) /\
        forall timeslot tOccupied built val,
          m !! timeslot = Some tOccupied ->
          extends (model s1) built -> feasible val built ->
          (val tOccupied = 0 \/ val tOccupied = 1) /\
          (val tOccupied = 1 ->
           exists b, b ∈ lectureBools orm s0 teacher timeslot /\ val b = 1) /\
          ((forall b, b ∈ lectureBools orm s0 teacher timeslot -> 0 <= val b) ->
           val tOccupied = 0 ->
           forall b, b ∈ lectureBools orm s0 teacher timeslot -> val b = 0).
Proof.
  intros Hready.
  destruct (createTeacherLectureAtTimeslotMap_run orm s0 Hready)
    as (M & L & Hrun & Hext & Hall).
  exists (with_model_lectureMaps M L s0). split; [exact Hrun|].
  split; [exact Hext|]. split; [reflexivity|].
  intros teacher Hteacher. destruct (Hall teacher Hteacher) as (m & Hm & Hdom & Hposted).
  exists m. split; [exact Hm|]. split; [exact Hdom|].
  intros timeslot tOccupied built val Hlookup Hbuilt Hfeas.
  exact (occupiedPosted_feasible orm s0 M built val teacher timeslot tOccupied
           (Hposted timeslot tOccupied Hlookup) Hbuilt Hfeas).
Qed.


Lemma sample_lectureBoolsReady (row : Teacher.t) :
  Teacher.lessons row = [1; 2; 3; 4]%nat ->
  lectureBoolsReady Sample.orm (SampleState.attached row).
Proof.
  intros Hrow teacher l timeslot _ Hl Hts.
  apply list_elem_of_filter in Hl as [_ Hl].
  change (l ∈ Teacher.lessons row) in Hl. rewrite Hrow in Hl.
  assert (Hall : Forall (fun l => Forall (fun timeslot =>
                    is_Some (lectureBool (SampleState.attached row) l timeslot))
                    (getTimeslots Sample.orm)) [1; 2; 3; 4]%nat).
  { repeat (apply Forall_cons; split;
            [repeat (apply Forall_cons; split; [eexists; vm_compute; reflexivity|]);
             apply Forall_nil; done|]).
    apply Forall_nil. done. }
  rewrite Forall_forall in Hall. specialize (Hall l Hl).
  rewrite Forall_forall in Hall. by apply Hall.
Qed.

Lemma createTeacherLectureAtTimeslotMap_attaches_witness :
  exists s1 m,
    createTeacherLectureAtTimeslotMap Sample.orm (SampleState.attached Sample.lecturer)
    = Ok (tt, s1) /\
    timeslotLectureBoolMap s1 !! 1%nat = Some m /\
    is_Some (m !! Sample.slot 1).
Proof.
  destruct (createTeacherLectureAtTimeslotMap_attaches Sample.orm
              (SampleState.attached Sample.lecturer)
              (sample_lectureBoolsReady Sample.lecturer eq_refl))
    as (s1 & Hrun & _ & _ & Hall).
  destruct (Hall 1%nat) as (m & Hm & Hdom & _); [by apply list_elem_of_singleton|].
  exists s1, m. split; [exact Hrun|]. split; [exact Hm|].
  apply Hdom. apply elem_of_cons. by left.
Defined.

